(** * fulcrum-sdk: redaction, size bounding, entry validation and the
      best-effort dispatch / improvements clients

    A shallow embedding of the Python sources

      - [fulcrum_sdk/_internal/dispatch/redaction.py]
      - [fulcrum_sdk/_internal/dispatch/models.py]
      - [fulcrum_sdk/_internal/dispatch/client.py]
      - [fulcrum_sdk/_internal/improvements/models.py]
      - [fulcrum_sdk/_internal/improvements/client.py]

    and the properties the specification states about them.

    Conventions of the embedding.
      - A Python [str] is a [string]; every [ascii] is one code point, so
        the strings covered are those over the code points 0..255.  On
        that range [str.lower] is a per-character map, written out below.
      - A JSON-like Python value is a [pyvalue]: [None], [bool], [int],
        [str], [list] and [dict].  A [dict] is the list of its items in
        insertion order; keys are strings or (to cover non-string keys)
        integers.  Floats are left out.
      - Where a claim speaks about mutation and sharing, objects live in a
        store ([Module Heap]) and containers are referenced by address.
      - Code that can raise returns a [res]; code that talks to the
        network runs in the monad [M] over a [world] that records every
        HTTP request attempted and every line written to stderr. *)

From Stdlib Require Import ZArith Ascii String List Bool Lia.
From stdpp Require Import base decidable option list gmap strings.

Set Warnings "-register-all".

Local Open Scope Z_scope.

(* ===================================================================== *)
(** * Python strings *)
(* ===================================================================== *)

Module PyStr.

Definition code (c : ascii) : N := N_of_ascii c.

(** [str.lower] on one code point below 256: A-Z, and the Latin-1
    capitals U+00C0..U+00DE except the multiplication sign U+00D7, move
    up by 32; everything else is unchanged. *)
Definition lower_char (c : ascii) : ascii :=
  let n := code c in
  if ((65 <=? n) && (n <=? 90)
      || (192 <=? n) && (n <=? 222) && negb (n =? 215))%N
  then ascii_of_N (n + 32) else c.

Fixpoint lower (s : string) : string :=
  match s with
  | EmptyString => EmptyString
  | String c r => String (lower_char c) (lower r)
  end.

(** [len(s)] *)
Definition len (s : string) : Z := Z.of_nat (String.length s).

(** [s[:n]] for [n >= 0] *)
Fixpoint take (n : nat) (s : string) : string :=
  match n, s with
  | O, _ => EmptyString
  | S _, EmptyString => EmptyString
  | S n', String c r => String c (take n' r)
  end.

(** [s.replace(old, new)] for one-character [old] and [new] *)
Fixpoint replace (old new : ascii) (s : string) : string :=
  match s with
  | EmptyString => EmptyString
  | String c r =>
      String (if Ascii.eqb c old then new else c) (replace old new r)
  end.

(** [c in s] for a one-character [c] *)
Fixpoint contains (c : ascii) (s : string) : bool :=
  match s with
  | EmptyString => false
  | String c' r => Ascii.eqb c' c || contains c r
  end.


Definition newline : ascii := ascii_of_N 10.
Definition space : ascii := ascii_of_N 32.

(** ["x" * n] *)
Fixpoint repeat (c : ascii) (n : nat) : string :=
  match n with
  | O => EmptyString
  | S n' => String c (repeat c n')
  end.

(** [str(n)] for an [int] *)
Definition digit (d : N) : ascii := ascii_of_N (48 + d).

Fixpoint digits_pos (fuel : nat) (n : N) (acc : string) : string :=
  match fuel with
  | O => acc
  | S f =>
      let acc' := String (digit (n mod 10)) acc in
      if (n <? 10)%N then acc' else digits_pos f (n / 10)%N acc'
  end.

Definition of_N (n : N) : string := digits_pos (S (N.to_nat (N.log2 n))) n "".

Definition of_Z (z : Z) : string :=
  if z <? 0 then String "-" (of_N (Z.to_N (- z))) else of_N (Z.to_N z).

End PyStr.

(* ===================================================================== *)
(** * Python values *)
(* ===================================================================== *)

Inductive pykey : Type :=
  | KStr (s : string)
  | KInt (n : Z).

Inductive pyvalue : Type :=
  | VNone
  | VBool (b : bool)
  | VInt (n : Z)
  | VStr (s : string)
  | VList (xs : list pyvalue)
  | VDict (items : list (pykey * pyvalue)).

#[global] Instance pykey_eq_dec : EqDecision pykey.
Proof. solve_decision. Defined.

(** [d[key] = value]: an existing key keeps its place (and its key
    object), a new key goes to the end. *)
Fixpoint dict_set {V : Type} (d : list (pykey * V)) (key : pykey) (value : V)
  : list (pykey * V) :=
  match d with
  | [] => [(key, value)]
  | (k, v) :: rest =>
      if decide (k = key) then (k, value) :: rest
      else (k, v) :: dict_set rest key value
  end.

(** [{**d, **e}]: the items of [e] are assigned to [d] in turn. *)
Definition dict_merge {V : Type} (d e : list (pykey * V)) : list (pykey * V) :=
  fold_left (fun acc kv => dict_set acc (fst kv) (snd kv)) e d.

(** [d.get(key)] *)
Fixpoint dict_get {V : Type} (d : list (pykey * V)) (key : pykey) : option V :=
  match d with
  | [] => None
  | (k, v) :: rest => if decide (k = key) then Some v else dict_get rest key
  end.

(** The items of a Python dict have pairwise different keys. *)
Inductive wf_value : pyvalue -> Prop :=
  | wf_none : wf_value VNone
  | wf_bool b : wf_value (VBool b)
  | wf_int n : wf_value (VInt n)
  | wf_str s : wf_value (VStr s)
  | wf_list xs : Forall wf_value xs -> wf_value (VList xs)
  | wf_dict items :
      NoDup (map fst items) ->
      Forall (fun kv => wf_value (snd kv)) items ->
      wf_value (VDict items).


(* ===================================================================== *)
(** * redaction.py *)
(* ===================================================================== *)

Module Redaction.

Definition REDACT_KEYS : gset string :=
  {[ "api_key"; "token"; "secret"; "password"; "access_key";
     "refresh_token"; "authorization"; "auth_token"; "private_key";
     "secret_key"; "credentials" ]}.

Definition REDACTED_VALUE : string := "[REDACTED]".

(** [key.lower() if isinstance(key, str) else key] *)
Definition key_lower (key : pykey) : pykey :=
  match key with
  | KStr s => KStr (PyStr.lower s)
  | KInt n => KInt n
  end.

(** [key_lower in REDACT_KEYS]: the set holds strings only. *)
Definition in_REDACT_KEYS (k : pykey) : bool :=
  match k with
  | KStr s => bool_decide (s ∈ REDACT_KEYS)
  | KInt _ => false
  end.

Fixpoint _redact_recursive (obj : pyvalue) : pyvalue :=
  match obj with
  | VDict items =>
      VDict
        (fold_left
           (fun result kv =>
              if in_REDACT_KEYS (key_lower (fst kv))
              then dict_set result (fst kv) (VStr REDACTED_VALUE)
              else dict_set result (fst kv) (_redact_recursive (snd kv)))
           items [])
  | VList xs => VList (map _redact_recursive xs)
  | _ => obj
  end.

Fixpoint _deep_copy (obj : pyvalue) : pyvalue :=
  match obj with
  | VDict items =>
      VDict
        (fold_left
           (fun result kv => dict_set result (fst kv) (_deep_copy (snd kv)))
           items [])
  | VList xs => VList (map _deep_copy xs)
  | _ => obj
  end.

Definition redact_payload (payload : pyvalue) (skip_redaction : bool)
  : pyvalue :=
  if skip_redaction then _deep_copy payload else _redact_recursive payload.

End Redaction.

(* ===================================================================== *)
(** * Exceptions and results *)
(* ===================================================================== *)

(** The classes of exception that occur.  All of them derive from
    Python's [Exception]; [KeyboardInterrupt] and the like are outside the
    model.  [FulcrumConfigError] is the configuration error that
    [exceptions.py] declares (a subclass of [FulcrumError], not of
    [ValueError]); nothing in the clients raises it. *)
Inductive exn_class : Type :=
  | ValueError
  | TypeError
  | AttributeError
  | OverflowError
  | ValidationError
  | PydanticSerializationError
  | JSONDecodeError
  | TimeoutException
  | ConnectError
  | FulcrumConfigError
  | OtherException.

Record exn : Type := Exn { exn_cls : exn_class; exn_msg : string }.

Inductive res (A : Type) : Type :=
  | Ret (a : A)
  | Raise (e : exn).
Arguments Ret {A} a.
Arguments Raise {A} e.

Definition res_bind {A B : Type} (r : res A) (k : A -> res B) : res B :=
  match r with
  | Ret a => k a
  | Raise e => Raise e
  end.

#[global] Instance exn_class_eq_dec : EqDecision exn_class.
Proof. solve_decision. Defined.

(* ===================================================================== *)
(** * redaction.py on a store: mutation and sharing *)
(* ===================================================================== *)

(** Containers are objects in a store and are referred to by address;
    [None], booleans, integers and strings are immutable and stand for
    themselves.  The store is the list of all container objects, the
    address of an object is its index, and a new object goes to the end. *)
Module Heap.

Abbreviation loc := nat.

Inductive hval : Type :=
  | HNone
  | HBool (b : bool)
  | HInt (n : Z)
  | HStr (s : string)
  | HRef (l : loc).

Inductive hobj : Type :=
  | OList (xs : list hval)
  | ODict (items : list (pykey * hval)).

Abbreviation heap := (list hobj).

(** [{}] or [[]]: a new object at an address not in use. *)
Definition alloc (o : hobj) (h : heap) : loc * heap := (length h, h ++ [o]).

(** [result[key] = value] on the dict at address [r] *)
Definition store_item (r : loc) (key : pykey) (value : hval) (h : heap) : heap :=
  match h !! r with
  | Some (ODict items) => <[r := ODict (dict_set items key value)]> h
  | _ => h
  end.

(** [result.append(value)] on the list at address [r], the step of a list
    comprehension *)
Definition list_append (r : loc) (value : hval) (h : heap) : heap :=
  match h !! r with
  | Some (OList xs) => <[r := OList (xs ++ [value])]> h
  | _ => h
  end.

(** A [for] loop whose body may fail to return. *)
Fixpoint for_each {A : Type} (body : A -> heap -> option heap)
         (xs : list A) (h : heap) : option heap :=
  match xs with
  | [] => Some h
  | x :: rest =>
      match body x h with
      | Some h' => for_each body rest h'
      | None => None
      end
  end.

(** [fuel] bounds the recursion depth; running out of it ([None]) stands
    for Python's [RecursionError] on a cyclic or too deep structure, as
    does following an address that holds no object. *)
Fixpoint _redact_recursive (fuel : nat) (obj : hval) (h : heap)
  : option (hval * heap) :=
  match fuel with
  | O => None
  | S fuel' =>
      match obj with
      | HRef l =>
          match h !! l with
          | Some (ODict items) =>
              let '(result, h0) := alloc (ODict []) h in
              match
                for_each
                  (fun kv h1 =>
                     if Redaction.in_REDACT_KEYS (Redaction.key_lower (fst kv))
                     then Some (store_item result (fst kv)
                                  (HStr Redaction.REDACTED_VALUE) h1)
                     else
                       match _redact_recursive fuel' (snd kv) h1 with
                       | Some (v, h2) => Some (store_item result (fst kv) v h2)
                       | None => None
                       end)
                  items h0
              with
              | Some h' => Some (HRef result, h')
              | None => None
              end
          | Some (OList xs) =>
              let '(result, h0) := alloc (OList []) h in
              match
                for_each
                  (fun item h1 =>
                     match _redact_recursive fuel' item h1 with
                     | Some (v, h2) => Some (list_append result v h2)
                     | None => None
                     end)
                  xs h0
              with
              | Some h' => Some (HRef result, h')
              | None => None
              end
          | None => None
          end
      | _ => Some (obj, h)
      end
  end.

Fixpoint _deep_copy (fuel : nat) (obj : hval) (h : heap)
  : option (hval * heap) :=
  match fuel with
  | O => None
  | S fuel' =>
      match obj with
      | HRef l =>
          match h !! l with
          | Some (ODict items) =>
              let '(result, h0) := alloc (ODict []) h in
              match
                for_each
                  (fun kv h1 =>
                     match _deep_copy fuel' (snd kv) h1 with
                     | Some (v, h2) => Some (store_item result (fst kv) v h2)
                     | None => None
                     end)
                  items h0
              with
              | Some h' => Some (HRef result, h')
              | None => None
              end
          | Some (OList xs) =>
              let '(result, h0) := alloc (OList []) h in
              match
                for_each
                  (fun item h1 =>
                     match _deep_copy fuel' item h1 with
                     | Some (v, h2) => Some (list_append result v h2)
                     | None => None
                     end)
                  xs h0
              with
              | Some h' => Some (HRef result, h')
              | None => None
              end
          | None => None
          end
      | _ => Some (obj, h)
      end
  end.

Definition redact_payload (fuel : nat) (payload : hval) (skip_redaction : bool)
           (h : heap) : option (hval * heap) :=
  if skip_redaction then _deep_copy fuel payload h
  else _redact_recursive fuel payload h.

(** The value an address stands for, read out of the store down to the
    leaves: what a deep comparison of two objects compares. *)
Fixpoint read (fuel : nat) (h : heap) (v : hval) : option pyvalue :=
  match fuel with
  | O => None
  | S fuel' =>
      match v with
      | HNone => Some VNone
      | HBool b => Some (VBool b)
      | HInt n => Some (VInt n)
      | HStr s => Some (VStr s)
      | HRef l =>
          match h !! l with
          | Some (OList xs) => VList <$> mapM (read fuel' h) xs
          | Some (ODict items) =>
              VDict <$>
                mapM (fun kv => pair (fst kv) <$> read fuel' h (snd kv)) items
          | None => None
          end
      end
  end.

(** [reachable h v l]: the container at address [l] is [v] itself or is
    nested somewhere inside it. *)
Inductive reachable (h : heap) : hval -> loc -> Prop :=
  | reach_here l : reachable h (HRef l) l
  | reach_list l xs x l' :
      h !! l = Some (OList xs) -> x ∈ xs -> reachable h x l' ->
      reachable h (HRef l) l'
  | reach_dict l items kv l' :
      h !! l = Some (ODict items) -> kv ∈ items -> reachable h (snd kv) l' ->
      reachable h (HRef l) l'.

(** Every container nested in [v] lives at an address [>= n]. *)
Fixpoint above (fuel : nat) (n : nat) (h : heap) (v : hval) : bool :=
  match fuel with
  | O => false
  | S fuel' =>
      match v with
      | HRef l =>
          (n <=? l)%nat &&
          match h !! l with
          | Some (OList xs) => forallb (above fuel' n h) xs
          | Some (ODict items) =>
              forallb (fun kv => above fuel' n h (snd kv)) items
          | None => false
          end
      | _ => true
      end
  end.

End Heap.

(* ===================================================================== *)
(** * json.dumps and UTF-8 *)
(* ===================================================================== *)

(** [json.dumps(payload, default=str)] with the defaults of the standard
    library: separators [", "] and [": "], [ensure_ascii=True].  On the
    values of [pyvalue] [default] is never called, and the one way to
    fail is an integer, as a value or as a key, of more than 4300 digits:
    the conversion of an [int] to its decimal text is limited to
    [sys.get_int_max_str_digits()] digits, 4300 unless the interpreter is
    configured otherwise, and raises [ValueError] beyond. *)
Module Json.

(** The least magnitude that has more than 4300 digits. *)
Definition int_limit : Z := 10 ^ 4300.

Definition int_ok (n : Z) : bool := Z.abs n <? int_limit.

Definition key_ok (k : pykey) : bool :=
  match k with
  | KStr _ => true
  | KInt n => int_ok n
  end.

(** No integer in [v], value or key, at any depth, is beyond the limit. *)
Fixpoint encodable (v : pyvalue) : bool :=
  match v with
  | VInt n => int_ok n
  | VList xs => forallb encodable xs
  | VDict items =>
      forallb (fun kv => key_ok (fst kv) && encodable (snd kv)) items
  | _ => true
  end.

Definition digits_error : exn :=
  Exn ValueError
      "Exceeds the limit (4300 digits) for integer string conversion; use sys.set_int_max_str_digits() to increase the limit".

Definition dquote : ascii := ascii_of_N 34.
Definition backslash : ascii := ascii_of_N 92.

Definition hex_digit (n : N) : ascii :=
  if (n <? 10)%N then ascii_of_N (48 + n) else ascii_of_N (87 + n).

(** One character of a string literal: the short escapes, printable ASCII
    as it is, anything else as a [\uXXXX] escape. *)
Definition escape_char (c : ascii) : string :=
  let n := PyStr.code c in
  if (n =? 34)%N then String backslash (String dquote "")
  else if (n =? 92)%N then String backslash (String backslash "")
  else if (n =? 10)%N then String backslash "n"
  else if (n =? 13)%N then String backslash "r"
  else if (n =? 9)%N then String backslash "t"
  else if (n =? 8)%N then String backslash "b"
  else if (n =? 12)%N then String backslash "f"
  else if ((32 <=? n) && (n <=? 126))%N then String c ""
  else String backslash
         ("u00" +:+ String (hex_digit (n / 16)) (String (hex_digit (n mod 16)) "")).

Fixpoint escape (s : string) : string :=
  match s with
  | EmptyString => EmptyString
  | String c r => escape_char c +:+ escape r
  end.

Definition quote (s : string) : string :=
  String dquote (escape s +:+ String dquote "").

(** A key that is not a string is written as the string of its value. *)
Definition dumps_key (k : pykey) : string :=
  match k with
  | KStr s => quote s
  | KInt n => quote (PyStr.of_Z n)
  end.

(** The text [json.dumps] writes for a value it can write. *)
Fixpoint text (v : pyvalue) : string :=
  match v with
  | VNone => "null"
  | VBool true => "true"
  | VBool false => "false"
  | VInt n => PyStr.of_Z n
  | VStr s => quote s
  | VList xs => "[" +:+ String.concat ", " (map text xs) +:+ "]"
  | VDict items =>
      "{" +:+ String.concat ", "
                (map (fun kv => dumps_key (fst kv) +:+ ": " +:+ text (snd kv))
                     items)
          +:+ "}"
  end.

Definition dumps (v : pyvalue) : res string :=
  if encodable v then Ret (text v) else Raise digits_error.

(** [s.encode("utf-8")] *)
Definition encode_char (c : ascii) : list Byte.byte :=
  let n := PyStr.code c in
  if (n <? 128)%N then [byte_of_ascii c]
  else [byte_of_ascii (ascii_of_N (192 + n / 64));
        byte_of_ascii (ascii_of_N (128 + n mod 64))].

Fixpoint encode_utf8 (s : string) : list Byte.byte :=
  match s with
  | EmptyString => []
  | String c r => encode_char c ++ encode_utf8 r
  end.

End Json.

(* ===================================================================== *)
(** * dispatch/models.py *)
(* ===================================================================== *)

Module Models.

Definition SUMMARY_MAX_LENGTH : Z := 512.
Definition PAYLOAD_MAX_SIZE_BYTES : Z := 64 * 1024.
Definition PAYLOAD_MAX_DEPTH : Z := 3.
Definition KIND_MAX_LENGTH : Z := 64.
Definition SOURCE_MAX_LENGTH : Z := 32.
Definition SCHEMA_VERSION : Z := 1.

Record DispatchEntry : Type := {
  ticket_uuid : string;
  run_uuid : string;
  kind : string;
  summary : string;
  message_uuid : option string;
  payload : option pyvalue;
  source : string;
  schema_version : Z;
  client_ts : option string
}.

Definition validation_error (msg : string) : exn := Exn ValidationError msg.

(** A field declared [str]: [None] is not accepted. *)
Definition str_field (name : string) (v : option string) : res string :=
  match v with
  | Some s => Ret s
  | None => Raise (validation_error (name +:+ ": Input should be a valid string"))
  end.

(** [Field(max_length=n)] *)
Definition max_length (name : string) (n : Z) (v : string) : res string :=
  if n <? PyStr.len v
  then Raise (validation_error (name +:+ ": String should have at most "
                                  +:+ PyStr.of_Z n +:+ " characters"))
  else Ret v.

(** The two [field_validator]s; a [ValueError] raised by a validator
    reaches the caller as a [ValidationError]. *)
Definition summary_single_line (v : string) : res string :=
  if PyStr.contains PyStr.newline v
  then Raise (validation_error "summary must be a single line (no newlines)")
  else Ret v.

Definition kind_not_empty (v : string) : res string :=
  if bool_decide (v = "")
  then Raise (validation_error "kind must not be empty")
  else Ret v.

(** A field declared [dict[str, Any] | None] *)
Definition str_key (k : pykey) : bool :=
  match k with
  | KStr _ => true
  | KInt _ => false
  end.

Definition dict_field (name : string) (v : option pyvalue)
  : res (option pyvalue) :=
  match v with
  | None => Ret None
  | Some (VDict items) =>
      if forallb (fun kv => str_key (fst kv)) items then Ret (Some (VDict items))
      else Raise (validation_error (name +:+ ": Input should be a valid string"))
  | Some _ =>
      Raise (validation_error (name +:+ ": Input should be a valid dictionary"))
  end.

(** The field [kind], and the field [summary]: the declared constraint
    first, then the validator. *)
Definition validate_kind (v : string) : res string :=
  res_bind (max_length "kind" KIND_MAX_LENGTH v) kind_not_empty.

Definition validate_summary (v : string) : res string :=
  res_bind (max_length "summary" SUMMARY_MAX_LENGTH v) summary_single_line.

(** [DispatchEntry(ticket_uuid=..., ..., client_ts=...)] *)
Definition new_DispatchEntry
           (ticket_uuid run_uuid : option string) (kind summary : string)
           (message_uuid : option string) (payload : option pyvalue)
           (source : string) (schema_version : Z) (client_ts : option string)
  : res DispatchEntry :=
  res_bind (str_field "ticket_uuid" ticket_uuid) (fun t =>
  res_bind (str_field "run_uuid" run_uuid) (fun r =>
  res_bind (validate_kind kind) (fun k =>
  res_bind (validate_summary summary) (fun s =>
  res_bind (dict_field "payload" payload) (fun p =>
  res_bind (max_length "source" SOURCE_MAX_LENGTH source) (fun src =>
  Ret {| ticket_uuid := t; run_uuid := r; kind := k; summary := s;
         message_uuid := message_uuid; payload := p; source := src;
         schema_version := schema_version; client_ts := client_ts |})))))).

Definition opt_item (name : string) (v : option string)
  : list (pykey * pyvalue) :=
  match v with
  | Some s => [(KStr name, VStr s)]
  | None => []
  end.

(** [entry.model_dump(mode="json", exclude_none=True)]: the fields in the
    order of their declaration, those that are [None] left out.  The
    payload, a tree of JSON values, is taken over as it is. *)
Definition model_dump (e : DispatchEntry) : pyvalue :=
  VDict
    ([(KStr "ticket_uuid", VStr (ticket_uuid e));
      (KStr "run_uuid", VStr (run_uuid e));
      (KStr "kind", VStr (kind e));
      (KStr "summary", VStr (summary e))]
     ++ opt_item "message_uuid" (message_uuid e)
     ++ match payload e with
        | Some p => [(KStr "payload", p)]
        | None => []
        end
     ++ [(KStr "source", VStr (source e));
         (KStr "schema_version", VInt (schema_version e))]
     ++ opt_item "client_ts" (client_ts e)).

End Models.

(* ===================================================================== *)
(** * The outside world: HTTP, stderr, the clock *)
(* ===================================================================== *)

Inductive http_method : Type := GET | POST | PATCH | DELETE.

(** One request handed to [httpx.Client(timeout=timeout_ms / 1000)] by
    its [get], [post], [patch] or [delete] and sent. *)
Record request : Type := {
  req_method : http_method;
  req_url : option string;
  req_params : list (string * option string);
  req_json : option pyvalue;
  req_headers : list (string * string);
  req_timeout_ms : Z
}.

(** What comes back: the status code and what [response.json()] gives. *)
Record response : Type := {
  status_code : Z;
  json : res pyvalue
}.

(** [sent]: every request attempted so far, oldest first; [stderr]:
    every line printed to [sys.stderr]. *)
Record world : Type := {
  sent : list request;
  stderr : list string
}.

(** What the code does not control: how the transport answers a request
    (a response, or an exception such as a timeout or a refused
    connection), and what [datetime.now(UTC).isoformat()] returns. *)
Record runtime : Type := {
  transport : list request -> request -> res response;
  utcnow_isoformat : string
}.

(** Computations that may raise and that act on the world. *)
Definition M (A : Type) : Type := world -> res A * world.

Definition ret {A : Type} (a : A) : M A := fun w => (Ret a, w).

Definition raise {A : Type} (e : exn) : M A := fun w => (Raise e, w).

Definition bind {A B : Type} (m : M A) (k : A -> M B) : M B :=
  fun w =>
    match m w with
    | (Ret a, w') => k a w'
    | (Raise e, w') => (Raise e, w')
    end.

Definition lift {A : Type} (r : res A) : M A := fun w => (r, w).

(** [try: body except Exception as e: handler(e)] *)
Definition try_except {A : Type} (body : M A) (handler : exn -> M A) : M A :=
  fun w =>
    match body w with
    | (Ret a, w') => (Ret a, w')
    | (Raise e, w') => handler e w'
    end.

Declare Scope M_scope.
Delimit Scope M_scope with M.
Notation "x <- m ;; k" := (bind m (fun x => k))
  (at level 100, m at next level, right associativity) : M_scope.
Notation "m ;;; k" := (bind m (fun _ => k))
  (at level 100, right associativity) : M_scope.

(** [print(line, file=sys.stderr)] *)
Definition print_stderr (line : string) : M unit :=
  fun w => (Ret tt, {| sent := sent w; stderr := stderr w ++ [line] |}).

(** [timeout_ms / 1000], the argument of [httpx.Client(timeout=...)].
    The true division of two integers gives the nearest float and raises
    [OverflowError] when that would be [2**1024] or beyond, which is from
    the magnitude [1000 * (2**1024 - 2**970)] of the dividend on.  The
    float is not modelled: the timeout of a request stays in
    milliseconds. *)
Definition float_limit_ms : Z := 1000 * (2 ^ 1024 - 2 ^ 970).

Definition timeout_ok (timeout_ms : Z) : bool :=
  Z.abs timeout_ms <? float_limit_ms.

Definition ms_to_seconds (timeout_ms : Z) : res Z :=
  if timeout_ok timeout_ms then Ret timeout_ms
  else Raise (Exn OverflowError "integer division result too large for a float").

(** httpx writes the body of a request with [json.dumps] while it builds
    the request: a body that cannot be written raises before anything is
    sent. *)
Definition body_ok (req : request) : bool :=
  match req_json req with
  | Some body => Json.encodable body
  | None => true
  end.

(** One request through the transport.  Once it is built it is recorded
    as attempted, whether or not an answer comes back. *)
Definition http (rt : runtime) (req : request) : M response :=
  fun w =>
    if body_ok req then
      (transport rt (sent w) req,
       {| sent := sent w ++ [req]; stderr := stderr w |})
    else (Raise Json.digits_error, w).

(** [bool(x)] for [x : str | None] *)
Definition truthy (x : option string) : bool :=
  match x with
  | Some s => negb (bool_decide (s = ""))
  | None => false
  end.

(** [x or y] for [x, y : str | None] *)
Definition or_else (x y : option string) : option string :=
  if truthy x then x else y.

(** [f"{x}"] for [x : str | None] *)
Definition fmt (x : option string) : string :=
  match x with
  | Some s => s
  | None => "None"
  end.

(** [f"{e}"] for an exception *)
Definition str_exn (e : exn) : string := exn_msg e.

(** [200 <= status_code < 300] *)
Definition is_success (r : response) : bool :=
  (200 <=? status_code r) && (status_code r <? 300).

(** [isinstance(e, httpx.TimeoutException)] *)
Definition is_timeout (e : exn) : bool :=
  bool_decide (exn_cls e = TimeoutException).

(* ===================================================================== *)
(** * Reading integers from the environment *)
(* ===================================================================== *)

Module PyInt.

(** The characters [int()] skips around a literal: the ASCII whitespace
    [\t \n \v \f \r] and the space, and the whitespace beyond ASCII,
    which below 256 is U+0085 and U+00A0.  The separators U+001C..U+001F,
    which [str.isspace] accepts, are not skipped. *)
Definition is_space (c : ascii) : bool :=
  let n := PyStr.code c in
  ((9 <=? n) && (n <=? 13) || (n =? 32) || (n =? 133) || (n =? 160))%N.

Definition is_digit (c : ascii) : bool :=
  let n := PyStr.code c in ((48 <=? n) && (n <=? 57))%N.

Fixpoint lstrip (s : string) : string :=
  match s with
  | String c r => if is_space c then lstrip r else s
  | EmptyString => EmptyString
  end.

Fixpoint all_space (s : string) : bool :=
  match s with
  | String c r => is_space c && all_space r
  | EmptyString => true
  end.

(** The limit on the number of digits of a literal,
    [sys.get_int_max_str_digits()]: 4300 unless the interpreter is
    configured otherwise. *)
Definition MAX_STR_DIGITS : Z := 4300.

(** What reading a literal comes to. *)
Inductive outcome : Type :=
  | Value (z : Z)
  | Invalid
  | TooLong (digits : Z).

(** The run of digits, with single underscores between them, at the
    head of [s]: its value, the number of its digits and what follows
    it, or [None] for an underscore that follows an underscore or ends
    the run.  [prev] tells whether the previous character was an
    underscore. *)
Fixpoint scan (s : string) (prev : bool) (acc digits : Z)
  : option (Z * Z * string) :=
  match s with
  | String c r =>
      if is_digit c then
        scan r false (10 * acc + Z.of_N (PyStr.code c - 48)) (digits + 1)
      else if Ascii.eqb c "_" then
        if prev then None else scan r true acc digits
      else if prev then None else Some (acc, digits, s)
  | EmptyString => if prev then None else Some (acc, digits, EmptyString)
  end.

(** After the sign: no underscore in front, the run of digits, the limit
    on their number, at least one digit, and nothing but whitespace
    behind. *)
Definition unsigned (s : string) : outcome :=
  match s with
  | String "_" _ => Invalid
  | _ =>
      match scan s false 0 0 with
      | None => Invalid
      | Some (z, digits, rest) =>
          if MAX_STR_DIGITS <? digits then TooLong digits
          else if digits =? 0 then Invalid
          else if all_space rest then Value z
          else Invalid
      end
  end.

Definition parse (s : string) : outcome :=
  match lstrip s with
  | String "-" r =>
      match unsigned r with
      | Value z => Value (- z)
      | o => o
      end
  | String "+" r => unsigned r
  | r => unsigned r
  end.

(** [int(s)] for a string [s] *)
Definition int (s : string) : res Z :=
  match parse s with
  | Value z => Ret z
  | Invalid =>
      Raise (Exn ValueError
               ("invalid literal for int() with base 10: '" +:+ s +:+ "'"))
  | TooLong digits =>
      Raise (Exn ValueError
               ("Exceeds the limit (4300 digits) for integer string conversion: value has "
                +:+ PyStr.of_Z digits
                +:+ " digits; use sys.set_int_max_str_digits() to increase the limit"))
  end.

End PyInt.

(* ===================================================================== *)
(** * dispatch/client.py *)
(* ===================================================================== *)

(** A pydantic model instance as [dispatch_model] uses it: the name of its
    class and what [model.model_dump(mode="json")] evaluates to, a value
    or, for a field that has no JSON form, a
    [PydanticSerializationError]. *)
Record BaseModel : Type := {
  class_name : string;
  model_dump_json : res pyvalue
}.

Module DispatchClient.

Definition DEFAULT_TIMEOUT_MS : Z := 1500.
Definition DEFAULT_MAX_BYTES : Z := Models.PAYLOAD_MAX_SIZE_BYTES.

Record t : Type := {
  _dispatch_url : option string;
  _dispatch_token : option string;
  _ticket_uuid : option string;
  _run_uuid : option string;
  _message_uuid : option string;
  _timeout_ms : Z;
  _max_bytes : Z;
  _debug : bool;
  _enabled : bool
}.

(** [all([dispatch_url, dispatch_token, ticket_uuid, run_uuid])] is
    evaluated in [__init__] and stored. *)
Definition __init__
           (dispatch_url dispatch_token ticket_uuid run_uuid
              message_uuid : option string)
           (timeout_ms max_bytes : Z) (debug : bool) : t :=
  {| _dispatch_url := dispatch_url;
     _dispatch_token := dispatch_token;
     _ticket_uuid := ticket_uuid;
     _run_uuid := run_uuid;
     _message_uuid := message_uuid;
     _timeout_ms := timeout_ms;
     _max_bytes := max_bytes;
     _debug := debug;
     _enabled := forallb truthy
                   [dispatch_url; dispatch_token; ticket_uuid; run_uuid] |}.

(** [os.environ] is a map from names to strings. *)
Definition from_env (environ : gmap string string) : res t :=
  let dispatch_url := environ !! "FULCRUM_DISPATCH_URL" in
  let dispatch_token := environ !! "FULCRUM_DISPATCH_TOKEN" in
  let ticket_uuid := environ !! "FULCRUM_TICKET_UUID" in
  let run_uuid := environ !! "FULCRUM_RUN_UUID" in
  let message_uuid := environ !! "FULCRUM_MESSAGE_UUID" in
  let debug :=
    bool_decide (default "" (environ !! "FULCRUM_DISPATCH_DEBUG") = "1") in
  res_bind
    (PyInt.int (default (PyStr.of_Z DEFAULT_TIMEOUT_MS)
                        (environ !! "FULCRUM_DISPATCH_TIMEOUT_MS")))
    (fun timeout_ms =>
  res_bind
    (PyInt.int (default (PyStr.of_Z DEFAULT_MAX_BYTES)
                        (environ !! "FULCRUM_DISPATCH_MAX_BYTES")))
    (fun max_bytes =>
  Ret (__init__ dispatch_url dispatch_token ticket_uuid run_uuid message_uuid
                timeout_ms max_bytes debug))).

Definition enabled (self : t) : bool := _enabled self.

Definition _log_debug (self : t) (message : string) : M unit :=
  if _debug self then print_stderr ("[fulcrum-sdk] " +:+ message)
  else ret tt.

(** It raises what [json.dumps] raises. *)
Definition _truncate_payload (self : t) (payload : pyvalue) : res pyvalue :=
  res_bind (Json.dumps payload) (fun payload_json =>
  if Z.of_nat (length (Json.encode_utf8 payload_json)) <=? _max_bytes self
  then Ret payload
  else
    Ret (VDict [(KStr "_truncated", VBool true);
                (KStr "_original_size",
                 VInt (Z.of_nat (length (Json.encode_utf8 payload_json))));
                (KStr "_max_size", VInt (_max_bytes self))])).

Definition _send (rt : runtime) (self : t) (entry : Models.DispatchEntry)
  : M bool :=
  try_except
    (timeout_ms <- lift (ms_to_seconds (_timeout_ms self)) ;;
     response <-
       http rt
         {| req_method := POST;
            req_url := _dispatch_url self;
            req_params := [];
            req_json := Some (Models.model_dump entry);
            req_headers :=
              [("Authorization", "Bearer " +:+ fmt (_dispatch_token self));
               ("Content-Type", "application/json")];
            req_timeout_ms := timeout_ms |} ;;
     if is_success response
     then (_log_debug self "Dispatch succeeded" ;;; ret true)
     else (_log_debug self ("Dispatch failed with status "
                              +:+ PyStr.of_Z (status_code response)) ;;;
           ret false))%M
    (fun e =>
       if is_timeout e
       then (_log_debug self "Dispatch timed out" ;;; ret false)%M
       else (_log_debug self ("Dispatch error: " +:+ str_exn e) ;;;
             ret false)%M).

(** The first steps of [dispatch]'s [try] block. *)
Definition truncate_summary (summary : string) : string :=
  if Models.SUMMARY_MAX_LENGTH <? PyStr.len summary
  then PyStr.take (Z.to_nat (Models.SUMMARY_MAX_LENGTH - 3)) summary +:+ "..."
  else summary.

Definition process_payload (self : t) (payload : option pyvalue)
           (skip_redaction : bool) : res (option pyvalue) :=
  match payload with
  | Some p =>
      res_bind
        (_truncate_payload self (Redaction.redact_payload p skip_redaction))
        (fun processed => Ret (Some processed))
  | None => Ret None
  end.

(** The entry [dispatch] builds: the summary is cut, the payload is
    redacted and bounded, then the newlines of the summary are replaced,
    and only then is the entry validated. *)
Definition build_entry (rt : runtime) (self : t) (kind summary : string)
           (payload : option pyvalue) (source : string)
           (client_ts : option string) (skip_redaction : bool)
  : res Models.DispatchEntry :=
  let summary := truncate_summary summary in
  res_bind (process_payload self payload skip_redaction)
    (fun processed_payload =>
  Models.new_DispatchEntry
    (_ticket_uuid self) (_run_uuid self) kind
    (PyStr.replace PyStr.newline PyStr.space summary)
    (_message_uuid self) processed_payload source Models.SCHEMA_VERSION
    (or_else client_ts (Some (utcnow_isoformat rt)))).

Definition dispatch (rt : runtime) (self : t) (kind summary : string)
           (payload : option pyvalue) (source : string)
           (client_ts : option string) (skip_redaction : bool) : M bool :=
  if negb (_enabled self)
  then (_log_debug self "Client not enabled, skipping dispatch" ;;;
        ret false)%M
  else
    try_except
      (entry <- lift (build_entry rt self kind summary payload source
                                  client_ts skip_redaction) ;;
       _log_debug self ("Sending dispatch: " +:+ Models.kind entry +:+ " - "
                          +:+ PyStr.take 50 (Models.summary entry)) ;;;
       _send rt self entry)%M
      (fun e =>
         (_log_debug self ("Dispatch failed: " +:+ str_exn e) ;;;
          ret false)%M).

(** ** Convenience methods *)

Definition dispatch_text (rt : runtime) (self : t) (summary : string)
           (text : option string) : M bool :=
  let payload :=
    match text with
    | Some s => Some (VDict [(KStr "text", VStr s)])
    | None => None
    end in
  dispatch rt self "text" summary payload "sdk" None false.

Definition dispatch_json (rt : runtime) (self : t) (summary : string)
           (payload : pyvalue) : M bool :=
  dispatch rt self "json" summary (Some payload) "sdk" None false.

(** [{..., **details}]: every keyword argument is assigned in turn. *)
Definition dict_update (d : list (pykey * pyvalue))
           (kwargs : list (string * pyvalue)) : list (pykey * pyvalue) :=
  fold_left (fun acc kv => dict_set acc (KStr (fst kv)) (snd kv)) kwargs d.

Definition dispatch_api_call (rt : runtime) (self : t) (summary : string)
           (service operation : string) (details : list (string * pyvalue))
  : M bool :=
  let payload :=
    VDict (dict_update [(KStr "service", VStr service);
                        (KStr "operation", VStr operation)] details) in
  dispatch rt self "api_call" summary (Some payload) "sdk" None false.

Definition dispatch_external_ref (rt : runtime) (self : t) (summary : string)
           (provider ref_type ref_id : string) (url : option string)
  : M bool :=
  let payload := [(KStr "provider", VStr provider);
                  (KStr "ref_type", VStr ref_type);
                  (KStr "ref_id", VStr ref_id)] in
  let payload :=
    match url with
    | Some u => dict_set payload (KStr "url") (VStr u)
    | None => payload
    end in
  dispatch rt self "external_ref" summary (Some (VDict payload)) "sdk" None
           false.

Definition dispatch_db (rt : runtime) (self : t) (summary : string)
           (operation table : string) (rows : option Z) (query : option string)
  : M bool :=
  let payload := [(KStr "operation", VStr operation);
                  (KStr "table", VStr table)] in
  let payload :=
    match rows with
    | Some n => dict_set payload (KStr "count") (VInt n)
    | None => payload
    end in
  let payload :=
    match query with
    | Some q => dict_set payload (KStr "query") (VStr q)
    | None => payload
    end in
  dispatch rt self "db" summary (Some (VDict payload)) "sdk" None false.

(** [model.model_dump(mode="json")] is evaluated while the payload is
    put together, before [dispatch] is called. *)
Definition dispatch_model (rt : runtime) (self : t) (summary : string)
           (model : BaseModel) (input_summary : option string) : M bool :=
  (data <- lift (model_dump_json model) ;;
   let payload := [(KStr "model_name", VStr (class_name model));
                   (KStr "data", data)] in
   let payload :=
     match input_summary with
     | Some s => dict_set payload (KStr "input_summary") (VStr s)
     | None => payload
     end in
   dispatch rt self "model" summary (Some (VDict payload)) "sdk" None false)%M.

Definition get_dispatch_client (environ : gmap string string) : res t :=
  from_env environ.

End DispatchClient.

(* ===================================================================== *)
(** * improvements/models.py *)
(* ===================================================================== *)

Module ImprovementModels.

Definition PAYLOAD_MAX_SIZE_BYTES : Z := 64 * 1024.
Definition SCHEMA_VERSION : Z := 1.

(** [ImprovementStatus = Literal["open", "in_progress", "resolved",
    "dismissed"]] *)
Definition ImprovementStatus : list string :=
  ["open"; "in_progress"; "resolved"; "dismissed"].

Record Improvement : Type := {
  uuid : string;
  project_uuid : string;
  ticket_uuid : option string;
  run_uuid : option string;
  title : string;
  description : option string;
  status : string;
  dedupe_key : option string;
  created_at : option string;
  updated_at : option string
}.

Record ImprovementCreate : Type := {
  create_title : string;
  create_description : option string;
  create_dedupe_key : option string;
  create_status : string
}.

Record ImprovementUpdate : Type := {
  update_title : option string;
  update_description : option string;
  update_status : option string
}.

Record ImprovementEvent : Type := {
  improvement_uuid : string;
  action : string;
  event_payload : option pyvalue
}.

(** Validation of one input value against the declared type of a field.
    [None] as the input of [get] stands for a keyword that was not given:
    a required field is then missing, an optional one takes its default. *)
Definition required_str (name : string) (v : option pyvalue) : res string :=
  match v with
  | Some (VStr s) => Ret s
  | Some _ =>
      Raise (Models.validation_error (name +:+ ": Input should be a valid string"))
  | None => Raise (Models.validation_error (name +:+ ": Field required"))
  end.

Definition optional_str (name : string) (v : option pyvalue)
  : res (option string) :=
  match v with
  | Some (VStr s) => Ret (Some s)
  | Some VNone => Ret None
  | None => Ret None
  | Some _ =>
      Raise (Models.validation_error (name +:+ ": Input should be a valid string"))
  end.

Definition literal_status (v : string) : res string :=
  if bool_decide (v ∈ ImprovementStatus) then Ret v
  else Raise (Models.validation_error
                "status: Input should be 'open', 'in_progress', 'resolved' or 'dismissed'").

Definition status_field (v : option pyvalue) (dflt : string) : res string :=
  match v with
  | Some (VStr s) => literal_status s
  | None => Ret dflt
  | Some _ =>
      Raise (Models.validation_error
               "status: Input should be 'open', 'in_progress', 'resolved' or 'dismissed'")
  end.

Definition optional_status (v : option pyvalue) : res (option string) :=
  match v with
  | Some VNone => Ret None
  | None => Ret None
  | Some v' => res_bind (status_field (Some v') "") (fun s => Ret (Some s))
  end.

Definition optional_max_length (name : string) (n : Z) (v : option string)
  : res (option string) :=
  match v with
  | Some s => res_bind (Models.max_length name n s) (fun s' => Ret (Some s'))
  | None => Ret None
  end.

(** [Improvement] called with the keywords [**item]: [item] has to be a
    mapping whose keys are strings; keys that name no field are ignored. *)
Definition new_Improvement (item : pyvalue) : res Improvement :=
  match item with
  | VDict items =>
      if forallb (fun kv => Models.str_key (fst kv)) items then
        let get name := dict_get items (KStr name) in
        res_bind (required_str "uuid" (get "uuid")) (fun u =>
        res_bind (required_str "project_uuid" (get "project_uuid")) (fun p =>
        res_bind (optional_str "ticket_uuid" (get "ticket_uuid")) (fun tk =>
        res_bind (optional_str "run_uuid" (get "run_uuid")) (fun r =>
        res_bind (required_str "title" (get "title")) (fun ti =>
        res_bind (optional_str "description" (get "description")) (fun d =>
        res_bind (status_field (get "status") "open") (fun st =>
        res_bind (optional_str "dedupe_key" (get "dedupe_key")) (fun dk =>
        res_bind (optional_str "created_at" (get "created_at")) (fun ca =>
        res_bind (optional_str "updated_at" (get "updated_at")) (fun ua =>
        Ret {| uuid := u; project_uuid := p; ticket_uuid := tk; run_uuid := r;
               title := ti; description := d; status := st; dedupe_key := dk;
               created_at := ca; updated_at := ua |}))))))))))
      else Raise (Exn TypeError "keywords must be strings")
  | _ => Raise (Exn TypeError "argument after ** must be a mapping")
  end.

(** [ImprovementCreate(title=..., description=..., dedupe_key=...,
    status=...)] *)
Definition new_ImprovementCreate (title : string)
           (description dedupe_key : option string) (status : string)
  : res ImprovementCreate :=
  res_bind (Models.max_length "title" 256 title) (fun ti =>
  res_bind (optional_max_length "dedupe_key" 256 dedupe_key) (fun dk =>
  res_bind (literal_status status) (fun st =>
  Ret {| create_title := ti; create_description := description;
         create_dedupe_key := dk; create_status := st |}))).

(** Keyword arguments [**fields]: names with their values, each name
    once. *)
Fixpoint kwargs_get (fields : list (string * pyvalue)) (name : string)
  : option pyvalue :=
  match fields with
  | [] => None
  | (k, v) :: rest =>
      if bool_decide (k = name) then Some v else kwargs_get rest name
  end.

(** [ImprovementUpdate] called with the keywords [**valid_fields] *)
Definition new_ImprovementUpdate (valid_fields : list (string * pyvalue))
  : res ImprovementUpdate :=
  let get name := kwargs_get valid_fields name in
  res_bind (optional_str "title" (get "title")) (fun ti =>
  res_bind (optional_max_length "title" 256 ti) (fun ti' =>
  res_bind (optional_str "description" (get "description")) (fun d =>
  res_bind (optional_status (get "status")) (fun st =>
  Ret {| update_title := ti'; update_description := d;
         update_status := st |})))).

(** [ImprovementEvent(improvement_uuid=..., action=..., payload=...)] *)
Definition new_ImprovementEvent (improvement_uuid action : string)
           (payload : option pyvalue) : res ImprovementEvent :=
  res_bind (Models.max_length "action" 64 action) (fun a =>
  res_bind (Models.dict_field "payload" payload) (fun p =>
  Ret {| improvement_uuid := improvement_uuid; action := a;
         event_payload := p |})).

(** [model_dump(mode="json", exclude_none=True)] of the request models *)
Definition dump_create (c : ImprovementCreate) : list (pykey * pyvalue) :=
  [(KStr "title", VStr (create_title c))]
  ++ Models.opt_item "description" (create_description c)
  ++ Models.opt_item "dedupe_key" (create_dedupe_key c)
  ++ [(KStr "status", VStr (create_status c))].

Definition dump_update (u : ImprovementUpdate) : list (pykey * pyvalue) :=
  Models.opt_item "title" (update_title u)
  ++ Models.opt_item "description" (update_description u)
  ++ Models.opt_item "status" (update_status u).

Definition dump_event (e : ImprovementEvent) : list (pykey * pyvalue) :=
  [(KStr "improvement_uuid", VStr (improvement_uuid e));
   (KStr "action", VStr (action e))]
  ++ match event_payload e with
     | Some p => [(KStr "payload", p)]
     | None => []
     end.

End ImprovementModels.

(* ===================================================================== *)
(** * improvements/client.py *)
(* ===================================================================== *)

Module ImprovementsClient.

Import ImprovementModels.

Definition DEFAULT_TIMEOUT_MS : Z := 1500.
Definition DEFAULT_MAX_BYTES : Z := ImprovementModels.PAYLOAD_MAX_SIZE_BYTES.

Record t : Type := {
  _improvements_url : option string;
  _run_token : option string;
  _project_uuid : option string;
  _ticket_uuid : option string;
  _run_uuid : option string;
  _timeout_ms : Z;
  _max_bytes : Z;
  _debug : bool;
  _enabled : bool
}.

Definition __init__
           (improvements_url run_token project_uuid ticket_uuid
              run_uuid : option string)
           (timeout_ms max_bytes : Z) (debug : bool) : t :=
  {| _improvements_url := improvements_url;
     _run_token := run_token;
     _project_uuid := project_uuid;
     _ticket_uuid := ticket_uuid;
     _run_uuid := run_uuid;
     _timeout_ms := timeout_ms;
     _max_bytes := max_bytes;
     _debug := debug;
     _enabled := forallb truthy [improvements_url; run_token; run_uuid] |}.

Definition from_env (environ : gmap string string) : res t :=
  let improvements_url := environ !! "FULCRUM_IMPROVEMENTS_URL" in
  let run_token :=
    or_else (environ !! "FULCRUM_RUN_TOKEN")
            (environ !! "FULCRUM_DISPATCH_TOKEN") in
  let project_uuid := environ !! "FULCRUM_PROJECT_UUID" in
  let ticket_uuid := environ !! "FULCRUM_TICKET_UUID" in
  let run_uuid := environ !! "FULCRUM_RUN_UUID" in
  let debug :=
    bool_decide (default "" (environ !! "FULCRUM_IMPROVEMENTS_DEBUG") = "1") in
  res_bind
    (PyInt.int (default (PyStr.of_Z DEFAULT_TIMEOUT_MS)
                        (environ !! "FULCRUM_IMPROVEMENTS_TIMEOUT_MS")))
    (fun timeout_ms =>
  res_bind
    (PyInt.int (default (PyStr.of_Z DEFAULT_MAX_BYTES)
                        (environ !! "FULCRUM_IMPROVEMENTS_MAX_BYTES")))
    (fun max_bytes =>
  Ret (__init__ improvements_url run_token project_uuid ticket_uuid run_uuid
                timeout_ms max_bytes debug))).

Definition enabled (self : t) : bool := _enabled self.

Definition _log_debug (self : t) (message : string) : M unit :=
  if _debug self then print_stderr ("[fulcrum-sdk:improvements] " +:+ message)
  else ret tt.

Definition _get_headers (self : t) : list (string * string) :=
  [("Authorization", "Bearer " +:+ fmt (_run_token self));
   ("Content-Type", "application/json")].

(** It raises what [json.dumps] raises. *)
Definition _truncate_payload (self : t) (payload : pyvalue) : res pyvalue :=
  res_bind (Json.dumps payload) (fun payload_json =>
  if Z.of_nat (length (Json.encode_utf8 payload_json)) <=? _max_bytes self
  then Ret payload
  else
    Ret (VDict [(KStr "_truncated", VBool true);
                (KStr "_original_size",
                 VInt (Z.of_nat (length (Json.encode_utf8 payload_json))));
                (KStr "_max_size", VInt (_max_bytes self))])).

(** The shape shared by the [except] clauses of every method: a timeout
    and any other exception are logged and give the no-op result. *)
Definition on_error {A : Type} (self : t) (timed_out error : string)
           (noop : A) (e : exn) : M A :=
  if is_timeout e
  then (_log_debug self timed_out ;;; ret noop)%M
  else (_log_debug self (error +:+ str_exn e) ;;; ret noop)%M.

(** The status check shared by the writing methods. *)
Definition on_response (self : t) (succeeded failed : string)
           (response : response) : M bool :=
  if is_success response
  then (_log_debug self succeeded ;;; ret true)%M
  else (_log_debug self (failed +:+ PyStr.of_Z (status_code response)) ;;;
        ret false)%M.

(** [type(data)] as it is printed *)
Definition type_name (v : pyvalue) : string :=
  match v with
  | VNone => "<class 'NoneType'>"
  | VBool _ => "<class 'bool'>"
  | VInt _ => "<class 'int'>"
  | VStr _ => "<class 'str'>"
  | VList _ => "<class 'list'>"
  | VDict _ => "<class 'dict'>"
  end.

(** A value of type [str | None] as a JSON value *)
Definition opt_value (x : option string) : pyvalue :=
  match x with
  | Some s => VStr s
  | None => VNone
  end.

(** The list comprehension over [improvements_data], one [Improvement]
    per item *)
Fixpoint parse_improvements (data : list pyvalue) : res (list Improvement) :=
  match data with
  | [] => Ret []
  | item :: rest =>
      res_bind (new_Improvement item) (fun i =>
      res_bind (parse_improvements rest) (fun others => Ret (i :: others)))
  end.

Definition list_improvements (rt : runtime) (self : t)
           (project_uuid : option string) : M (list Improvement) :=
  if negb (_enabled self)
  then (_log_debug self "Client not enabled, returning empty list" ;;;
        ret [])%M
  else
    try_except
      (let params := [("run_uuid", _run_uuid self)] in
       let params :=
         if truthy (or_else project_uuid (_project_uuid self))
         then params ++ [("project_uuid",
                          or_else project_uuid (_project_uuid self))]
         else params in
       timeout_ms <- lift (ms_to_seconds (_timeout_ms self)) ;;
       response <-
         http rt {| req_method := GET;
                    req_url := _improvements_url self;
                    req_params := params;
                    req_json := None;
                    req_headers := _get_headers self;
                    req_timeout_ms := timeout_ms |} ;;
       if is_success response then
         data <- lift (json response) ;;
         match
           match data with
           | VList _ => Some data
           | VDict items =>
               Some (default data (dict_get items (KStr "improvements")))
           | _ => None
           end
         with
         | None =>
             _log_debug self ("Unexpected response format: "
                                +:+ type_name data) ;;;
             ret []
         | Some (VList improvements_data) =>
             lift (parse_improvements improvements_data)
         | Some improvements_data =>
             _log_debug self ("Unexpected response format: "
                                +:+ type_name improvements_data) ;;;
             ret []
         end
       else
         _log_debug self ("List failed with status "
                            +:+ PyStr.of_Z (status_code response)) ;;;
         ret [])%M
      (on_error self "List request timed out" "List error: " []).

Definition create_improvement (rt : runtime) (self : t) (title : string)
           (description dedupe_key : option string) (status : string)
  : M bool :=
  if negb (_enabled self)
  then (_log_debug self "Client not enabled, skipping create" ;;; ret false)%M
  else
    try_except
      (payload <- lift (new_ImprovementCreate title description dedupe_key
                                              status) ;;
       let request_body :=
         dict_merge [(KStr "run_uuid", opt_value (_run_uuid self))]
                    (dump_create payload) in
       let request_body :=
         if truthy (_project_uuid self)
         then dict_set request_body (KStr "project_uuid")
                       (opt_value (_project_uuid self))
         else request_body in
       let request_body :=
         if truthy (_ticket_uuid self)
         then dict_set request_body (KStr "ticket_uuid")
                       (opt_value (_ticket_uuid self))
         else request_body in
       _log_debug self ("Creating improvement: " +:+ PyStr.take 50 title) ;;;
       timeout_ms <- lift (ms_to_seconds (_timeout_ms self)) ;;
       response <-
         http rt {| req_method := POST;
                    req_url := _improvements_url self;
                    req_params := [];
                    req_json := Some (VDict request_body);
                    req_headers := _get_headers self;
                    req_timeout_ms := timeout_ms |} ;;
       on_response self "Create succeeded" "Create failed with status "
                   response)%M
      (on_error self "Create request timed out" "Create error: " false).

(** The comprehension that keeps the fields named [title], [description]
    or [status] whose value is not [None] *)
Definition valid_field (kv : string * pyvalue) : bool :=
  bool_decide (fst kv ∈ ["title"; "description"; "status"])
  && negb (match snd kv with VNone => true | _ => false end).

Definition update_improvement (rt : runtime) (self : t) (uuid : string)
           (fields : list (string * pyvalue)) : M bool :=
  if negb (_enabled self)
  then (_log_debug self "Client not enabled, skipping update" ;;; ret false)%M
  else
    try_except
      (let valid_fields := List.filter valid_field fields in
       match valid_fields with
       | [] => _log_debug self "No valid fields to update" ;;; ret false
       | _ =>
           payload <- lift (new_ImprovementUpdate valid_fields) ;;
           let request_body :=
             dict_merge [(KStr "run_uuid", opt_value (_run_uuid self))]
                        (dump_update payload) in
           let url := fmt (_improvements_url self) +:+ "/" +:+ uuid in
           _log_debug self ("Updating improvement: " +:+ uuid) ;;;
           timeout_ms <- lift (ms_to_seconds (_timeout_ms self)) ;;
           response <-
             http rt {| req_method := PATCH;
                        req_url := Some url;
                        req_params := [];
                        req_json := Some (VDict request_body);
                        req_headers := _get_headers self;
                        req_timeout_ms := timeout_ms |} ;;
           on_response self "Update succeeded" "Update failed with status "
                       response
       end)%M
      (on_error self "Update request timed out" "Update error: " false).

Definition delete_improvement (rt : runtime) (self : t) (uuid : string)
  : M bool :=
  if negb (_enabled self)
  then (_log_debug self "Client not enabled, skipping delete" ;;; ret false)%M
  else
    try_except
      (let url := fmt (_improvements_url self) +:+ "/" +:+ uuid in
       let params := [("run_uuid", _run_uuid self)] in
       _log_debug self ("Deleting improvement: " +:+ uuid) ;;;
       timeout_ms <- lift (ms_to_seconds (_timeout_ms self)) ;;
       response <-
         http rt {| req_method := DELETE;
                    req_url := Some url;
                    req_params := params;
                    req_json := None;
                    req_headers := _get_headers self;
                    req_timeout_ms := timeout_ms |} ;;
       on_response self "Delete succeeded" "Delete failed with status "
                   response)%M
      (on_error self "Delete request timed out" "Delete error: " false).

Definition emit_improvement_event (rt : runtime) (self : t)
           (improvement_uuid action : string) (payload : option pyvalue)
  : M bool :=
  if negb (_enabled self)
  then (_log_debug self "Client not enabled, skipping event" ;;; ret false)%M
  else
    try_except
      (processed_payload <-
         lift match payload with
              | Some p =>
                  res_bind
                    (_truncate_payload self (Redaction.redact_payload p false))
                    (fun processed => Ret (Some processed))
              | None => Ret None
              end ;;
       event <- lift (new_ImprovementEvent improvement_uuid action
                                           processed_payload) ;;
       let request_body :=
         dict_merge [(KStr "run_uuid", opt_value (_run_uuid self))]
                    (dump_event event) in
       let url := fmt (_improvements_url self) +:+ "/" +:+ improvement_uuid
                  +:+ "/events" in
       _log_debug self ("Emitting event: " +:+ action +:+ " for "
                          +:+ improvement_uuid) ;;;
       timeout_ms <- lift (ms_to_seconds (_timeout_ms self)) ;;
       response <-
         http rt {| req_method := POST;
                    req_url := Some url;
                    req_params := [];
                    req_json := Some (VDict request_body);
                    req_headers := _get_headers self;
                    req_timeout_ms := timeout_ms |} ;;
       on_response self "Event emitted successfully" "Event failed with status "
                   response)%M
      (on_error self "Event request timed out" "Event error: " false).

Definition get_improvements_client (environ : gmap string string) : res t :=
  from_env environ.

End ImprovementsClient.

(* ===================================================================== *)
(** * Induction on values *)
(* ===================================================================== *)

(** Induction with the hypothesis for every element of a list and every
    value of a dict. *)
Section pyvalue_induction.
Variable P : pyvalue -> Prop.
Hypothesis Hnone : P VNone.
Hypothesis Hbool : forall b, P (VBool b).
Hypothesis Hint : forall n, P (VInt n).
Hypothesis Hstr : forall s, P (VStr s).
Hypothesis Hlist : forall xs, Forall P xs -> P (VList xs).
Hypothesis Hdict :
    forall items, Forall (fun kv => P (snd kv)) items -> P (VDict items).

Fixpoint pyvalue_ind' (v : pyvalue) : P v :=
    match v with
    | VNone => Hnone
    | VBool b => Hbool b
    | VInt n => Hint n
    | VStr s => Hstr s
    | VList xs =>
        Hlist xs
          ((fix go (l : list pyvalue) : Forall P l :=
              match l with
              | [] => @List.Forall_nil _ P
              | x :: r => @List.Forall_cons _ P x r (pyvalue_ind' x) (go r)
              end) xs)
    | VDict items =>
        Hdict items
          ((fix go (l : list (pykey * pyvalue))
              : Forall (fun kv => P (snd kv)) l :=
              match l with
              | [] => @List.Forall_nil _ _
              | kv :: r =>
                  @List.Forall_cons _ (fun kv => P (snd kv)) kv r
                    (pyvalue_ind' (snd kv)) (go r)
              end) items)
    end.
End pyvalue_induction.

(* ===================================================================== *)
(** * Notions used in the statements *)
(* ===================================================================== *)

(** A key is sensitive when it is a string whose lower-cased form is in
    [REDACT_KEYS]. *)
Definition sensitive (k : pykey) : Prop :=
  exists s, k = KStr s /\ PyStr.lower s ∈ Redaction.REDACT_KEYS.

(** What one item of a dict becomes. *)
Definition redact_item (kv : pykey * pyvalue) : pykey * pyvalue :=
  (fst kv,
   if Redaction.in_REDACT_KEYS (Redaction.key_lower (fst kv))
   then VStr Redaction.REDACTED_VALUE
   else Redaction._redact_recursive (snd kv)).

(** What the loop over the items of a dict maintains: the keys of the
    result are pairwise different, a sensitive key holds the sentinel and
    any other key a value that redaction leaves as it is. *)
Definition settled (kv : pykey * pyvalue) : Prop :=
  if Redaction.in_REDACT_KEYS (Redaction.key_lower (fst kv))
  then snd kv = VStr Redaction.REDACTED_VALUE
  else Redaction._redact_recursive (snd kv) = snd kv.

(** A payload with a sensitive key in mixed case over a nested dict, a
    list of dicts, and a key that is not a string. *)
Definition sample_payload : pyvalue :=
  VDict [(KStr "API_Key", VDict [(KStr "a", VInt 1)]);
         (KStr "users", VList [VDict [(KStr "name", VStr "Alice");
                                      (KStr "password", VStr "p")]]);
         (KInt 7, VStr "x")].

(** A path into a value: through a dict by a key, through a list by an
    index. *)
Inductive step : Type :=
  | Key (k : pykey)
  | Index (i : nat).

Fixpoint at_path (path : list step) (v : pyvalue) : option pyvalue :=
  match path with
  | [] => Some v
  | Key k :: rest =>
      match v with
      | VDict items =>
          match dict_get items k with
          | Some v' => at_path rest v'
          | None => None
          end
      | _ => None
      end
  | Index i :: rest =>
      match v with
      | VList xs =>
          match xs !! i with
          | Some v' => at_path rest v'
          | None => None
          end
      | _ => None
      end
  end.

(** The traversal that [_redact_recursive] and [_deep_copy] have in
    common, with the test on the key as a parameter: on values, *)
Fixpoint copy_with (sens : pykey -> bool) (obj : pyvalue) : pyvalue :=
  match obj with
  | VDict items =>
      VDict
        (fold_left
           (fun result kv =>
              if sens (fst kv)
              then dict_set result (fst kv) (VStr Redaction.REDACTED_VALUE)
              else dict_set result (fst kv) (copy_with sens (snd kv)))
           items [])
  | VList xs => VList (map (copy_with sens) xs)
  | _ => obj
  end.

(** and on the store. *)
Fixpoint walk (sens : pykey -> bool) (fuel : nat) (obj : Heap.hval)
         (h : Heap.heap) : option (Heap.hval * Heap.heap) :=
  match fuel with
  | O => None
  | S fuel' =>
      match obj with
      | Heap.HRef l =>
          match h !! l with
          | Some (Heap.ODict items) =>
              let '(result, h0) := Heap.alloc (Heap.ODict []) h in
              match
                Heap.for_each
                  (fun kv h1 =>
                     if sens (fst kv)
                     then Some (Heap.store_item result (fst kv)
                                  (Heap.HStr Redaction.REDACTED_VALUE) h1)
                     else
                       match walk sens fuel' (snd kv) h1 with
                       | Some (v, h2) =>
                           Some (Heap.store_item result (fst kv) v h2)
                       | None => None
                       end)
                  items h0
              with
              | Some h' => Some (Heap.HRef result, h')
              | None => None
              end
          | Some (Heap.OList xs) =>
              let '(result, h0) := Heap.alloc (Heap.OList []) h in
              match
                Heap.for_each
                  (fun item h1 =>
                     match walk sens fuel' item h1 with
                     | Some (v, h2) => Some (Heap.list_append result v h2)
                     | None => None
                     end)
                  xs h0
              with
              | Some h' => Some (Heap.HRef result, h')
              | None => None
              end
          | None => None
          end
      | _ => Some (obj, h)
      end
  end.

Definition redact_test (k : pykey) : bool :=
  Redaction.in_REDACT_KEYS (Redaction.key_lower k).

Definition no_test (k : pykey) : bool := false.

(** [agree_from n h h']: the objects of [h] at the addresses from [n] on
    are the same in [h']. *)
Definition agree_from (n : nat) (h h' : Heap.heap) : Prop :=
  (length h <= length h')%nat
  /\ forall l, (n <= l)%nat -> (l < length h)%nat -> h' !! l = h !! l.

(** [x] stands for the value [t] in [h], and every container inside it
    lives at an address [>= n]. *)
Definition elem_ok (fuel n : nat) (h : Heap.heap) (x : Heap.hval)
           (t : pyvalue) : Prop :=
  Heap.read fuel h x = Some t /\ Heap.above fuel n h x = true.

Definition item_ok (fuel n : nat) (h : Heap.heap) (kv : pykey * Heap.hval)
           (kt : pykey * pyvalue) : Prop :=
  fst kv = fst kt /\ elem_ok fuel n h (snd kv) (snd kt).

(** The traversal from [x] returns, leaves every object of [h] as it
    was, and its result stands for the copy of what [x] stood for and
    lives at addresses that were not in use. *)
Definition walk_ok (sens : pykey -> bool) (fuel : nat) : Prop :=
  forall h x t,
    Heap.read fuel h x = Some t ->
    exists out h',
      walk sens fuel x h = Some (out, h')
      /\ agree_from 0 h h'
      /\ elem_ok fuel (length h) h' out (copy_with sens t).

(** ** Sample inputs *)

(** A store in which the payload at address 2 refers to the dict at
    address 0 twice, once directly and once through the list at
    address 1. *)
Definition sample_heap : Heap.heap :=
  [Heap.ODict [(KStr "token", Heap.HStr "tok")];
   Heap.OList [Heap.HRef 0%nat; Heap.HInt 1];
   Heap.ODict [(KStr "api_key", Heap.HStr "secret");
               (KStr "nested", Heap.HRef 0%nat);
               (KStr "items", Heap.HRef 1%nat)]].

Definition sample_tree : pyvalue :=
  VDict [(KStr "api_key", VStr "secret");
         (KStr "nested", VDict [(KStr "token", VStr "tok")]);
         (KStr "items", VList [VDict [(KStr "token", VStr "tok")]; VInt 1])].


(** The size [_truncate_payload] measures: the number of bytes of the
    UTF-8 encoding of the JSON text of the payload. *)
Definition json_size (payload : pyvalue) : Z :=
  Z.of_nat (length (Json.encode_utf8 (Json.text payload))).

(** The truncation notice. *)
Definition truncation_notice (original_size max_size : Z) : pyvalue :=
  VDict [(KStr "_truncated", VBool true);
         (KStr "_original_size", VInt original_size);
         (KStr "_max_size", VInt max_size)].

(** What [_truncate_payload] returns for a payload that [json.dumps] can
    write: the payload, or the notice with the size measured. *)
Definition bounded (max_bytes : Z) (payload : pyvalue) : pyvalue :=
  if json_size payload <=? max_bytes then payload
  else truncation_notice (json_size payload) max_bytes.

(** A client with every required field set. *)
Definition sample_client (max_bytes : Z) : DispatchClient.t :=
  DispatchClient.__init__ (Some "http://test/dispatch") (Some "token")
                          (Some "ticket-123") (Some "run-456") None
                          1500 max_bytes false.


(** The variable [name] is set in the environment to a string that
    [int()] does not accept: it is not an integer literal, or it is one
    of more than 4300 digits. *)
Definition malformed (environ : gmap string string) (name : string) : Prop :=
  exists s, environ !! name = Some s /\ forall z, PyInt.parse s <> PyInt.Value z.

(** [z] is what the variable [name] says, or [dflt] when it is not set. *)
Definition env_int_is (environ : gmap string string) (name : string)
           (dflt z : Z) : Prop :=
  match environ !! name with
  | Some s => PyInt.parse s = PyInt.Value z
  | None => z = dflt
  end.

(** An integer literal of 4301 digits. *)
Definition long_literal : string := PyStr.repeat "1" 4301.

Definition long_literal_value : Z := (10 ^ 4301 - 1) / 9.

(** [isinstance(e, FulcrumConfigError)] *)
Definition is_config_error (e : exn) : bool :=
  bool_decide (exn_cls e = FulcrumConfigError).


Definition sample_environ : gmap string string :=
  <["FULCRUM_DISPATCH_URL" := "http://localhost:3000/api/dispatch"]>
  (<["FULCRUM_DISPATCH_TOKEN" := "test-token"]>
  (<["FULCRUM_TICKET_UUID" := "ticket-123"]>
  (<["FULCRUM_RUN_UUID" := "run-456"]>
  (<["FULCRUM_DISPATCH_TIMEOUT_MS" := "not_a_number"]> ∅)))).

(** [m] returns, whatever the world: it does not raise. *)
Definition no_raise {A : Type} (m : M A) : Prop :=
  forall w, exists a w', m w = (Ret a, w').

(** [m] returns [a] and attempts no request. *)
Definition noop {A : Type} (m : M A) (a : A) : Prop :=
  forall w, exists w', m w = (Ret a, w') /\ sent w' = sent w.

(** The request [_send] makes for an entry. *)
Definition dispatch_request (self : DispatchClient.t)
           (entry : Models.DispatchEntry) : request :=
  {| req_method := POST;
     req_url := DispatchClient._dispatch_url self;
     req_params := [];
     req_json := Some (Models.model_dump entry);
     req_headers :=
       [("Authorization",
         "Bearer " +:+ fmt (DispatchClient._dispatch_token self));
        ("Content-Type", "application/json")];
     req_timeout_ms := DispatchClient._timeout_ms self |}.

(** A request that gets as far as the transport: its timeout converts
    to a float of seconds and its body, if it has one, can be written. *)
Definition deliverable (req : request) : bool :=
  timeout_ok (req_timeout_ms req) && body_ok req.

(** Whether the transport answers a request with a status in [200, 300). *)
Definition answered_ok (rt : runtime) (history : list request) (req : request)
  : bool :=
  match transport rt history req with
  | Ret r => is_success r
  | Raise _ => false
  end.

(** A model with a field that has no JSON form. *)
Definition unserializable_model : BaseModel :=
  {| class_name := "Blob";
     model_dump_json :=
       Raise (Exn PydanticSerializationError
                "Unable to serialize unknown type: <class 'object'>") |}.

(** A transport that answers every request with status 200 and an empty
    list. *)
Definition sample_runtime : runtime :=
  {| transport := fun _ _ => Ret {| status_code := 200; json := Ret (VList []) |};
     utcnow_isoformat := "2024-01-01T00:00:00+00:00" |}.

Definition empty_world : world := {| sent := []; stderr := [] |}.

(** [DispatchClient()]: a client constructed with no configuration. *)
Definition unconfigured_client : DispatchClient.t :=
  DispatchClient.__init__ None None None None None
                          DispatchClient.DEFAULT_TIMEOUT_MS
                          DispatchClient.DEFAULT_MAX_BYTES false.

Definition sample_improvements_client : ImprovementsClient.t :=
  ImprovementsClient.__init__ (Some "http://test/improvements") (Some "token")
                              None None (Some "run") 1500 65536 false.

(** The names [update_improvement] accepts. *)
Definition update_names : list string := ["title"; "description"; "status"].

Definition sample_fields : list (string * pyvalue) :=
  [("invalid_field", VStr "value"); ("title", VNone)].

(* ===================================================================== *)
(** * Further notions used in the statements *)
(* ===================================================================== *)

(** No key of [v], at any depth, is sensitive. *)
Fixpoint clean (v : pyvalue) : bool :=
  match v with
  | VDict items =>
      forallb (fun kv => negb (redact_test (fst kv)) && clean (snd kv)) items
  | VList xs => forallb clean xs
  | _ => true
  end.

(** [v] is the sentinel string. *)
Definition is_sentinel (v : pyvalue) : bool :=
  match v with
  | VStr s => String.eqb s Redaction.REDACTED_VALUE
  | _ => false
  end.

(** At every depth of [v], the value of a sensitive key is the sentinel. *)
Fixpoint no_secret_left (v : pyvalue) : bool :=
  match v with
  | VDict items =>
      forallb (fun kv => if redact_test (fst kv) then is_sentinel (snd kv)
                         else no_secret_left (snd kv)) items
  | VList xs => forallb no_secret_left xs
  | _ => true
  end.

(** A dict all of whose keys are strings, the shape the models ask of a
    payload. *)
Definition str_keyed (v : pyvalue) : bool :=
  match v with
  | VDict items => forallb (fun kv => Models.str_key (fst kv)) items
  | _ => false
  end.

(** [ends debug m w a reqs]: run in the world [w], [m] returns [a] (it
    does not raise), the requests it attempts are [reqs], in this order,
    and it writes nothing to stderr unless [debug] is set. *)
Definition ends {A : Type} (debug : bool) (m : M A) (w : world) (a : A)
           (reqs : list request) : Prop :=
  exists w',
    m w = (Ret a, w')
    /\ sent w' = sent w ++ reqs
    /\ (debug = false -> stderr w' = stderr w).


(** The variable [name] is set in the environment to a string that is
    not empty. *)
Definition env_set (environ : gmap string string) (name : string) : Prop :=
  exists s, environ !! name = Some s /\ s <> "".

(** An environment with both tokens, the preferred one empty. *)
Definition sample_improvements_environ : gmap string string :=
  <["FULCRUM_IMPROVEMENTS_URL" := "http://test/improvements"]>
  (<["FULCRUM_RUN_TOKEN" := ""]>
  (<["FULCRUM_DISPATCH_TOKEN" := "fallback-token"]>
  (<["FULCRUM_RUN_UUID" := "run-456"]> ∅))).

(** An environment with the four required variables of the dispatch
    client, and the debug variable set to something other than ["1"]. *)
Definition sample_dispatch_environ : gmap string string :=
  <["FULCRUM_DISPATCH_URL" := "http://localhost:3000/api/dispatch"]>
  (<["FULCRUM_DISPATCH_TOKEN" := "test-token"]>
  (<["FULCRUM_TICKET_UUID" := "ticket-123"]>
  (<["FULCRUM_RUN_UUID" := "run-456"]>
  (<["FULCRUM_DISPATCH_DEBUG" := "true"]> ∅)))).

(** A request of the improvements client: the headers and the timeout
    are those of the client. *)
Definition improvements_request (self : ImprovementsClient.t)
           (method : http_method) (url : option string)
           (params : list (string * option string)) (body : option pyvalue)
  : request :=
  {| req_method := method;
     req_url := url;
     req_params := params;
     req_json := body;
     req_headers :=
       [("Authorization",
         "Bearer " +:+ fmt (ImprovementsClient._run_token self));
        ("Content-Type", "application/json")];
     req_timeout_ms := ImprovementsClient._timeout_ms self |}.

(** [url/uuid] *)
Definition item_url (self : ImprovementsClient.t) (uuid : string) : string :=
  fmt (ImprovementsClient._improvements_url self) +:+ "/" +:+ uuid.

(** The items of the body of a create request, in order: the optional
    ones are there only when they have a value. *)
Definition create_body (self : ImprovementsClient.t) (title : string)
           (description dedupe_key : option string) (status : string)
  : list (pykey * pyvalue) :=
  [(KStr "run_uuid", ImprovementsClient.opt_value
                       (ImprovementsClient._run_uuid self));
   (KStr "title", VStr title)]
  ++ Models.opt_item "description" description
  ++ Models.opt_item "dedupe_key" dedupe_key
  ++ [(KStr "status", VStr status)]
  ++ (if truthy (ImprovementsClient._project_uuid self)
      then [(KStr "project_uuid",
             ImprovementsClient.opt_value
               (ImprovementsClient._project_uuid self))]
      else [])
  ++ (if truthy (ImprovementsClient._ticket_uuid self)
      then [(KStr "ticket_uuid",
             ImprovementsClient.opt_value
               (ImprovementsClient._ticket_uuid self))]
      else []).

(** The payload of an event as it is sent: redacted, always, and then
    bounded. *)
Definition event_payload_sent (self : ImprovementsClient.t)
           (payload : option pyvalue) : option pyvalue :=
  match payload with
  | Some p =>
      Some (bounded (ImprovementsClient._max_bytes self)
                    (Redaction.redact_payload p false))
  | None => None
  end.

Definition event_body (self : ImprovementsClient.t)
           (improvement_uuid action : string) (payload : option pyvalue)
  : list (pykey * pyvalue) :=
  [(KStr "run_uuid", ImprovementsClient.opt_value
                       (ImprovementsClient._run_uuid self));
   (KStr "improvement_uuid", VStr improvement_uuid);
   (KStr "action", VStr action)]
  ++ match event_payload_sent self payload with
     | Some p => [(KStr "payload", p)]
     | None => []
     end.

(** The query of [list_improvements]: the run, and the project when the
    argument or else the client names one. *)
Definition list_params (self : ImprovementsClient.t)
           (project_uuid : option string) : list (string * option string) :=
  ("run_uuid", ImprovementsClient._run_uuid self)
  :: (if truthy project_uuid then [("project_uuid", project_uuid)]
      else if truthy (ImprovementsClient._project_uuid self)
           then [("project_uuid", ImprovementsClient._project_uuid self)]
           else []).

(** The items a response offers: the data itself when it is a list, the
    value at ["improvements"] when the data is an object that holds a list
    there. *)
Definition response_items (data : pyvalue) : option (list pyvalue) :=
  match data with
  | VList xs => Some xs
  | VDict items =>
      match dict_get items (KStr "improvements") with
      | Some (VList xs) => Some xs
      | _ => None
      end
  | _ => None
  end.

(** What [list_improvements] makes of the answer to its request. *)
Definition listed (answer : res response) : list ImprovementModels.Improvement :=
  match answer with
  | Ret r =>
      if is_success r then
        match json r with
        | Ret data =>
            match response_items data with
            | Some xs =>
                match ImprovementsClient.parse_improvements xs with
                | Ret l => l
                | Raise _ => []
                end
            | None => []
            end
        | Raise _ => []
        end
      else []
  | Raise _ => []
  end.

(** The string the keywords hold at [name], if they hold one. *)
Definition update_value (fields : list (string * pyvalue)) (name : string)
  : option string :=
  match ImprovementModels.kwargs_get fields name with
  | Some (VStr s) => Some s
  | _ => None
  end.

(** The items of the body of an update request: after the run, the
    fields in the order of the model, whatever the order of the
    keywords. *)
Definition update_body (self : ImprovementsClient.t)
           (fields : list (string * pyvalue)) : list (pykey * pyvalue) :=
  [(KStr "run_uuid", ImprovementsClient.opt_value
                       (ImprovementsClient._run_uuid self))]
  ++ Models.opt_item "title" (update_value fields "title")
  ++ Models.opt_item "description" (update_value fields "description")
  ++ Models.opt_item "status" (update_value fields "status").


Definition field_okb (name : string) (v : pyvalue) : bool :=
  match v with
  | VNone => true
  | VStr s =>
      (if String.eqb name "title" then PyStr.len s <=? 256 else true)
      && (if String.eqb name "status"
          then bool_decide (s ∈ ImprovementModels.ImprovementStatus)
          else true)
  | _ => false
  end.

Definition keyword_ok (fields : list (string * pyvalue)) (name : string)
  : bool :=
  match ImprovementModels.kwargs_get fields name with
  | Some v => field_okb name v
  | None => true
  end.



(** [req] handed to a client whose timeout is [timeout_ms]. *)
Definition with_timeout (req : request) (timeout_ms : Z) : request :=
  {| req_method := req_method req;
     req_url := req_url req;
     req_params := req_params req;
     req_json := req_json req;
     req_headers := req_headers req;
     req_timeout_ms := timeout_ms |}.


(* ********************************************************************* *)
(** * Properties *)
(* ********************************************************************* *)


(* ===================================================================== *)
(** * Facts about dict assignment *)
(* ===================================================================== *)

Section dict_facts.
Context {V : Type}.
Implicit Types (d acc : list (pykey * V)) (items : list (pykey * V)).

Lemma dict_set_fresh d key (value : V) :
  key ∉ map fst d -> dict_set d key value = d ++ [(key, value)].
Proof.
  induction d as [|[k v] d IH]; simpl; intros Hk; [reflexivity|].
  destruct (decide (k = key)) as [->|Hne].
  - exfalso. apply Hk. left.
  - f_equal. apply IH. intros Hin. apply Hk. right. exact Hin.
Qed.

Lemma dict_set_keys_present d key (value : V) :
  key ∈ map fst d -> map fst (dict_set d key value) = map fst d.
Proof.
  induction d as [|[k v] d IH]; simpl; intros Hk.
  - inversion Hk.
  - destruct (decide (k = key)) as [->|Hne]; simpl; [reflexivity|].
    f_equal. apply IH. inversion Hk; subst; [congruence|assumption].
Qed.

Lemma dict_set_keys d key (value : V) :
  map fst (dict_set d key value)
  = if decide (key ∈ map fst d) then map fst d else map fst d ++ [key].
Proof.
  destruct (decide (key ∈ map fst d)) as [Hin|Hnin].
  - apply dict_set_keys_present, Hin.
  - rewrite dict_set_fresh by exact Hnin. rewrite map_app. reflexivity.
Qed.

Lemma dict_set_NoDup d key (value : V) :
  NoDup (map fst d) -> NoDup (map fst (dict_set d key value)).
Proof.
  intros Hd. rewrite dict_set_keys. destruct (decide _) as [Hin|Hnin].
  - exact Hd.
  - apply NoDup_app. split; [exact Hd|]. split.
    + intros x Hx Hx'. apply list_elem_of_singleton in Hx'. subst.
      contradiction.
    + apply NoDup_singleton.
Qed.

Lemma dict_set_Forall (Q : pykey * V -> Prop) d key (value : V) :
  Forall Q d -> (forall k, k = key -> Q (k, value)) ->
  Forall Q (dict_set d key value).
Proof.
  intros Hd Hq. induction Hd as [|[k v] d Hkv Hd IH]; simpl.
  - constructor; [apply Hq; reflexivity|constructor].
  - destruct (decide (k = key)) as [->|Hne].
    + constructor; [apply Hq; reflexivity|exact Hd].
    + constructor; assumption.
Qed.

(** The loop [for key, value in obj.items(): result[key] = ...] over
    items with pairwise different keys, none of them in [result] yet,
    appends one entry per item, in order. *)
Lemma fold_dict_set (c : pykey * V -> bool) (a : V) (b : pykey * V -> V)
      items acc :
  NoDup (map fst acc ++ map fst items) ->
  fold_left
    (fun result kv =>
       if c kv then dict_set result (fst kv) a
       else dict_set result (fst kv) (b kv))
    items acc
  = acc ++ map (fun kv => (fst kv, if c kv then a else b kv)) items.
Proof.
  revert acc. induction items as [|kv items IH]; intros acc Hnd; simpl.
  - rewrite app_nil_r. reflexivity.
  - assert (Hfresh : fst kv ∉ map fst acc).
    { apply NoDup_app in Hnd as (_ & Hdis & _).
      intros Hin. apply (Hdis _ Hin). simpl. left. }
    assert (Hstep : (if c kv then dict_set acc (fst kv) a
                     else dict_set acc (fst kv) (b kv))
                    = acc ++ [(fst kv, if c kv then a else b kv)]).
    { destruct (c kv); apply dict_set_fresh, Hfresh. }
    rewrite Hstep. rewrite IH.
    + rewrite <- app_assoc. reflexivity.
    + rewrite map_app. simpl. rewrite <- app_assoc. exact Hnd.
Qed.
End dict_facts.

(* ===================================================================== *)
(** * Redaction on values *)
(* ===================================================================== *)


Lemma sensitive_iff k :
  Redaction.in_REDACT_KEYS (Redaction.key_lower k) = true <-> sensitive k.
Proof.
  unfold sensitive. destruct k as [s|n]; simpl.
  - rewrite bool_decide_eq_true. split.
    + intros H. exists s. split; [reflexivity|exact H].
    + intros (s' & Hs & H). injection Hs as <-. exact H.
  - split; [discriminate|]. intros (s' & Hs & _). discriminate.
Qed.


Lemma redact_dict items :
  NoDup (map fst items) ->
  Redaction._redact_recursive (VDict items) = VDict (map redact_item items).
Proof.
  intros Hnd. simpl. f_equal.
  apply (fold_dict_set
           (fun kv => Redaction.in_REDACT_KEYS (Redaction.key_lower (fst kv)))
           (VStr Redaction.REDACTED_VALUE)
           (fun kv => Redaction._redact_recursive (snd kv)) items []).
  exact Hnd.
Qed.

Lemma deep_copy_dict items :
  NoDup (map fst items) ->
  Redaction._deep_copy (VDict items)
  = VDict (map (fun kv => (fst kv, Redaction._deep_copy (snd kv))) items).
Proof.
  intros Hnd. simpl. f_equal.
  apply (fold_dict_set (fun _ => false) VNone
           (fun kv => Redaction._deep_copy (snd kv)) items []).
  exact Hnd.
Qed.

Lemma dict_get_redact items k :
  dict_get (map redact_item items) k
  = (fun v => if Redaction.in_REDACT_KEYS (Redaction.key_lower k)
              then VStr Redaction.REDACTED_VALUE
              else Redaction._redact_recursive v) <$> dict_get items k.
Proof.
  induction items as [|[k1 v1] items IH]; simpl; [reflexivity|].
  destruct (decide (k1 = k)) as [->|Hne]; [reflexivity|exact IH].
Qed.

Lemma dict_get_In {V : Type} (items : list (pykey * V)) k v :
  dict_get items k = Some v -> In (k, v) items.
Proof.
  induction items as [|[k1 v1] items IH]; simpl; [discriminate|].
  destruct (decide (k1 = k)) as [->|Hne].
  - intros H. injection H as <-. left. reflexivity.
  - intros H. right. apply IH, H.
Qed.

(** Redaction commutes with the descent along a path that crosses no
    sensitive key. *)
Lemma redact_at_path path :
  forall P Q,
    wf_value P ->
    (forall k, In (Key k) path -> ~ sensitive k) ->
    at_path path P = Some Q ->
    wf_value Q
    /\ at_path path (Redaction._redact_recursive P)
       = Some (Redaction._redact_recursive Q).
Proof.
  induction path as [|[k|i] path IH]; intros P Q Hwf Hpath Hat.
  - injection Hat as <-. split; [exact Hwf|reflexivity].
  - destruct P as [| | | | |items]; try discriminate.
    inversion Hwf as [| | | | |items' Hnd Hall]; subst.
    cbn [at_path] in Hat.
    destruct (dict_get items k) as [v|] eqn:Hget; [|discriminate].
    assert (Hv : wf_value v).
    { apply dict_get_In in Hget.
      apply (proj1 (List.Forall_forall _ _) Hall (k, v) Hget). }
    destruct (IH v Q Hv) as [HQ Hred]; [|exact Hat|].
    { intros k' Hk'. apply Hpath. right. exact Hk'. }
    split; [exact HQ|].
    rewrite redact_dict by exact Hnd. cbn [at_path].
    rewrite dict_get_redact, Hget. cbn [fmap option_fmap option_map].
    destruct (Redaction.in_REDACT_KEYS (Redaction.key_lower k)) eqn:Hs.
    + exfalso. apply (Hpath k); [left; reflexivity|]. apply sensitive_iff, Hs.
    + exact Hred.
  - destruct P as [| | | |xs|]; try discriminate.
    inversion Hwf as [| | | |xs' Hall|]; subst.
    cbn [at_path] in Hat.
    destruct (xs !! i) as [v|] eqn:Hget; [|discriminate].
    assert (Hv : wf_value v).
    { apply (proj1 (List.Forall_forall _ _) Hall v).
      apply list_elem_of_In, (list_elem_of_lookup_2 _ _ _ Hget). }
    destruct (IH v Q Hv) as [HQ Hred]; [|exact Hat|].
    { intros k' Hk'. apply Hpath. right. exact Hk'. }
    split; [exact HQ|].
    cbn [Redaction._redact_recursive at_path].
    change (map Redaction._redact_recursive xs)
      with (Redaction._redact_recursive <$> xs).
    rewrite list_lookup_fmap, Hget. exact Hred.
Qed.

(** C1.  Let [P] be a payload (a tree of dicts, lists and scalars; the
    keys of every dict pairwise different, as in every Python dict) and
    [Q] the value found in [P] along a path that crosses no sensitive
    key, [P] itself for the empty path.  Then [redact_payload(P)] has at
    the same path the redaction of [Q], which is: for a dict, a dict with
    the same keys in the same order in which the value of a sensitive key
    (a string whose lower-cased form is in [REDACT_KEYS]) is the sentinel
    ["[REDACTED]"], whatever the original value was, and the value of any
    other key, a non-string key included, is the redaction of the original
    value; for a list, the list of the redactions of its elements, in
    order; for a scalar, the scalar itself. *)
Theorem redact_payload_structure (P : pyvalue) (path : list step)
        (Q : pyvalue) :
  wf_value P ->
  (forall k, In (Key k) path -> ~ sensitive k) ->
  at_path path P = Some Q ->
  at_path path (Redaction.redact_payload P false)
  = Some (Redaction.redact_payload Q false)
  /\ (forall n, ~ sensitive (KInt n))
  /\ match Q with
     | VDict items =>
         exists out,
           Redaction.redact_payload Q false = VDict out
           /\ map fst out = map fst items
           /\ forall i k v,
               items !! i = Some (k, v) ->
               (sensitive k -> out !! i = Some (k, VStr "[REDACTED]"))
               /\ (~ sensitive k ->
                   out !! i = Some (k, Redaction.redact_payload v false))
     | VList xs =>
         Redaction.redact_payload Q false
         = VList (map (fun x => Redaction.redact_payload x false) xs)
     | _ => Redaction.redact_payload Q false = Q
     end.
Proof.
  intros HwfP Hpath Hat.
  destruct (redact_at_path path P Q HwfP Hpath Hat) as [Hwf Hred].
  split; [exact Hred|]. split.
  { intros n (s & Hs & _). discriminate. }
  destruct Q as [| | | |xs|items]; try reflexivity.
  inversion Hwf as [| | | | |items' Hnd Hall]; subst.
  exists (map redact_item items). split; [|split].
  - unfold Redaction.redact_payload. apply redact_dict, Hnd.
  - rewrite map_map. reflexivity.
  - intros i k v Hi.
    assert (Hout : map redact_item items !! i = Some (redact_item (k, v))).
    { change (map redact_item items) with (redact_item <$> items).
      rewrite list_lookup_fmap, Hi. reflexivity. }
    unfold redact_item in Hout. simpl in Hout. split; intros Hs.
    + apply sensitive_iff in Hs. rewrite Hs in Hout. exact Hout.
    + destruct (Redaction.in_REDACT_KEYS (Redaction.key_lower k)) eqn:E.
      * exfalso. apply Hs, sensitive_iff, E.
      * exact Hout.
Qed.

Lemma sample_payload_wf : wf_value sample_payload.
Proof.
  unfold sample_payload.
  repeat first
    [ apply wf_none | apply wf_bool | apply wf_int | apply wf_str
    | apply wf_list | apply wf_dict
    | apply List.Forall_cons | apply List.Forall_nil
    | (apply (bool_decide_unpack _); vm_compute; reflexivity) ].
Defined.

Lemma sample_path_plain :
  forall k, In (Key k) [Key (KStr "users"); Index 0%nat] -> ~ sensitive k.
Proof.
  intros k [Hk|[Hk|[]]]; [|discriminate]. injection Hk as <-.
  intros Hs. apply sensitive_iff in Hs. vm_compute in Hs. discriminate.
Defined.

Lemma redact_payload_structure_witness :
  at_path [Key (KStr "users"); Index 0%nat]
          (Redaction.redact_payload sample_payload false)
  = Some (Redaction.redact_payload
            (VDict [(KStr "name", VStr "Alice"); (KStr "password", VStr "p")])
            false)
  /\ exists out,
      Redaction.redact_payload
        (VDict [(KStr "name", VStr "Alice"); (KStr "password", VStr "p")])
        false = VDict out
      /\ map fst out = [KStr "name"; KStr "password"]
      /\ out !! 1%nat = Some (KStr "password", VStr "[REDACTED]").
Proof.
  destruct (redact_payload_structure
              sample_payload [Key (KStr "users"); Index 0%nat]
              (VDict [(KStr "name", VStr "Alice"); (KStr "password", VStr "p")])
              sample_payload_wf sample_path_plain eq_refl)
    as (Hat & _ & out & Hout & Hkeys & Hitems).
  split; [exact Hat|].
  exists out. split; [exact Hout|]. split; [exact Hkeys|].
  apply (Hitems 1%nat (KStr "password") (VStr "p") eq_refl).
  exists "password". split; [reflexivity|].
  apply (bool_decide_unpack _). vm_compute. reflexivity.
Defined.

Example redact_sample :
  Redaction.redact_payload sample_payload false
  = VDict [(KStr "API_Key", VStr "[REDACTED]");
           (KStr "users", VList [VDict [(KStr "name", VStr "Alice");
                                        (KStr "password", VStr "[REDACTED]")]]);
           (KInt 7, VStr "x")].
Proof. vm_compute. reflexivity. Qed.

(** ** Idempotence *)


Lemma redact_loop_settled items :
  Forall (fun kv => Redaction._redact_recursive
                      (Redaction._redact_recursive (snd kv))
                    = Redaction._redact_recursive (snd kv)) items ->
  forall acc,
    NoDup (map fst acc) -> Forall settled acc ->
    let result :=
      fold_left
        (fun result kv =>
           if Redaction.in_REDACT_KEYS (Redaction.key_lower (fst kv))
           then dict_set result (fst kv) (VStr Redaction.REDACTED_VALUE)
           else dict_set result (fst kv) (Redaction._redact_recursive (snd kv)))
        items acc in
    NoDup (map fst result) /\ Forall settled result.
Proof.
  induction 1 as [|kv items Hkv _ IH]; intros acc Hnd Hacc; simpl.
  - split; assumption.
  - destruct (Redaction.in_REDACT_KEYS (Redaction.key_lower (fst kv))) eqn:E.
    + apply IH.
      * apply dict_set_NoDup, Hnd.
      * apply dict_set_Forall; [exact Hacc|].
        intros k ->. unfold settled. simpl. rewrite E. reflexivity.
    + apply IH.
      * apply dict_set_NoDup, Hnd.
      * apply dict_set_Forall; [exact Hacc|].
        intros k ->. unfold settled. simpl. rewrite E. exact Hkv.
Qed.

Lemma redact_settled items :
  NoDup (map fst items) -> Forall settled items ->
  Redaction._redact_recursive (VDict items) = VDict items.
Proof.
  intros Hnd Hall. rewrite redact_dict by exact Hnd. f_equal.
  induction Hall as [|[k v] items Hkv _ IH]; [reflexivity|].
  simpl. inversion Hnd; subst. rewrite IH by assumption. f_equal.
  unfold redact_item, settled in *. simpl in *.
  destruct (Redaction.in_REDACT_KEYS (Redaction.key_lower k)); congruence.
Qed.

Lemma redact_recursive_idempotent (P : pyvalue) :
  Redaction._redact_recursive (Redaction._redact_recursive P)
  = Redaction._redact_recursive P.
Proof.
  induction P as [| | | |xs IH|items IH] using pyvalue_ind'; try reflexivity.
  - simpl. f_equal. rewrite map_map.
    induction IH as [|x xs Hx _ IHxs]; [reflexivity|].
    simpl. rewrite Hx, IHxs. reflexivity.
  - destruct (redact_loop_settled items IH [] (NoDup_nil_2 (A:=pykey)) (List.Forall_nil _))
      as [Hnd Hall].
    change (Redaction._redact_recursive (VDict items))
      with (VDict (fold_left
        (fun result kv =>
           if Redaction.in_REDACT_KEYS (Redaction.key_lower (fst kv))
           then dict_set result (fst kv) (VStr Redaction.REDACTED_VALUE)
           else dict_set result (fst kv) (Redaction._redact_recursive (snd kv)))
        items [])).
    apply redact_settled; assumption.
Qed.

(** C6.  Redaction is idempotent: redacting the result of a redaction
    changes nothing.  The sentinel ["[REDACTED]"] is a string scalar that
    redaction returns as it is, and as a key it is not sensitive. *)
Theorem redact_payload_idempotent :
  (forall P : pyvalue,
      Redaction.redact_payload (Redaction.redact_payload P false) false
      = Redaction.redact_payload P false)
  /\ Redaction.redact_payload (VStr Redaction.REDACTED_VALUE) false
     = VStr Redaction.REDACTED_VALUE
  /\ Redaction.REDACTED_VALUE = "[REDACTED]"
  /\ Redaction.in_REDACT_KEYS
       (Redaction.key_lower (KStr Redaction.REDACTED_VALUE)) = false.
Proof.
  split; [|split; [|split]].
  - intros P. apply redact_recursive_idempotent.
  - reflexivity.
  - reflexivity.
  - vm_compute. reflexivity.
Qed.

(* ===================================================================== *)
(** * Redaction on the store *)
(* ===================================================================== *)

Lemma for_each_ext {A : Type} (f g : A -> Heap.heap -> option Heap.heap) xs h :
  (forall x h1, f x h1 = g x h1) ->
  Heap.for_each f xs h = Heap.for_each g xs h.
Proof.
  intros Hfg. revert h. induction xs as [|x xs IH]; intros h; simpl.
  - reflexivity.
  - rewrite Hfg. destruct (g x h); [apply IH|reflexivity].
Qed.

Lemma heap_redact_is_walk fuel obj h :
  Heap._redact_recursive fuel obj h = walk redact_test fuel obj h.
Proof.
  revert obj h. induction fuel as [|fuel IH]; intros obj h; [reflexivity|].
  simpl. destruct obj; try reflexivity.
  destruct (h !! l) as [[xs|items]|]; try reflexivity.
  - erewrite for_each_ext; [reflexivity|].
    intros x h1. simpl. rewrite IH. reflexivity.
  - erewrite for_each_ext; [reflexivity|].
    intros kv h1. simpl. unfold redact_test. rewrite IH. reflexivity.
Qed.

Lemma heap_deep_copy_is_walk fuel obj h :
  Heap._deep_copy fuel obj h = walk no_test fuel obj h.
Proof.
  revert obj h. induction fuel as [|fuel IH]; intros obj h; [reflexivity|].
  simpl. destruct obj; try reflexivity.
  destruct (h !! l) as [[xs|items]|]; try reflexivity.
  - erewrite for_each_ext; [reflexivity|].
    intros x h1. simpl. rewrite IH. reflexivity.
  - erewrite for_each_ext; [reflexivity|].
    intros kv h1. simpl. rewrite IH. reflexivity.
Qed.

Lemma fold_left_ext_Forall {A B : Type} (f g : A -> B -> A) (l : list B) :
  Forall (fun b => forall a, f a b = g a b) l ->
  forall a, fold_left f l a = fold_left g l a.
Proof.
  induction 1 as [|b l Hb _ IH]; intros a; simpl; [reflexivity|].
  rewrite Hb. apply IH.
Qed.

Lemma redact_is_copy_with (P : pyvalue) :
  Redaction._redact_recursive P = copy_with redact_test P.
Proof.
  induction P as [| | | |xs IH|items IH] using pyvalue_ind'; try reflexivity.
  - simpl. f_equal. induction IH as [|x xs Hx _ IHxs]; [reflexivity|].
    simpl. rewrite Hx, IHxs. reflexivity.
  - simpl. f_equal. apply fold_left_ext_Forall.
    eapply Forall_impl; [exact IH|]. intros kv Hkv acc. simpl in *.
    unfold redact_test. rewrite Hkv. reflexivity.
Qed.

Lemma deep_copy_is_copy_with (P : pyvalue) :
  Redaction._deep_copy P = copy_with no_test P.
Proof.
  induction P as [| | | |xs IH|items IH] using pyvalue_ind'; try reflexivity.
  - simpl. f_equal. induction IH as [|x xs Hx _ IHxs]; [reflexivity|].
    simpl. rewrite Hx, IHxs. reflexivity.
  - simpl. f_equal. apply fold_left_ext_Forall.
    eapply Forall_impl; [exact IH|]. intros kv Hkv acc. simpl in *.
    rewrite Hkv. reflexivity.
Qed.

Section store_facts.
Local Open Scope nat_scope.
Import Heap.

Lemma mapM_forallb_Forall2 {A B : Type} (rd : A -> option B) (ab : A -> bool)
      (xs : list A) (ts : list B) :
  mapM rd xs = Some ts /\ forallb ab xs = true
  <-> Forall2 (fun x t => rd x = Some t /\ ab x = true) xs ts.
Proof.
  split.
  - intros [Hrd Hab]. apply mapM_Some_1 in Hrd.
    induction Hrd as [|x t xs ts Hx _ IH]; [constructor|].
    simpl in Hab. apply andb_true_iff in Hab as [Hab1 Hab2].
    constructor; [split; assumption|apply IH, Hab2].
  - intros HF. split.
    + apply mapM_Some_2. eapply Forall2_impl; [exact HF|].
      intros x t [Hx _]. exact Hx.
    + induction HF as [|x t xs ts [_ Hx] _ IH]; [reflexivity|].
      simpl. rewrite Hx, IH. reflexivity.
Qed.

Lemma elems_ok_list fuel n h xs ts :
  mapM (read fuel h) xs = Some ts /\ forallb (above fuel n h) xs = true
  <-> Forall2 (elem_ok fuel n h) xs ts.
Proof. apply mapM_forallb_Forall2. Qed.

Lemma items_ok_dict fuel n h items ts :
  mapM (fun kv => pair (fst kv) <$> read fuel h (snd kv)) items = Some ts
  /\ forallb (fun kv => above fuel n h (snd kv)) items = true
  <-> Forall2 (item_ok fuel n h) items ts.
Proof.
  rewrite mapM_forallb_Forall2. split; intros HF.
  - eapply Forall2_impl; [exact HF|]. intros kv kt [Hrd Hab]. simpl in *.
    apply fmap_Some in Hrd as (t & Ht & ->). repeat split; assumption.
  - eapply Forall2_impl; [exact HF|]. intros kv [k t] (Hk & Hrd & Hab).
    simpl in *. split; [|exact Hab]. rewrite Hrd, Hk. reflexivity.
Qed.

(** A value that lives at the addresses from [n] on reads the same in
    every store that agrees from [n] on. *)
Lemma elem_ok_agree fuel n h h' x t :
  elem_ok fuel n h x t -> agree_from n h h' -> elem_ok fuel n h' x t.
Proof.
  revert x t. induction fuel as [|fuel IH]; intros x t [Hrd Hab] Hag.
  - discriminate.
  - destruct x as [| | | |l]; try (split; assumption).
    simpl in Hrd, Hab. apply andb_true_iff in Hab as [Hn Hab].
    apply Nat.leb_le in Hn.
    destruct (h !! l) as [o|] eqn:El; [|discriminate].
    assert (El' : h' !! l = Some o).
    { rewrite (proj2 Hag l Hn (lookup_lt_Some _ _ _ El)). exact El. }
    unfold elem_ok. simpl. rewrite El'.
    assert (Hn' : (n <=? l) = true) by (apply Nat.leb_le; exact Hn).
    rewrite Hn'. simpl. destruct o as [xs|items].
    + apply fmap_Some in Hrd as (ts & Hts & ->).
      assert (HF : Forall2 (elem_ok fuel n h') xs ts).
      { eapply Forall2_impl; [apply elems_ok_list; split; eassumption|].
        intros y u Hy. apply IH; assumption. }
      apply elems_ok_list in HF as [-> ->]. split; reflexivity.
    + apply fmap_Some in Hrd as (ts & Hts & ->).
      assert (HF : Forall2 (item_ok fuel n h') items ts).
      { eapply Forall2_impl; [apply items_ok_dict; split; eassumption|].
        intros kv kt [Hk Hy]. split; [exact Hk|]. apply IH; assumption. }
      apply items_ok_dict in HF as [-> ->]. split; reflexivity.
Qed.

Lemma above_mono fuel n m h x :
  n <= m -> above fuel m h x = true -> above fuel n h x = true.
Proof.
  intros Hnm. revert x. induction fuel as [|fuel IH]; intros x Hab.
  - discriminate.
  - destruct x as [| | | |l]; try reflexivity.
    simpl in *. apply andb_true_iff in Hab as [Hn Hab].
    apply Nat.leb_le in Hn.
    assert (Hn' : (n <=? l) = true) by (apply Nat.leb_le; lia).
    rewrite Hn'. simpl. destruct (h !! l) as [[xs|items]|]; [| |discriminate].
    + apply forallb_forall. intros y Hy.
      apply IH. eapply forallb_forall in Hab; eassumption.
    + apply forallb_forall. intros y Hy.
      apply IH. eapply (proj1 (forallb_forall _ _)) in Hab; eassumption.
Qed.

Lemma elem_ok_mono fuel n m h x t :
  n <= m -> elem_ok fuel m h x t -> elem_ok fuel n h x t.
Proof.
  intros Hnm [Hrd Hab]. split; [exact Hrd|]. eapply above_mono; eassumption.
Qed.

(** Whatever can be read lives at the addresses from [0] on. *)
Lemma read_above fuel h x t : read fuel h x = Some t -> elem_ok fuel 0 h x t.
Proof.
  revert x t. induction fuel as [|fuel IH]; intros x t Hrd; [discriminate|].
  split; [exact Hrd|].
  destruct x as [| | | |l]; try reflexivity.
  simpl in *. destruct (h !! l) as [[xs|items]|]; [| |discriminate].
  - apply fmap_Some in Hrd as (ts & Hts & ->). apply mapM_Some_1 in Hts.
    induction Hts as [|y u xs ts Hy _ IHxs]; [reflexivity|].
    simpl. rewrite IHxs. apply IH in Hy. destruct Hy as [_ ->]. reflexivity.
  - apply fmap_Some in Hrd as (ts & Hts & ->). apply mapM_Some_1 in Hts.
    induction Hts as [|y u items ts Hy _ IHxs]; [reflexivity|].
    simpl. rewrite IHxs. apply fmap_Some in Hy as (t' & Ht' & _).
    apply IH in Ht'. destruct Ht' as [_ ->]. reflexivity.
Qed.

Lemma agree_from_refl n h : agree_from n h h.
Proof. split; [lia|reflexivity]. Qed.

Lemma agree_from_trans n h1 h2 h3 :
  agree_from n h1 h2 -> agree_from n h2 h3 -> agree_from n h1 h3.
Proof.
  intros [Hl1 H1] [Hl2 H2]. split; [lia|].
  intros l Hn Hl. rewrite H2 by lia. apply H1; assumption.
Qed.

Lemma agree_from_weaken n m h h' :
  n <= m -> agree_from n h h' -> agree_from m h h'.
Proof.
  intros Hnm [Hl H]. split; [exact Hl|]. intros l Hm Hlt. apply H; lia.
Qed.

Lemma agree_from_insert n r o h : r < n -> agree_from n h (<[r:=o]> h).
Proof.
  intros Hr. split; [rewrite length_insert; lia|].
  intros l Hn _. apply list_lookup_insert_ne. lia.
Qed.

Lemma agree_from_alloc n o h : agree_from n h (h ++ [o]).
Proof.
  split; [rewrite length_app; simpl; lia|].
  intros l _ Hl. apply lookup_app_l, Hl.
Qed.

(** Writing to an address that the old store did not have keeps the old
    store. *)
Lemma agree_from_insert_new h0 h r o :
  agree_from 0 h0 h -> length h0 <= r -> agree_from 0 h0 (<[r:=o]> h).
Proof.
  intros [Hl H] Hr. split; [rewrite length_insert; exact Hl|].
  intros l Hn Hlt. rewrite list_lookup_insert_ne by lia. apply H; assumption.
Qed.

Lemma dict_set_Forall2 {V W : Type} (R : pykey * V -> pykey * W -> Prop)
      (acc : list (pykey * V)) (tacc : list (pykey * W)) k v w :
  (forall kv kt, R kv kt -> fst kv = fst kt) ->
  Forall2 R acc tacc -> R (k, v) (k, w) ->
  Forall2 R (dict_set acc k v) (dict_set tacc k w).
Proof.
  intros Hkey HF Hnew. induction HF as [|[k1 v1] [k2 w1] acc tacc H1 HF' IH].
  - simpl. constructor; [exact Hnew|constructor].
  - simpl. pose proof (Hkey _ _ H1) as Hk. simpl in Hk. subst k2.
    destruct (decide (k1 = k)) as [->|Hne].
    + constructor; [exact Hnew|assumption].
    + constructor; assumption.
Qed.

Lemma store_item_eq r k v h acc :
  h !! r = Some (ODict acc) ->
  store_item r k v h = <[r := ODict (dict_set acc k v)]> h.
Proof. intros H. unfold store_item. rewrite H. reflexivity. Qed.

Lemma list_append_eq r v h acc :
  h !! r = Some (OList acc) ->
  list_append r v h = <[r := OList (acc ++ [v])]> h.
Proof. intros H. unfold list_append. rewrite H. reflexivity. Qed.

Lemma elem_ok_scalar_fuel fuel n h x t :
  elem_ok fuel n h x t -> exists fuel', fuel = S fuel'.
Proof.
  intros [Hrd _]. destruct fuel; [discriminate|]. eexists. reflexivity.
Qed.

(** The loop over the items of a dict.  [h0] is the store at the call,
    [r] the address of the result, [hi] the store and [acc] the items of
    the result when the loop is about to go through [items]. *)
Lemma walk_dict_loop sens fuel h0 r :
  walk_ok sens fuel -> r = length h0 ->
  forall items titems,
    Forall2 (item_ok fuel 0 h0) items titems ->
    forall hi acc tacc,
      agree_from 0 h0 hi ->
      hi !! r = Some (ODict acc) ->
      Forall2 (item_ok fuel (S r) hi) acc tacc ->
      exists h' acc',
        for_each
          (fun kv h1 =>
             if sens (fst kv)
             then Some (store_item r (fst kv) (HStr Redaction.REDACTED_VALUE) h1)
             else
               match walk sens fuel (snd kv) h1 with
               | Some (v, h2) => Some (store_item r (fst kv) v h2)
               | None => None
               end)
          items hi = Some h'
        /\ agree_from 0 h0 h'
        /\ h' !! r = Some (ODict acc')
        /\ Forall2 (item_ok fuel (S r) h') acc'
             (fold_left
                (fun result kv =>
                   if sens (fst kv)
                   then dict_set result (fst kv) (VStr Redaction.REDACTED_VALUE)
                   else dict_set result (fst kv) (copy_with sens (snd kv)))
                titems tacc).
Proof.
  intros Hwalk Hr items titems Hitems.
  induction Hitems as [|[k x] [k' tx] items titems Hkx _ IH];
    intros hi acc tacc Hag Hres Hacc.
  - exists hi, acc. simpl. auto.
  - destruct Hkx as [Hk Hx]. simpl in Hk, Hx. subst k'.
    pose proof (lookup_lt_Some _ _ _ Hres) as Hrlt.
    simpl. destruct (sens k) eqn:Es.
    + rewrite (store_item_eq _ _ _ _ _ Hres).
      eapply IH.
      * apply agree_from_insert_new; [exact Hag|lia].
      * apply list_lookup_insert_eq, Hrlt.
      * apply dict_set_Forall2.
        { intros kv kt [Hkk _]. exact Hkk. }
        { eapply Forall2_impl; [exact Hacc|]. intros kv kt [Hkk Hok].
          split; [exact Hkk|]. eapply elem_ok_agree; [exact Hok|].
          apply agree_from_insert. lia. }
        { split; [reflexivity|]. simpl.
          destruct (elem_ok_scalar_fuel _ _ _ _ _ Hx) as [fuel' ->].
          split; reflexivity. }
    + assert (Hxi : read fuel hi x = Some tx).
      { apply (elem_ok_agree fuel 0 h0 hi x tx Hx Hag). }
      destruct (Hwalk hi x tx Hxi) as (out & hi' & Hw & Hag' & Hout).
      rewrite Hw.
      assert (Hres' : hi' !! r = Some (ODict acc)).
      { rewrite (proj2 Hag' r) by lia. exact Hres. }
      rewrite (store_item_eq _ _ _ _ _ Hres').
      pose proof (lookup_lt_Some _ _ _ Hres') as Hrlt'.
      eapply IH.
      * apply agree_from_insert_new; [|lia].
        eapply agree_from_trans; eassumption.
      * apply list_lookup_insert_eq, Hrlt'.
      * apply dict_set_Forall2.
        { intros kv kt [Hkk _]. exact Hkk. }
        { eapply Forall2_impl; [exact Hacc|]. intros kv kt [Hkk Hok].
          split; [exact Hkk|].
          eapply elem_ok_agree; [|apply agree_from_insert; lia].
          eapply elem_ok_agree; [exact Hok|].
          eapply agree_from_weaken; [|exact Hag']. lia. }
        { split; [reflexivity|]. simpl.
          eapply elem_ok_agree; [|apply agree_from_insert; lia].
          eapply elem_ok_mono; [|exact Hout]. lia. }
Qed.

(** The loop of a list comprehension. *)
Lemma walk_list_loop sens fuel h0 r :
  walk_ok sens fuel -> r = length h0 ->
  forall xs ts,
    Forall2 (elem_ok fuel 0 h0) xs ts ->
    forall hi acc tacc,
      agree_from 0 h0 hi ->
      hi !! r = Some (OList acc) ->
      Forall2 (elem_ok fuel (S r) hi) acc tacc ->
      exists h' acc',
        for_each
          (fun item h1 =>
             match walk sens fuel item h1 with
             | Some (v, h2) => Some (list_append r v h2)
             | None => None
             end)
          xs hi = Some h'
        /\ agree_from 0 h0 h'
        /\ h' !! r = Some (OList acc')
        /\ Forall2 (elem_ok fuel (S r) h') acc'
             (tacc ++ map (copy_with sens) ts).
Proof.
  intros Hwalk Hr xs ts Hxs.
  induction Hxs as [|x tx xs ts Hx _ IH]; intros hi acc tacc Hag Hres Hacc.
  - exists hi, acc. simpl. rewrite app_nil_r. auto.
  - pose proof (lookup_lt_Some _ _ _ Hres) as Hrlt. simpl.
    assert (Hxi : read fuel hi x = Some tx).
    { apply (elem_ok_agree fuel 0 h0 hi x tx Hx Hag). }
    destruct (Hwalk hi x tx Hxi) as (out & hi' & Hw & Hag' & Hout).
    rewrite Hw.
    assert (Hres' : hi' !! r = Some (OList acc)).
    { rewrite (proj2 Hag' r) by lia. exact Hres. }
    rewrite (list_append_eq _ _ _ _ Hres').
    pose proof (lookup_lt_Some _ _ _ Hres') as Hrlt'.
    replace (tacc ++ copy_with sens tx :: map (copy_with sens) ts)
      with ((tacc ++ [copy_with sens tx]) ++ map (copy_with sens) ts)
      by (rewrite <- app_assoc; reflexivity).
    eapply IH.
    + apply agree_from_insert_new; [|lia].
      eapply agree_from_trans; eassumption.
    + apply list_lookup_insert_eq, Hrlt'.
    + apply Forall2_app.
      * eapply Forall2_impl; [exact Hacc|]. intros y u Hok.
        eapply elem_ok_agree; [|apply agree_from_insert; lia].
        eapply elem_ok_agree; [exact Hok|].
        eapply agree_from_weaken; [|exact Hag']. lia.
      * constructor; [|constructor].
        eapply elem_ok_agree; [|apply agree_from_insert; lia].
        eapply elem_ok_mono; [|exact Hout]. lia.
Qed.

Lemma copy_with_scalar sens fuel h x t :
  match x with HRef _ => False | _ => True end ->
  read (S fuel) h x = Some t -> copy_with sens t = t.
Proof.
  destruct x; simpl; intros Hx Hrd; try contradiction;
    injection Hrd as <-; reflexivity.
Qed.

(** The traversal returns on every value that can be read out of the
    store, whatever the test on the keys. *)
Lemma walk_all sens fuel : walk_ok sens fuel.
Proof.
  induction fuel as [|fuel IH]; intros h x t Hrd; [discriminate|].
  destruct x as [| | | |l];
    try (eexists _, h; split; [reflexivity|];
         split; [apply agree_from_refl|];
         split; [|reflexivity];
         match type of Hrd with
         | read _ _ ?x = _ => rewrite (copy_with_scalar sens fuel h x t I Hrd)
         end; exact Hrd).
  simpl in Hrd. destruct (h !! l) as [[xs|items]|] eqn:El; [| |discriminate].
  - apply fmap_Some in Hrd as (ts & Hts & ->).
    assert (Hxs : Forall2 (elem_ok fuel 0 h) xs ts).
    { apply mapM_Some_1 in Hts. eapply Forall2_impl; [exact Hts|].
      intros y u Hy. apply read_above, Hy. }
    destruct (walk_list_loop sens fuel h (length h) IH eq_refl xs ts Hxs
                (h ++ [OList []]) [] [])
      as (h' & acc' & Hloop & Hag & Hres & Hacc).
    { apply agree_from_alloc. }
    { apply list_lookup_middle. reflexivity. }
    { constructor. }
    exists (HRef (length h)), h'. split; [|split; [exact Hag|]].
    + simpl. rewrite El. unfold alloc. rewrite Hloop. reflexivity.
    + assert (HF : Forall2 (elem_ok fuel (length h) h') acc'
                           (map (copy_with sens) ts)).
      { eapply Forall2_impl; [exact Hacc|]. intros y u Hy.
        eapply elem_ok_mono; [|exact Hy]. lia. }
      apply elems_ok_list in HF as [Hm Hf].
      split; simpl; rewrite Hres.
      * rewrite Hm. reflexivity.
      * rewrite Nat.leb_refl, Hf. reflexivity.
  - apply fmap_Some in Hrd as (ts & Hts & ->).
    assert (Hitems : Forall2 (item_ok fuel 0 h) items ts).
    { apply mapM_Some_1 in Hts. eapply Forall2_impl; [exact Hts|].
      intros kv kt Hy. simpl in Hy. apply fmap_Some in Hy as (u & Hu & ->).
      split; [reflexivity|]. apply read_above, Hu. }
    destruct (walk_dict_loop sens fuel h (length h) IH eq_refl items ts Hitems
                (h ++ [ODict []]) [] [])
      as (h' & acc' & Hloop & Hag & Hres & Hacc).
    { apply agree_from_alloc. }
    { apply list_lookup_middle. reflexivity. }
    { constructor. }
    exists (HRef (length h)), h'. split; [|split; [exact Hag|]].
    + simpl. rewrite El. unfold alloc. rewrite Hloop. reflexivity.
    + match type of Hacc with Forall2 _ _ ?res =>
        assert (HF : Forall2 (item_ok fuel (length h) h') acc' res)
      end.
      { eapply Forall2_impl; [exact Hacc|]. intros kv kt [Hk Hy].
        split; [exact Hk|]. eapply elem_ok_mono; [|exact Hy]. lia. }
      apply items_ok_dict in HF as [Hm Hf].
      split; simpl; rewrite Hres.
      * rewrite Hm. reflexivity.
      * rewrite Nat.leb_refl, Hf. reflexivity.
Qed.

(** Every container nested in a value that lives at the addresses from
    [n] on has an address [>= n]. *)
Lemma above_reachable n h v l :
  reachable h v l -> forall fuel, above fuel n h v = true -> n <= l.
Proof.
  induction 1 as [l|l xs x l' Hl Hx _ IH|l items kv l' Hl Hkv _ IH];
    intros fuel Hab; (destruct fuel; [discriminate|]);
    simpl in Hab; apply andb_true_iff in Hab as [Hn Hab].
  - apply Nat.leb_le, Hn.
  - rewrite Hl in Hab. apply (IH fuel).
    eapply (proj1 (forallb_forall _ _)) in Hab; [exact Hab|].
    apply list_elem_of_In, Hx.
  - rewrite Hl in Hab. apply (IH fuel).
    eapply (proj1 (forallb_forall _ _)) in Hab; [exact Hab|].
    apply list_elem_of_In, Hkv.
Qed.

End store_facts.

(** C2.  [redact_payload(P, skip_redaction)] never mutates [P], whatever
    the flag: on every store [h] in which [P] stands for a value [t]
    (a finite tree, so that the traversal returns), the call returns a
    result [out] and a store [h'] in which every object of [h] is what it
    was, [P] still stands for [t], [out] stands for the redaction (or the
    copy) of [t], and no container that is [out] or is nested in [out] is
    an object of [h]: the result shares no container with [P]. *)
Theorem redact_payload_never_mutates
        (fuel : nat) (h : Heap.heap) (P : Heap.hval) (t : pyvalue)
        (skip_redaction : bool) :
  Heap.read fuel h P = Some t ->
  exists out h',
    Heap.redact_payload fuel P skip_redaction h = Some (out, h')
    /\ (forall l o, h !! l = Some o -> h' !! l = Some o)
    /\ Heap.read fuel h' P = Some t
    /\ Heap.read fuel h' out = Some (Redaction.redact_payload t skip_redaction)
    /\ (forall l, Heap.reachable h' out l -> h !! l = None).
Proof.
  intros Hrd.
  set (sens := if skip_redaction then no_test else redact_test).
  assert (Hw : Heap.redact_payload fuel P skip_redaction h = walk sens fuel P h).
  { unfold Heap.redact_payload, sens. destruct skip_redaction.
    - apply heap_deep_copy_is_walk.
    - apply heap_redact_is_walk. }
  assert (Hc : Redaction.redact_payload t skip_redaction = copy_with sens t).
  { unfold Redaction.redact_payload, sens. destruct skip_redaction.
    - apply deep_copy_is_copy_with.
    - apply redact_is_copy_with. }
  destruct (walk_all sens fuel h P t Hrd) as (out & h' & Hwalk & Hag & Hout).
  exists out, h'. rewrite Hw, Hc.
  split; [exact Hwalk|]. split; [|split; [|split]].
  - intros l o Hl. rewrite (proj2 Hag l); [exact Hl|lia|].
    apply (lookup_lt_Some _ _ _ Hl).
  - apply (elem_ok_agree fuel 0%nat h h' P t (read_above _ _ _ _ Hrd) Hag).
  - apply Hout.
  - intros l Hreach. apply lookup_ge_None.
    apply (above_reachable _ _ _ _ Hreach fuel). apply Hout.
Qed.

Lemma redact_payload_never_mutates_witness :
  Heap.read 4 sample_heap (Heap.HRef 2%nat) = Some sample_tree
  /\ exists out h',
      Heap.redact_payload 4 (Heap.HRef 2%nat) false sample_heap
      = Some (out, h')
      /\ (forall l o, sample_heap !! l = Some o -> h' !! l = Some o)
      /\ Heap.read 4 h' (Heap.HRef 2%nat) = Some sample_tree
      /\ Heap.read 4 h' out
         = Some (Redaction.redact_payload sample_tree false)
      /\ (forall l, Heap.reachable h' out l -> sample_heap !! l = None).
Proof.
  split; [reflexivity|].
  apply (redact_payload_never_mutates 4 sample_heap (Heap.HRef 2%nat)
           sample_tree false).
  reflexivity.
Defined.

Example redact_sample_heap :
  Heap.redact_payload 4 (Heap.HRef 2%nat) false sample_heap
  = Some (Heap.HRef 3%nat,
          sample_heap ++
          [Heap.ODict [(KStr "api_key", Heap.HStr "[REDACTED]");
                       (KStr "nested", Heap.HRef 4%nat);
                       (KStr "items", Heap.HRef 5%nat)];
           Heap.ODict [(KStr "token", Heap.HStr "[REDACTED]")];
           Heap.OList [Heap.HRef 6%nat; Heap.HInt 1];
           Heap.ODict [(KStr "token", Heap.HStr "[REDACTED]")]]).
Proof. vm_compute. reflexivity. Qed.

(* ===================================================================== *)
(** * Strings *)
(* ===================================================================== *)

Section string_facts.
Local Open Scope nat_scope.








Lemma get_take (n : nat) (s : string) (i : nat) :
  i < n -> String.get i (PyStr.take n s) = String.get i s.
Proof.
  revert s i. induction n as [|n IH]; intros s i Hi; [lia|].
  destruct s as [|c s]; [reflexivity|]. destruct i as [|i]; [reflexivity|].
  simpl. apply IH. lia.
Qed.




End string_facts.

(* ===================================================================== *)
(** * Construction of a dispatch entry *)
(* ===================================================================== *)

Lemma max_length_ret name n v v' :
  Models.max_length name n v = Ret v' -> v' = v /\ PyStr.len v <= n.
Proof.
  unfold Models.max_length.
  destruct (Z.ltb_spec n (PyStr.len v)) as [Hlt|Hge]; [discriminate|].
  intros Hv. injection Hv as <-. split; [reflexivity|assumption].
Qed.

Lemma max_length_ok name n v :
  PyStr.len v <= n -> Models.max_length name n v = Ret v.
Proof.
  intros H. unfold Models.max_length.
  destruct (Z.ltb_spec n (PyStr.len v)) as [Hlt|Hge]; [lia|reflexivity].
Qed.

Lemma dict_field_ret name v p : Models.dict_field name v = Ret p -> p = v.
Proof.
  destruct v as [[| | | | |items]|]; simpl; try discriminate.
  - destruct (forallb _ items); [|discriminate]. intros H. injection H as <-.
    reflexivity.
  - intros H. injection H as <-. reflexivity.
Qed.

Lemma validate_kind_ret kind k :
  Models.validate_kind kind = Ret k ->
  k = kind /\ kind <> "" /\ PyStr.len kind <= 64.
Proof.
  unfold Models.validate_kind.
  destruct (Models.max_length "kind" _ kind) as [v|] eqn:Hm; [|discriminate].
  apply max_length_ret in Hm as [-> Hlen]. cbn [res_bind].
  unfold Models.kind_not_empty. destruct (decide (kind = "")) as [He|Hne].
  - rewrite bool_decide_eq_true_2 by exact He. discriminate.
  - rewrite bool_decide_eq_false_2 by exact Hne. intros H. injection H as <-.
    auto.
Qed.

Lemma validate_summary_ret summary s :
  Models.validate_summary summary = Ret s ->
  s = summary /\ PyStr.contains PyStr.newline summary = false
  /\ PyStr.len summary <= 512.
Proof.
  unfold Models.validate_summary.
  destruct (Models.max_length "summary" _ summary) as [v|] eqn:Hm;
    [|discriminate].
  apply max_length_ret in Hm as [-> Hlen]. cbn [res_bind].
  unfold Models.summary_single_line.
  destruct (PyStr.contains PyStr.newline summary); [discriminate|].
  intros H. injection H as <-. auto.
Qed.

(** What a successful construction tells. *)
Lemma new_DispatchEntry_ret
      ticket_uuid run_uuid kind summary message_uuid payload source
      schema_version client_ts entry :
  Models.new_DispatchEntry ticket_uuid run_uuid kind summary message_uuid
                           payload source schema_version client_ts
  = Ret entry ->
  exists t r,
    ticket_uuid = Some t /\ run_uuid = Some r
    /\ Models.validate_kind kind = Ret kind
    /\ Models.validate_summary summary = Ret summary
    /\ Models.dict_field "payload" payload = Ret payload
    /\ PyStr.len source <= 32
    /\ entry = {| Models.ticket_uuid := t; Models.run_uuid := r;
                  Models.kind := kind; Models.summary := summary;
                  Models.message_uuid := message_uuid;
                  Models.payload := payload; Models.source := source;
                  Models.schema_version := schema_version;
                  Models.client_ts := client_ts |}.
Proof.
  unfold Models.new_DispatchEntry. intros He.
  destruct ticket_uuid as [t|]; [|discriminate].
  destruct run_uuid as [r|]; [|discriminate].
  cbn [Models.str_field res_bind] in He.
  destruct (Models.validate_kind kind) as [k|] eqn:Hk; [|discriminate].
  cbn [res_bind] in He.
  destruct (Models.validate_summary summary) as [s|] eqn:Hs; [|discriminate].
  cbn [res_bind] in He.
  destruct (Models.dict_field "payload" payload) as [p|] eqn:Hp;
    [|discriminate].
  cbn [res_bind] in He.
  destruct (Models.max_length "source" _ source) as [src|] eqn:Hsrc;
    [|discriminate].
  cbn [res_bind] in He. injection He as <-.
  apply validate_kind_ret in Hk as (-> & _ & _).
  apply validate_summary_ret in Hs as (-> & _ & _).
  apply dict_field_ret in Hp as ->.
  apply max_length_ret in Hsrc as [-> Hlen].
  exists t, r.
  repeat (split; [first [reflexivity|assumption]|]). reflexivity.
Qed.

(* ===================================================================== *)
(** * The summary and the kind of a dispatch entry *)
(* ===================================================================== *)







Example newline_folding :
  PyStr.replace PyStr.newline PyStr.space
    (DispatchClient.truncate_summary
       (String "a" (String PyStr.newline (String "b" EmptyString))))
  = "a b".
Proof. vm_compute. reflexivity. Qed.

Lemma validate_kind_cases (kind : string) :
  (kind <> "" /\ PyStr.len kind <= 64 /\ Models.validate_kind kind = Ret kind)
  \/ ((kind = "" \/ 64 < PyStr.len kind)
      /\ exists msg, Models.validate_kind kind
                     = Raise (Exn ValidationError msg)).
Proof.
  unfold Models.validate_kind, Models.max_length, Models.KIND_MAX_LENGTH.
  destruct (Z.ltb_spec 64 (PyStr.len kind)) as [Hlong|Hshort]; simpl.
  - right. split; [right; exact Hlong|]. eexists. reflexivity.
  - unfold Models.kind_not_empty. destruct (decide (kind = "")) as [He|Hne].
    + right. split; [left; exact He|].
      rewrite bool_decide_eq_true_2 by exact He. eexists. reflexivity.
    + left. rewrite bool_decide_eq_false_2 by exact Hne. auto.
Qed.

(** C8.  The field [kind] is rejected with a validation error exactly
    when it is the empty string or longer than 64 characters, and the
    construction of a [DispatchEntry] whose kind is rejected fails with a
    validation error; so every entry that was constructed has a kind that
    is not empty (and of at most 64 characters) and a summary without
    newline. *)
Theorem dispatch_entry_kind_validation
        (ticket_uuid run_uuid : option string) (kind summary : string)
        (message_uuid : option string) (payload : option pyvalue)
        (source : string) (schema_version : Z) (client_ts : option string) :
  let construction :=
    Models.new_DispatchEntry ticket_uuid run_uuid kind summary message_uuid
                             payload source schema_version client_ts in
  ((exists msg, Models.validate_kind kind = Raise (Exn ValidationError msg))
   <-> kind = "" \/ 64 < PyStr.len kind)
  /\ ((forall e, Models.validate_kind kind <> Raise e)
      <-> Models.validate_kind kind = Ret kind)
  /\ (kind = "" \/ 64 < PyStr.len kind ->
      exists msg, construction = Raise (Exn ValidationError msg))
  /\ (forall entry,
        construction = Ret entry ->
        Models.kind entry = kind
        /\ Models.kind entry <> ""
        /\ PyStr.len (Models.kind entry) <= 64
        /\ PyStr.contains PyStr.newline (Models.summary entry) = false).
Proof.
  intros construction.
  split; [|split; [|split]].
  - destruct (validate_kind_cases kind) as [(Hne & Hlen & Hok)|[Hbad Hraise]].
    + rewrite Hok. split.
      * intros [msg Hmsg]. discriminate.
      * intros [He|Hl]; [contradiction|lia].
    + split; intros _; assumption.
  - destruct (validate_kind_cases kind) as [(Hne & Hlen & Hok)|[Hbad [msg Hr]]].
    + rewrite Hok. split; [reflexivity|]. intros _ e. discriminate.
    + rewrite Hr. split; [|discriminate]. intros H. exfalso. eapply H.
      reflexivity.
  - intros Hbad.
    destruct (validate_kind_cases kind) as [(Hne & Hlen & Hok)|[_ [msg Hr]]].
    + destruct Hbad as [He|Hl]; [contradiction|lia].
    + unfold construction, Models.new_DispatchEntry, Models.str_field.
      destruct ticket_uuid; [|eexists; reflexivity].
      destruct run_uuid; [|eexists; reflexivity].
      simpl. rewrite Hr. simpl. eexists. reflexivity.
  - intros entry He. unfold construction in He.
    apply new_DispatchEntry_ret in He
      as (t & r & _ & _ & Hk & Hs & _ & _ & ->).
    apply validate_kind_ret in Hk as (_ & Hne & Hlen).
    apply validate_summary_ret in Hs as (_ & Hnl & _).
    cbn [Models.kind Models.summary]. auto.
Qed.

Lemma dispatch_entry_kind_validation_witness :
  exists msg,
    Models.new_DispatchEntry (Some "ticket-123") (Some "run-456") "" "Test"
                             None None "sdk" 1 None
    = Raise (Exn ValidationError msg).
Proof.
  destruct (dispatch_entry_kind_validation
              (Some "ticket-123") (Some "run-456") "" "Test" None None "sdk" 1
              None) as (_ & _ & H & _).
  apply H. left. reflexivity.
Defined.

(* ===================================================================== *)
(** * The size of the payload *)
(* ===================================================================== *)


Lemma improvements_truncate_eq self payload :
  ImprovementsClient._truncate_payload self payload
  = if Json.encodable payload
    then Ret (bounded (ImprovementsClient._max_bytes self) payload)
    else Raise Json.digits_error.
Proof.
  unfold ImprovementsClient._truncate_payload, Json.dumps, bounded, json_size,
    truncation_notice.
  destruct (Json.encodable payload); cbn [res_bind]; [|reflexivity].
  destruct (_ <=? _); reflexivity.
Qed.






(* ===================================================================== *)
(** * Clients from the environment *)
(* ===================================================================== *)

Lemma env_int_cases (environ : gmap string string) (name : string) (dflt : Z) :
  PyInt.parse (PyStr.of_Z dflt) = PyInt.Value dflt ->
  (malformed environ name
   /\ exists msg,
       PyInt.int (default (PyStr.of_Z dflt) (environ !! name))
       = Raise (Exn ValueError msg))
  \/ (~ malformed environ name
      /\ exists z,
          PyInt.int (default (PyStr.of_Z dflt) (environ !! name)) = Ret z
          /\ env_int_is environ name dflt z).
Proof.
  intros Hd. unfold malformed, env_int_is, PyInt.int.
  destruct (environ !! name) as [s|]; simpl.
  - destruct (PyInt.parse s) as [z| |n] eqn:Hs.
    + right. split.
      * intros (s' & Hs' & Hnone). injection Hs' as <-.
        apply (Hnone z). exact Hs.
      * exists z. split; reflexivity.
    + left. split; [exists s; split; [reflexivity|]|].
      * intros z. rewrite Hs. discriminate.
      * eexists. reflexivity.
    + left. split; [exists s; split; [reflexivity|]|].
      * intros z. rewrite Hs. discriminate.
      * eexists. reflexivity.
  - right. rewrite Hd. split.
    + intros (s' & Hs' & _). discriminate.
    + exists dflt. split; reflexivity.
Qed.

(** C9, as amended.  [from_env], of either client, on an environment in
    which the timeout in milliseconds or the maximal payload size is set
    to a string that [int()] rejects (it is not an integer literal, or it
    is one of more than 4300 digits), raises the error of [int()] to its
    caller; no default is put in its place.  That error is a
    [ValueError]: whatever [from_env] raises, it is not the
    [FulcrumConfigError] of the SDK.  When both variables are accepted or
    absent it raises nothing and returns a client whose timeout and size
    are the integers read, or the defaults 1500 and 65536 for a variable
    that is absent. *)
Theorem from_env_malformed_integer (environ : gmap string string) :
  ((malformed environ "FULCRUM_DISPATCH_TIMEOUT_MS"
    \/ malformed environ "FULCRUM_DISPATCH_MAX_BYTES")
   <-> exists msg,
        DispatchClient.from_env environ = Raise (Exn ValueError msg))
  /\ ((~ malformed environ "FULCRUM_DISPATCH_TIMEOUT_MS"
       /\ ~ malformed environ "FULCRUM_DISPATCH_MAX_BYTES")
      <-> exists c,
           DispatchClient.from_env environ = Ret c
           /\ env_int_is environ "FULCRUM_DISPATCH_TIMEOUT_MS" 1500
                         (DispatchClient._timeout_ms c)
           /\ env_int_is environ "FULCRUM_DISPATCH_MAX_BYTES" 65536
                         (DispatchClient._max_bytes c))
  /\ ((malformed environ "FULCRUM_IMPROVEMENTS_TIMEOUT_MS"
       \/ malformed environ "FULCRUM_IMPROVEMENTS_MAX_BYTES")
      <-> exists msg,
           ImprovementsClient.from_env environ = Raise (Exn ValueError msg))
  /\ ((~ malformed environ "FULCRUM_IMPROVEMENTS_TIMEOUT_MS"
       /\ ~ malformed environ "FULCRUM_IMPROVEMENTS_MAX_BYTES")
      <-> exists c,
           ImprovementsClient.from_env environ = Ret c
           /\ env_int_is environ "FULCRUM_IMPROVEMENTS_TIMEOUT_MS" 1500
                         (ImprovementsClient._timeout_ms c)
           /\ env_int_is environ "FULCRUM_IMPROVEMENTS_MAX_BYTES" 65536
                         (ImprovementsClient._max_bytes c))
  /\ (forall e,
        DispatchClient.from_env environ = Raise e
        \/ ImprovementsClient.from_env environ = Raise e ->
        exn_cls e = ValueError /\ is_config_error e = false).
Proof.
  assert (H1500 : PyInt.parse (PyStr.of_Z 1500) = PyInt.Value 1500)
    by (vm_compute; reflexivity).
  assert (H65536 : PyInt.parse (PyStr.of_Z 65536) = PyInt.Value 65536)
    by (vm_compute; reflexivity).
  split; [|split; [|split; [|split]]].
  - unfold DispatchClient.from_env.
    change DispatchClient.DEFAULT_TIMEOUT_MS with 1500.
    change DispatchClient.DEFAULT_MAX_BYTES with 65536.
    destruct (env_int_cases environ "FULCRUM_DISPATCH_TIMEOUT_MS" 1500 H1500)
      as [[Hm [msg ->]]|[Hm (z & -> & Hz)]]; cbn [res_bind].
    + split; [intros _; exists msg; reflexivity|intros _; left; exact Hm].
    + destruct (env_int_cases environ "FULCRUM_DISPATCH_MAX_BYTES" 65536 H65536)
        as [[Hm' [msg ->]]|[Hm' (z' & -> & Hz')]]; cbn [res_bind].
      * split; [intros _; exists msg; reflexivity|intros _; right; exact Hm'].
      * split; [intros [H|H]; contradiction|intros [msg H]; discriminate].
  - unfold DispatchClient.from_env.
    change DispatchClient.DEFAULT_TIMEOUT_MS with 1500.
    change DispatchClient.DEFAULT_MAX_BYTES with 65536.
    destruct (env_int_cases environ "FULCRUM_DISPATCH_TIMEOUT_MS" 1500 H1500)
      as [[Hm [msg ->]]|[Hm (z & -> & Hz)]]; cbn [res_bind].
    + split; [intros [H _]; contradiction|intros (c & H & _); discriminate].
    + destruct (env_int_cases environ "FULCRUM_DISPATCH_MAX_BYTES" 65536 H65536)
        as [[Hm' [msg ->]]|[Hm' (z' & -> & Hz')]]; cbn [res_bind].
      * split; [intros [_ H]; contradiction|intros (c & H & _); discriminate].
      * split; [|intros _; split; assumption].
        intros _. eexists. split; [reflexivity|]. split; assumption.
  - unfold ImprovementsClient.from_env.
    change ImprovementsClient.DEFAULT_TIMEOUT_MS with 1500.
    change ImprovementsClient.DEFAULT_MAX_BYTES with 65536.
    destruct (env_int_cases environ "FULCRUM_IMPROVEMENTS_TIMEOUT_MS" 1500 H1500)
      as [[Hm [msg ->]]|[Hm (z & -> & Hz)]]; cbn [res_bind].
    + split; [intros _; exists msg; reflexivity|intros _; left; exact Hm].
    + destruct (env_int_cases environ "FULCRUM_IMPROVEMENTS_MAX_BYTES" 65536
                              H65536)
        as [[Hm' [msg ->]]|[Hm' (z' & -> & Hz')]]; cbn [res_bind].
      * split; [intros _; exists msg; reflexivity|intros _; right; exact Hm'].
      * split; [intros [H|H]; contradiction|intros [msg H]; discriminate].
  - unfold ImprovementsClient.from_env.
    change ImprovementsClient.DEFAULT_TIMEOUT_MS with 1500.
    change ImprovementsClient.DEFAULT_MAX_BYTES with 65536.
    destruct (env_int_cases environ "FULCRUM_IMPROVEMENTS_TIMEOUT_MS" 1500 H1500)
      as [[Hm [msg ->]]|[Hm (z & -> & Hz)]]; cbn [res_bind].
    + split; [intros [H _]; contradiction|intros (c & H & _); discriminate].
    + destruct (env_int_cases environ "FULCRUM_IMPROVEMENTS_MAX_BYTES" 65536
                              H65536)
        as [[Hm' [msg ->]]|[Hm' (z' & -> & Hz')]]; cbn [res_bind].
      * split; [intros [_ H]; contradiction|intros (c & H & _); discriminate].
      * split; [|intros _; split; assumption].
        intros _. eexists. split; [reflexivity|]. split; assumption.
  - intros e.
    unfold DispatchClient.from_env, ImprovementsClient.from_env.
    change DispatchClient.DEFAULT_TIMEOUT_MS with 1500.
    change DispatchClient.DEFAULT_MAX_BYTES with 65536.
    change ImprovementsClient.DEFAULT_TIMEOUT_MS with 1500.
    change ImprovementsClient.DEFAULT_MAX_BYTES with 65536.
    intros [H|H].
    + destruct (env_int_cases environ "FULCRUM_DISPATCH_TIMEOUT_MS" 1500 H1500)
        as [[_ [msg Hr]]|[_ (z & Hr & _)]]; rewrite Hr in H;
        cbn [res_bind] in H; [injection H as <-; split; reflexivity|].
      destruct (env_int_cases environ "FULCRUM_DISPATCH_MAX_BYTES" 65536 H65536)
        as [[_ [msg Hr']]|[_ (z' & Hr' & _)]]; rewrite Hr' in H;
        cbn [res_bind] in H; [injection H as <-; split; reflexivity|].
      discriminate.
    + destruct (env_int_cases environ "FULCRUM_IMPROVEMENTS_TIMEOUT_MS" 1500
                              H1500)
        as [[_ [msg Hr]]|[_ (z & Hr & _)]]; rewrite Hr in H;
        cbn [res_bind] in H; [injection H as <-; split; reflexivity|].
      destruct (env_int_cases environ "FULCRUM_IMPROVEMENTS_MAX_BYTES" 65536
                              H65536)
        as [[_ [msg Hr']]|[_ (z' & Hr' & _)]]; rewrite Hr' in H;
        cbn [res_bind] in H; [injection H as <-; split; reflexivity|].
      discriminate.
Qed.

Lemma from_env_malformed_integer_witness :
  malformed sample_environ "FULCRUM_DISPATCH_TIMEOUT_MS"
  /\ exists msg,
      DispatchClient.from_env sample_environ = Raise (Exn ValueError msg).
Proof.
  assert (Hm : malformed sample_environ "FULCRUM_DISPATCH_TIMEOUT_MS").
  { exists "not_a_number". split; [reflexivity|].
    intros z. vm_compute. discriminate. }
  split; [exact Hm|].
  destruct (from_env_malformed_integer sample_environ) as [[H _] _].
  apply H. left. exact Hm.
Defined.

(** The claim as it was stated fails twice.  With the timeout set to
    [not_a_number], what [from_env] raises is a [ValueError], not a
    configuration error; and with the timeout set to an integer literal
    of 4301 digits, a well-formed integer, [from_env] raises all the
    same. *)
Lemma from_env_raises_value_error :
  (exists e,
      DispatchClient.from_env sample_environ = Raise e
      /\ exn_cls e = ValueError /\ is_config_error e = false)
  /\ (PyInt.scan long_literal false 0 0 = Some (long_literal_value, 4301, "")
      /\ exists msg,
          DispatchClient.from_env
            (<["FULCRUM_DISPATCH_TIMEOUT_MS" := long_literal]> ∅)
          = Raise (Exn ValueError msg)).
Proof.
  split.
  - eexists. split; [vm_compute; reflexivity|]. split; reflexivity.
  - split; [vm_compute; reflexivity|].
    eexists. vm_compute. reflexivity.
Qed.

Example from_env_well_formed :
  exists c,
    DispatchClient.from_env
      (<["FULCRUM_DISPATCH_TIMEOUT_MS" := "3000"]>
         (<["FULCRUM_DISPATCH_MAX_BYTES" := "32768"]> ∅)) = Ret c
    /\ DispatchClient._timeout_ms c = 3000
    /\ DispatchClient._max_bytes c = 32768.
Proof. eexists. split; [vm_compute; reflexivity|]. split; reflexivity. Qed.

(** [int()] as the environment meets it: whitespace around the literal,
    the separators that are not whitespace for it, and the limit on the
    digits. *)
Example int_literals :
  PyInt.int " 7 " = Ret 7
  /\ PyInt.int (String (ascii_of_N 133) "7") = Ret 7
  /\ PyInt.parse (String (ascii_of_N 28) "7") = PyInt.Invalid
  /\ PyInt.parse (String "7" (String (ascii_of_N 31) "")) = PyInt.Invalid
  /\ PyInt.int "-1_000" = Ret (-1000)
  /\ PyInt.parse "1__0" = PyInt.Invalid
  /\ PyInt.parse "_1" = PyInt.Invalid
  /\ PyInt.parse "1_" = PyInt.Invalid
  /\ PyInt.parse "+ 7" = PyInt.Invalid
  /\ PyInt.parse "" = PyInt.Invalid
  /\ PyInt.parse (PyStr.repeat "0" 4301) = PyInt.TooLong 4301
  /\ (exists z, PyInt.parse (PyStr.repeat "1" 4300) = PyInt.Value z).
Proof.
  repeat split; try (vm_compute; reflexivity).
  eexists. vm_compute. reflexivity.
Qed.

(* ===================================================================== *)
(** * The monad *)
(* ===================================================================== *)

Lemma no_raise_ret {A : Type} (a : A) : no_raise (ret a).
Proof. intros w. exists a, w. reflexivity. Qed.

Lemma no_raise_bind {A B : Type} (m : M A) (k : A -> M B) :
  no_raise m -> (forall a, no_raise (k a)) -> no_raise (bind m k).
Proof.
  intros Hm Hk w. destruct (Hm w) as (a & w1 & H1).
  destruct (Hk a w1) as (b & w2 & H2). exists b, w2.
  unfold bind. rewrite H1. exact H2.
Qed.

(** A [try] whose handler returns, returns: this is what makes the
    methods best-effort. *)
Lemma no_raise_try {A : Type} (body : M A) (handler : exn -> M A) :
  (forall e, no_raise (handler e)) -> no_raise (try_except body handler).
Proof.
  intros Hh w. unfold try_except. destruct (body w) as [[a|e] w1].
  - exists a, w1. reflexivity.
  - apply Hh.
Qed.

Lemma noop_no_raise {A : Type} (m : M A) (a : A) : noop m a -> no_raise m.
Proof. intros H w. destruct (H w) as (w' & Hw & _). exists a, w'. exact Hw. Qed.

Lemma noop_ret {A : Type} (a : A) : noop (ret a) a.
Proof. intros w. exists w. split; reflexivity. Qed.

Lemma noop_bind {A B : Type} (m : M A) (k : A -> M B) (a : A) (b : B) :
  noop m a -> noop (k a) b -> noop (bind m k) b.
Proof.
  intros Hm Hk w. destruct (Hm w) as (w1 & H1 & Hs1).
  destruct (Hk w1) as (w2 & H2 & Hs2). exists w2.
  unfold bind. rewrite H1. split; [exact H2|congruence].
Qed.

Lemma dispatch_log_noop self msg :
  noop (DispatchClient._log_debug self msg) tt.
Proof.
  intros w. unfold DispatchClient._log_debug.
  destruct (DispatchClient._debug self); eexists; split; reflexivity.
Qed.

Lemma improvements_log_noop self msg :
  noop (ImprovementsClient._log_debug self msg) tt.
Proof.
  intros w. unfold ImprovementsClient._log_debug.
  destruct (ImprovementsClient._debug self); eexists; split; reflexivity.
Qed.

Lemma dispatch_log_then {A : Type} self msg (a : A) :
  noop (bind (DispatchClient._log_debug self msg) (fun _ => ret a)) a.
Proof. eapply noop_bind; [apply dispatch_log_noop|apply noop_ret]. Qed.

Lemma improvements_log_then {A : Type} self msg (a : A) :
  noop (bind (ImprovementsClient._log_debug self msg) (fun _ => ret a)) a.
Proof. eapply noop_bind; [apply improvements_log_noop|apply noop_ret]. Qed.

Lemma on_error_noop {A : Type} self timed_out error (a : A) e :
  noop (ImprovementsClient.on_error self timed_out error a e) a.
Proof.
  unfold ImprovementsClient.on_error.
  destruct (is_timeout e); apply improvements_log_then.
Qed.

(* ===================================================================== *)
(** * The dispatch client *)
(* ===================================================================== *)

(** The two ways a request does not get as far as the transport. *)
Lemma ms_to_seconds_cases timeout_ms :
  (timeout_ok timeout_ms = true /\ ms_to_seconds timeout_ms = Ret timeout_ms)
  \/ (timeout_ok timeout_ms = false
      /\ exists e, ms_to_seconds timeout_ms = Raise e).
Proof.
  unfold ms_to_seconds. destruct (timeout_ok timeout_ms).
  - left. split; reflexivity.
  - right. split; [reflexivity|]. eexists. reflexivity.
Qed.

Lemma http_cases rt req w :
  (body_ok req = true
   /\ http rt req w
      = (transport rt (sent w) req,
         {| sent := sent w ++ [req]; stderr := stderr w |}))
  \/ (body_ok req = false /\ exists e, http rt req w = (Raise e, w)).
Proof.
  unfold http. destruct (body_ok req).
  - left. split; reflexivity.
  - right. split; [reflexivity|]. eexists. reflexivity.
Qed.

Lemma dispatch_send_failed self e w :
  exists w',
    (if is_timeout e
     then bind (DispatchClient._log_debug self "Dispatch timed out")
               (fun _ => ret false)
     else bind (DispatchClient._log_debug self
                  ("Dispatch error: " +:+ str_exn e))
               (fun _ => ret false)) w
    = (Ret false, w')
    /\ sent w' = sent w.
Proof. destruct (is_timeout e); apply dispatch_log_then. Qed.

(** [_send] attempts at most one request, exactly one when the timeout
    converts to seconds and the body can be written, and returns whether
    it was answered with a status in [200, 300); an exception of the
    transport, a timeout included, gives [False]. *)
Lemma send_spec rt self entry w :
  exists w',
    DispatchClient._send rt self entry w
    = (Ret (deliverable (dispatch_request self entry)
            && answered_ok rt (sent w) (dispatch_request self entry)), w')
    /\ sent w'
       = sent w ++ (if deliverable (dispatch_request self entry)
                    then [dispatch_request self entry] else []).
Proof.
  unfold DispatchClient._send, deliverable.
  change (req_timeout_ms (dispatch_request self entry))
    with (DispatchClient._timeout_ms self).
  unfold try_except, bind at 1, lift.
  destruct (ms_to_seconds_cases (DispatchClient._timeout_ms self))
    as [[-> ->]|[-> [e ->]]]; cbn [andb].
  - fold (dispatch_request self entry). unfold bind at 1.
    destruct (http_cases rt (dispatch_request self entry) w)
      as [[-> ->]|[-> [e ->]]]; cbn [andb].
    + unfold answered_ok.
      destruct (transport rt (sent w) (dispatch_request self entry)) as [r|e].
      * destruct (is_success r).
        -- destruct (dispatch_log_then (A:=bool) self "Dispatch succeeded" true
                       {| sent := sent w ++ [dispatch_request self entry];
                          stderr := stderr w |}) as (w' & Hw & Hs).
           exists w'. rewrite Hw. split; [reflexivity|exact Hs].
        -- destruct (dispatch_log_then (A:=bool) self
                       ("Dispatch failed with status "
                          +:+ PyStr.of_Z (status_code r))
                       false
                       {| sent := sent w ++ [dispatch_request self entry];
                          stderr := stderr w |}) as (w' & Hw & Hs).
           exists w'. rewrite Hw. split; [reflexivity|exact Hs].
      * destruct (dispatch_send_failed
                    self e
                    {| sent := sent w ++ [dispatch_request self entry];
                       stderr := stderr w |}) as (w' & Hw & Hs).
        exists w'. split; [exact Hw|exact Hs].
    + destruct (dispatch_send_failed self e w) as (w' & Hw & Hs).
      exists w'. split; [exact Hw|]. rewrite Hs, app_nil_r. reflexivity.
  - destruct (dispatch_send_failed self e w) as (w' & Hw & Hs).
    exists w'. split; [exact Hw|]. rewrite Hs, app_nil_r. reflexivity.
Qed.

(** What [dispatch] does: nothing on a client that is not enabled or
    when the entry is not valid; otherwise what [_send] does with the
    entry. *)
Lemma dispatch_spec rt self kind summary payload source client_ts skip w :
  exists w',
    DispatchClient.dispatch rt self kind summary payload source client_ts skip w
    = (Ret
         (DispatchClient.enabled self
          && match DispatchClient.build_entry rt self kind summary payload
                                              source client_ts skip with
             | Ret entry =>
                 deliverable (dispatch_request self entry)
                 && answered_ok rt (sent w) (dispatch_request self entry)
             | Raise _ => false
             end), w')
    /\ sent w'
       = sent w ++
         (if DispatchClient.enabled self then
            match DispatchClient.build_entry rt self kind summary payload
                                             source client_ts skip with
            | Ret entry =>
                if deliverable (dispatch_request self entry)
                then [dispatch_request self entry] else []
            | Raise _ => []
            end
          else []).
Proof.
  unfold DispatchClient.dispatch, DispatchClient.enabled.
  destruct (DispatchClient._enabled self); cbn [negb andb].
  - unfold try_except, bind at 1, lift.
    destruct (DispatchClient.build_entry rt self kind summary payload source
                                         client_ts skip) as [entry|e].
    + unfold bind.
      destruct (dispatch_log_noop self
                  ("Sending dispatch: " +:+ Models.kind entry +:+ " - "
                     +:+ PyStr.take 50 (Models.summary entry)) w)
        as (w1 & Hw1 & Hs1).
      rewrite Hw1.
      destruct (send_spec rt self entry w1) as (w2 & Hw2 & Hs2).
      rewrite Hw2. rewrite Hs1. exists w2. split; [reflexivity|].
      rewrite Hs2, Hs1. reflexivity.
    + destruct (dispatch_log_then (A:=bool) self
                  ("Dispatch failed: " +:+ str_exn e) false w)
        as (w' & Hw & Hs).
      exists w'. split; [exact Hw|]. rewrite Hs, app_nil_r. reflexivity.
  - destruct (dispatch_log_then (A:=bool) self
                "Client not enabled, skipping dispatch" false w)
      as (w' & Hw & Hs).
    exists w'. split; [exact Hw|]. rewrite Hs, app_nil_r. reflexivity.
Qed.

Lemma dispatch_no_raise rt self kind summary payload source client_ts skip :
  no_raise (DispatchClient.dispatch rt self kind summary payload source
                                    client_ts skip).
Proof.
  intros w.
  destruct (dispatch_spec rt self kind summary payload source client_ts skip w)
    as (w' & Hw & _).
  eexists _, w'. exact Hw.
Qed.

Lemma dispatch_disabled_noop rt self kind summary payload source client_ts skip :
  DispatchClient.enabled self = false ->
  noop (DispatchClient.dispatch rt self kind summary payload source
                                client_ts skip) false.
Proof.
  intros Hdis w.
  destruct (dispatch_spec rt self kind summary payload source client_ts skip w)
    as (w' & Hw & Hs).
  rewrite Hdis in Hw, Hs. exists w'. split; [exact Hw|].
  rewrite Hs, app_nil_r. reflexivity.
Qed.

(** The convenience methods only put a payload together and call
    [dispatch]; [dispatch_model] first asks the model for its data. *)
Lemma dispatch_helpers_no_raise rt self summary :
  (forall text, no_raise (DispatchClient.dispatch_text rt self summary text))
  /\ (forall payload,
        no_raise (DispatchClient.dispatch_json rt self summary payload))
  /\ (forall service operation details,
        no_raise (DispatchClient.dispatch_api_call rt self summary service
                                                   operation details))
  /\ (forall provider ref_type ref_id url,
        no_raise (DispatchClient.dispatch_external_ref rt self summary provider
                                                       ref_type ref_id url))
  /\ (forall operation table rows query,
        no_raise (DispatchClient.dispatch_db rt self summary operation table
                                             rows query))
  /\ (forall model input_summary data,
        model_dump_json model = Ret data ->
        no_raise (DispatchClient.dispatch_model rt self summary model
                                                input_summary)).
Proof.
  repeat split; intros; try apply dispatch_no_raise.
  unfold DispatchClient.dispatch_model.
  intros w. unfold bind, lift. rewrite H. apply dispatch_no_raise.
Qed.

Lemma dispatch_helpers_disabled_noop rt self summary :
  DispatchClient.enabled self = false ->
  (forall text, noop (DispatchClient.dispatch_text rt self summary text) false)
  /\ (forall payload,
        noop (DispatchClient.dispatch_json rt self summary payload) false)
  /\ (forall service operation details,
        noop (DispatchClient.dispatch_api_call rt self summary service
                                               operation details) false)
  /\ (forall provider ref_type ref_id url,
        noop (DispatchClient.dispatch_external_ref rt self summary provider
                                                   ref_type ref_id url) false)
  /\ (forall operation table rows query,
        noop (DispatchClient.dispatch_db rt self summary operation table
                                         rows query) false)
  /\ (forall model input_summary data,
        model_dump_json model = Ret data ->
        noop (DispatchClient.dispatch_model rt self summary model
                                            input_summary) false).
Proof.
  intros Hdis.
  repeat split; intros; try (apply dispatch_disabled_noop; exact Hdis).
  unfold DispatchClient.dispatch_model.
  intros w. unfold bind, lift. rewrite H.
  apply dispatch_disabled_noop; exact Hdis.
Qed.

(** An exception of [model.model_dump(mode="json")] leaves
    [dispatch_model] as it is, on every client, enabled or not. *)
Lemma dispatch_model_raises rt self summary model input_summary e w :
  model_dump_json model = Raise e ->
  DispatchClient.dispatch_model rt self summary model input_summary w
  = (Raise e, w).
Proof.
  intros H. unfold DispatchClient.dispatch_model, bind, lift. rewrite H.
  reflexivity.
Qed.

(** [enabled] is fixed by [__init__]: it holds exactly when each of the
    four required fields is a string that is not empty. *)
Lemma truthy_iff (x : option string) :
  truthy x = true <-> exists s, x = Some s /\ s <> "".
Proof.
  unfold truthy. destruct x as [s|].
  - rewrite negb_true_iff, bool_decide_eq_false. split.
    + intros H. exists s. split; [reflexivity|exact H].
    + intros (s' & Hs & H). injection Hs as <-. exact H.
  - split; [discriminate|]. intros (s & Hs & _). discriminate.
Qed.

Lemma dispatch_enabled_iff dispatch_url dispatch_token ticket_uuid run_uuid
      message_uuid timeout_ms max_bytes debug :
  DispatchClient.enabled
    (DispatchClient.__init__ dispatch_url dispatch_token ticket_uuid run_uuid
                             message_uuid timeout_ms max_bytes debug) = true
  <-> truthy dispatch_url = true /\ truthy dispatch_token = true
      /\ truthy ticket_uuid = true /\ truthy run_uuid = true.
Proof.
  unfold DispatchClient.enabled, DispatchClient.__init__. simpl.
  rewrite !andb_true_iff. tauto.
Qed.

Lemma improvements_enabled_iff improvements_url run_token project_uuid
      ticket_uuid run_uuid timeout_ms max_bytes debug :
  ImprovementsClient.enabled
    (ImprovementsClient.__init__ improvements_url run_token project_uuid
                                 ticket_uuid run_uuid timeout_ms max_bytes
                                 debug) = true
  <-> truthy improvements_url = true /\ truthy run_token = true
      /\ truthy run_uuid = true.
Proof.
  unfold ImprovementsClient.enabled, ImprovementsClient.__init__. simpl.
  rewrite !andb_true_iff. tauto.
Qed.

(* ===================================================================== *)
(** * The improvements client *)
(* ===================================================================== *)

Lemma improvements_no_raise rt self :
  (forall project_uuid,
      no_raise (ImprovementsClient.list_improvements rt self project_uuid))
  /\ (forall title description dedupe_key status,
        no_raise (ImprovementsClient.create_improvement rt self title
                                                        description dedupe_key
                                                        status))
  /\ (forall uuid fields,
        no_raise (ImprovementsClient.update_improvement rt self uuid fields))
  /\ (forall uuid,
        no_raise (ImprovementsClient.delete_improvement rt self uuid))
  /\ (forall improvement_uuid action payload,
        no_raise (ImprovementsClient.emit_improvement_event
                    rt self improvement_uuid action payload)).
Proof.
  unfold ImprovementsClient.list_improvements,
    ImprovementsClient.create_improvement,
    ImprovementsClient.update_improvement,
    ImprovementsClient.delete_improvement,
    ImprovementsClient.emit_improvement_event.
  repeat split; intros;
    (destruct (ImprovementsClient._enabled self); cbn [negb];
     [apply no_raise_try; intros e; eapply noop_no_raise, on_error_noop
     |eapply noop_no_raise, improvements_log_then]).
Qed.

Lemma improvements_disabled_noop rt self :
  ImprovementsClient.enabled self = false ->
  (forall project_uuid,
      noop (ImprovementsClient.list_improvements rt self project_uuid) [])
  /\ (forall title description dedupe_key status,
        noop (ImprovementsClient.create_improvement rt self title description
                                                    dedupe_key status) false)
  /\ (forall uuid fields,
        noop (ImprovementsClient.update_improvement rt self uuid fields) false)
  /\ (forall uuid,
        noop (ImprovementsClient.delete_improvement rt self uuid) false)
  /\ (forall improvement_uuid action payload,
        noop (ImprovementsClient.emit_improvement_event
                rt self improvement_uuid action payload) false).
Proof.
  unfold ImprovementsClient.enabled, ImprovementsClient.list_improvements,
    ImprovementsClient.create_improvement,
    ImprovementsClient.update_improvement,
    ImprovementsClient.delete_improvement,
    ImprovementsClient.emit_improvement_event.
  intros ->. cbn [negb].
  repeat split; intros; apply improvements_log_then.
Qed.

(** ** [update_improvement] *)

Lemma kwargs_get_In fields name v :
  ImprovementModels.kwargs_get fields name = Some v -> In (name, v) fields.
Proof.
  induction fields as [|[k x] fields IH]; simpl; [discriminate|].
  destruct (decide (k = name)) as [->|Hne].
  - rewrite bool_decide_eq_true_2 by reflexivity. intros H. injection H as <-.
    left. reflexivity.
  - rewrite bool_decide_eq_false_2 by exact Hne. intros H. right. apply IH, H.
Qed.

Lemma dict_set_In {V : Type} (d : list (pykey * V)) key value k v :
  In (k, v) (dict_set d key value) -> In (k, v) d \/ (k = key /\ v = value).
Proof.
  induction d as [|[k1 v1] d IH]; simpl.
  - intros [H|[]]. injection H as <- <-. right. auto.
  - destruct (decide (k1 = key)) as [->|Hne]; simpl.
    + intros [H|H]; [injection H as <- <-; right; auto|left; right; exact H].
    + intros [H|H]; [left; left; exact H|].
      destruct (IH H) as [H'|H']; [left; right; exact H'|right; exact H'].
Qed.

Lemma dict_merge_In {V : Type} (d e : list (pykey * V)) k v :
  In (k, v) (dict_merge d e) -> In (k, v) d \/ In (k, v) e.
Proof.
  unfold dict_merge. revert d. induction e as [|[k1 v1] e IH]; intros d; simpl.
  - auto.
  - intros H. destruct (IH _ H) as [H'|H']; [|right; right; exact H'].
    destruct (dict_set_In _ _ _ _ _ H') as [H''|[-> ->]]; [left; exact H''|].
    right. left. reflexivity.
Qed.

Lemma optional_str_value name o s :
  ImprovementModels.optional_str name o = Ret (Some s) -> o = Some (VStr s).
Proof.
  destruct o as [[| | |s'| |]|]; simpl; try discriminate.
  intros H. injection H as <-. reflexivity.
Qed.

Lemma optional_status_value o s :
  ImprovementModels.optional_status o = Ret (Some s) -> o = Some (VStr s).
Proof.
  destruct o as [[| | |s'| |]|]; simpl; try discriminate.
  unfold ImprovementModels.literal_status.
  destruct (bool_decide _); simpl; [|discriminate].
  intros H. injection H as <-. reflexivity.
Qed.

Lemma optional_max_length_value name n o s :
  ImprovementModels.optional_max_length name n o = Ret (Some s) -> o = Some s.
Proof.
  destruct o as [s'|]; simpl; [|discriminate].
  destruct (Models.max_length name n s') as [v|] eqn:Hm; [|discriminate].
  apply max_length_ret in Hm as [-> _]. simpl. intros H. injection H as <-.
  reflexivity.
Qed.

Lemma opt_item_In name o k v :
  In (k, v) (Models.opt_item name o) -> k = KStr name /\ exists s, o = Some s /\ v = VStr s.
Proof.
  destruct o as [s|]; simpl; [|intros []]. intros [H|[]].
  injection H as <- <-. split; [reflexivity|]. exists s. auto.
Qed.

(** Every field of the body of an update is one of the valid fields that
    were passed. *)
Lemma dump_update_In valid_fields payload k v :
  ImprovementModels.new_ImprovementUpdate valid_fields = Ret payload ->
  In (k, v) (ImprovementModels.dump_update payload) ->
  exists name, k = KStr name /\ In (name, v) valid_fields.
Proof.
  unfold ImprovementModels.new_ImprovementUpdate. intros Hnew Hin.
  destruct (ImprovementModels.optional_str "title" _) as [ti|] eqn:Hti;
    [|discriminate].
  cbn [res_bind] in Hnew.
  destruct (ImprovementModels.optional_max_length "title" 256 ti) as [ti'|]
    eqn:Hti'; [|discriminate].
  cbn [res_bind] in Hnew.
  destruct (ImprovementModels.optional_str "description" _) as [d|] eqn:Hd;
    [|discriminate].
  cbn [res_bind] in Hnew.
  destruct (ImprovementModels.optional_status _) as [st|] eqn:Hst;
    [|discriminate].
  cbn [res_bind] in Hnew. injection Hnew as <-.
  unfold ImprovementModels.dump_update in Hin.
  cbn [ImprovementModels.update_title ImprovementModels.update_description
       ImprovementModels.update_status] in Hin.
  apply in_app_or in Hin as [Hin|Hin]; [|apply in_app_or in Hin as [Hin|Hin]];
    apply opt_item_In in Hin as (-> & s & -> & ->); eexists; (split; [reflexivity|]).
  - apply optional_max_length_value in Hti' as ->.
    apply optional_str_value in Hti. apply kwargs_get_In, Hti.
  - apply optional_str_value in Hd. apply kwargs_get_In, Hd.
  - apply optional_status_value in Hst. apply kwargs_get_In, Hst.
Qed.

Lemma valid_field_iff name v :
  ImprovementsClient.valid_field (name, v) = true
  <-> In name update_names /\ v <> VNone.
Proof.
  unfold ImprovementsClient.valid_field, update_names. simpl.
  rewrite andb_true_iff, bool_decide_eq_true, negb_true_iff.
  rewrite list_elem_of_In. split; intros [H1 H2]; (split; [exact H1|]).
  - intros ->. discriminate.
  - destruct v; try reflexivity. contradiction.
Qed.

Lemma on_response_quiet self ok failed r w :
  exists b w',
    ImprovementsClient.on_response self ok failed r w = (Ret b, w')
    /\ sent w' = sent w.
Proof.
  unfold ImprovementsClient.on_response. destruct (is_success r).
  - destruct (improvements_log_then (A:=bool) self ok true w) as (w' & H & Hs).
    exists true, w'. auto.
  - destruct (improvements_log_then (A:=bool) self
                (failed +:+ PyStr.of_Z (status_code r)) false w)
      as (w' & H & Hs).
    exists false, w'. auto.
Qed.

Lemma filter_none {A : Type} (f : A -> bool) (l : list A) :
  (forall x, In x l -> f x = false) -> List.filter f l = [].
Proof.
  induction l as [|x l IH]; intros H; simpl; [reflexivity|].
  rewrite (H x) by (left; reflexivity). apply IH. intros y Hy. apply H.
  right. exact Hy.
Qed.

(** The body of an update is [run_uuid] followed by what the validated
    model dumps. *)
Ltac body_of_update Hnew :=
  let k := fresh "k" in
  let v := fresh "v" in
  let Hin := fresh "Hin" in
  let name := fresh "name" in
  let Hname := fresh "Hname" in
  let Hf := fresh "Hf" in
  let Hv := fresh "Hv" in
  let Hn := fresh "Hn" in
  intros k v Hin;
  apply dict_merge_In in Hin as [[Hin|[]]|Hin];
  [ left; congruence
  | right;
    destruct (dump_update_In _ _ _ _ Hnew Hin) as (name & -> & Hname);
    apply filter_In in Hname as [Hf Hv];
    apply valid_field_iff in Hv as [Hn Hv];
    exists name; auto ].

(** C10.  On an enabled improvements client, [update_improvement] returns
    [False] and attempts no request when none of the fields passed is
    named [title], [description] or [status] with a value other than
    [None].  A field with another name, or whose value is [None], is
    dropped: the call behaves as the call with the valid fields alone, and
    the body of the request, when one is made, holds next to [run_uuid]
    nothing but valid fields that were passed. *)
Theorem update_improvement_valid_fields
        (rt : runtime) (self : ImprovementsClient.t) (uuid : string)
        (fields : list (string * pyvalue)) :
  ImprovementsClient.enabled self = true ->
  ((forall name v,
       In (name, v) fields -> In name update_names -> v = VNone) ->
   noop (ImprovementsClient.update_improvement rt self uuid fields) false)
  /\ ImprovementsClient.update_improvement rt self uuid fields
     = ImprovementsClient.update_improvement
         rt self uuid (List.filter ImprovementsClient.valid_field fields)
  /\ (forall w r w',
        ImprovementsClient.update_improvement rt self uuid fields w = (r, w') ->
        sent w' = sent w
        \/ exists req body,
            sent w' = sent w ++ [req]
            /\ req_method req = PATCH
            /\ req_json req = Some (VDict body)
            /\ forall k v,
                In (k, v) body ->
                k = KStr "run_uuid"
                \/ exists name,
                    k = KStr name /\ In (name, v) fields
                    /\ In name update_names /\ v <> VNone).
Proof.
  unfold ImprovementsClient.enabled. intros Hen.
  split; [|split].
  - intros Hnone. unfold ImprovementsClient.update_improvement.
    rewrite Hen. cbn [negb].
    rewrite (filter_none ImprovementsClient.valid_field fields).
    + intros w.
      destruct (improvements_log_then (A:=bool) self
                  "No valid fields to update" false w) as (w' & Hw & Hs).
      exists w'. unfold try_except. rewrite Hw. auto.
    + intros [name v] Hin.
      destruct (ImprovementsClient.valid_field (name, v)) eqn:Hv;
        [|reflexivity].
      apply valid_field_iff in Hv as [Hname Hv]. exfalso. apply Hv.
      apply (Hnone name v Hin Hname).
  - unfold ImprovementsClient.update_improvement.
    rewrite (forallb_filter_id ImprovementsClient.valid_field
               (List.filter ImprovementsClient.valid_field fields))
      by apply forallb_filter.
    reflexivity.
  - intros w r w'. unfold ImprovementsClient.update_improvement.
    rewrite Hen. cbn [negb].
    destruct (List.filter ImprovementsClient.valid_field fields)
      as [|kv valid] eqn:Hvalid.
    + destruct (improvements_log_then (A:=bool) self
                  "No valid fields to update" false w) as (w1 & Hw & Hs).
      unfold try_except. rewrite Hw. intros H. injection H as _ <-.
      left. exact Hs.
    + rewrite <- Hvalid. unfold try_except, bind at 1, lift.
      destruct (ImprovementModels.new_ImprovementUpdate
                  (List.filter ImprovementsClient.valid_field fields))
        as [payload|e] eqn:Hnew.
      * unfold bind at 1.
        destruct (improvements_log_noop self ("Updating improvement: " +:+ uuid)
                    w) as (w1 & Hw1 & Hs1).
        rewrite Hw1. unfold bind at 1, lift.
        destruct (ms_to_seconds_cases (ImprovementsClient._timeout_ms self))
          as [[_ ->]|[_ [e ->]]].
        -- unfold bind.
           match goal with
           | |- context [http rt ?req w1] =>
               set (request := req);
               destruct (http_cases rt request w1) as [[_ ->]|[_ [e ->]]]
           end.
           ++ destruct (transport rt (sent w1) request) as [resp|e].
              ** destruct (on_response_quiet
                             self "Update succeeded"
                             "Update failed with status " resp
                             {| sent := sent w1 ++ [request];
                                stderr := stderr w1 |})
                   as (b & w2 & Hw2 & Hs2).
                 rewrite Hw2. intros H. injection H as _ <-.
                 right. eexists request, _. rewrite Hs2. simpl. rewrite Hs1.
                 split; [reflexivity|]. split; [reflexivity|].
                 split; [reflexivity|]. body_of_update Hnew.
              ** destruct (on_error_noop
                             (A:=bool) self "Update request timed out"
                             "Update error: " false e
                             {| sent := sent w1 ++ [request];
                                stderr := stderr w1 |})
                   as (w2 & Hw2 & Hs2).
                 rewrite Hw2. intros H. injection H as _ <-.
                 right. eexists request, _. rewrite Hs2. simpl. rewrite Hs1.
                 split; [reflexivity|]. split; [reflexivity|].
                 split; [reflexivity|]. body_of_update Hnew.
           ++ destruct (on_error_noop (A:=bool) self "Update request timed out"
                          "Update error: " false e w1) as (w2 & Hw2 & Hs2).
              rewrite Hw2. intros H. injection H as _ <-. left. congruence.
        -- destruct (on_error_noop (A:=bool) self "Update request timed out"
                       "Update error: " false e w1) as (w2 & Hw2 & Hs2).
           rewrite Hw2. intros H. injection H as _ <-. left. congruence.
      * destruct (on_error_noop (A:=bool) self "Update request timed out"
                    "Update error: " false e w) as (w1 & Hw1 & Hs1).
        rewrite Hw1. intros H. injection H as _ <-. left. exact Hs1.
Qed.

Lemma update_improvement_valid_fields_witness :
  ImprovementsClient.enabled sample_improvements_client = true
  /\ noop (ImprovementsClient.update_improvement
             sample_runtime sample_improvements_client "uuid-123"
             sample_fields) false.
Proof.
  split; [reflexivity|].
  destruct (update_improvement_valid_fields
              sample_runtime sample_improvements_client "uuid-123"
              sample_fields eq_refl) as [H _].
  apply H. intros name v [Hin|[Hin|[]]] Hname; injection Hin as <- <-.
  - exfalso. vm_compute in Hname. intuition discriminate.
  - reflexivity.
Defined.

(* ===================================================================== *)
(** * Best effort: what raises and what does not *)
(* ===================================================================== *)

(** C4.  The public operations are to turn every failure into their
    no-op result.  [dispatch], the helpers that only call it and the five
    operations of the improvements client do
    ([dispatch_no_raise], [dispatch_helpers_no_raise],
    [improvements_no_raise]); [dispatch_model] does not: it evaluates
    [model.model_dump(mode="json")] outside every [try], so that on a
    model that cannot be serialized the exception reaches the caller, on
    every client and in every world, and nothing is returned. *)
Theorem dispatch_model_propagates_exception
        (rt : runtime) (self : DispatchClient.t) (summary : string)
        (input_summary : option string) (w : world) :
  DispatchClient.dispatch_model rt self summary unserializable_model
                                input_summary w
  = (Raise (Exn PydanticSerializationError
              "Unable to serialize unknown type: <class 'object'>"), w).
Proof. reflexivity. Qed.

(** C5.  A client constructed with no configuration is not enabled, and
    [enabled] is fixed at construction ([dispatch_enabled_iff],
    [improvements_enabled_iff]); on a client that is not enabled every
    operation but one returns its no-op result and attempts no request
    ([dispatch_disabled_noop], [dispatch_helpers_disabled_noop],
    [improvements_disabled_noop]).  The one is [dispatch_model]: on the
    client without configuration it raises, instead of returning
    [False], when the model cannot be serialized. *)
Theorem unconfigured_client_not_inert :
  DispatchClient.enabled unconfigured_client = false
  /\ DispatchClient.dispatch_model sample_runtime unconfigured_client
       "Profile" unserializable_model None empty_world
     = (Raise (Exn PydanticSerializationError
                 "Unable to serialize unknown type: <class 'object'>"),
        empty_world)
  /\ DispatchClient.dispatch sample_runtime unconfigured_client
       "model" "Profile" None "sdk" None false empty_world
     = (Ret false, empty_world).
Proof. repeat split; reflexivity. Qed.

(** The end-to-end scenario of the specification: one POST with the
    token, the identifiers, the kind, the summary and the payload, answered
    with 200, gives [True]. *)
Example dispatch_end_to_end :
  exists w',
    DispatchClient.dispatch sample_runtime (sample_client 65536)
      "api_call" "Called API" (Some (VDict [(KStr "service", VStr "test")]))
      "sdk" None false empty_world = (Ret true, w')
    /\ sent w'
       = [{| req_method := POST;
             req_url := Some "http://test/dispatch";
             req_params := [];
             req_json :=
               Some (VDict [(KStr "ticket_uuid", VStr "ticket-123");
                            (KStr "run_uuid", VStr "run-456");
                            (KStr "kind", VStr "api_call");
                            (KStr "summary", VStr "Called API");
                            (KStr "payload",
                             VDict [(KStr "service", VStr "test")]);
                            (KStr "source", VStr "sdk");
                            (KStr "schema_version", VInt 1);
                            (KStr "client_ts",
                             VStr "2024-01-01T00:00:00+00:00")]);
             req_headers := [("Authorization", "Bearer token");
                             ("Content-Type", "application/json")];
             req_timeout_ms := 1500 |}].
Proof. eexists. split; vm_compute; reflexivity. Qed.

(* ===================================================================== *)
(** * The tests of the repository, on the embedding *)
(* ===================================================================== *)

(** [test_case_insensitive_redaction] *)
Example test_case_insensitive_redaction :
  Redaction.redact_payload
    (VDict [(KStr "API_KEY", VStr "upper"); (KStr "Api_Key", VStr "mixed");
            (KStr "PASSWORD", VStr "upper_pass")]) false
  = VDict [(KStr "API_KEY", VStr "[REDACTED]");
           (KStr "Api_Key", VStr "[REDACTED]");
           (KStr "PASSWORD", VStr "[REDACTED]")].
Proof. vm_compute. reflexivity. Qed.

(** [test_skip_redaction_flag] *)
Example test_skip_redaction_flag :
  Redaction.redact_payload
    (VDict [(KStr "api_key", VStr "visible"); (KStr "name", VStr "test")]) true
  = VDict [(KStr "api_key", VStr "visible"); (KStr "name", VStr "test")].
Proof. vm_compute. reflexivity. Qed.

(** [test_preserves_non_string_values], without the float *)
Example test_preserves_non_string_values :
  Redaction.redact_payload
    (VDict [(KStr "count", VInt 42); (KStr "enabled", VBool true);
            (KStr "items", VList [VInt 1; VInt 2; VInt 3]);
            (KStr "nothing", VNone)]) false
  = VDict [(KStr "count", VInt 42); (KStr "enabled", VBool true);
           (KStr "items", VList [VInt 1; VInt 2; VInt 3]);
           (KStr "nothing", VNone)].
Proof. vm_compute. reflexivity. Qed.

(** [test_summary_max_length], [test_summary_no_newlines],
    [test_kind_max_length] and [test_kind_not_empty] *)
Example test_entry_validation :
  (exists msg,
      Models.new_DispatchEntry (Some "ticket-123") (Some "run-456") "text"
                               (PyStr.repeat "x" 513) None None "sdk" 1 None
      = Raise (Exn ValidationError msg))
  /\ (exists msg,
        Models.new_DispatchEntry
          (Some "ticket-123") (Some "run-456") "text"
          ("Line 1" +:+ String PyStr.newline "Line 2") None None "sdk" 1 None
        = Raise (Exn ValidationError msg))
  /\ (exists msg,
        Models.new_DispatchEntry (Some "ticket-123") (Some "run-456")
                                 (PyStr.repeat "x" 65) "Test" None None "sdk" 1
                                 None
        = Raise (Exn ValidationError msg))
  /\ (exists msg,
        Models.new_DispatchEntry (Some "ticket-123") (Some "run-456") "" "Test"
                                 None None "sdk" 1 None
        = Raise (Exn ValidationError msg))
  /\ (exists entry,
        Models.new_DispatchEntry (Some "ticket-123") (Some "run-456")
                                 (PyStr.repeat "x" 64) (PyStr.repeat "x" 512)
                                 None None "sdk" 1 None
        = Ret entry).
Proof. repeat split; eexists; vm_compute; reflexivity. Qed.

(** [test_dispatch_redacts_payload]: the body of the request holds the
    sentinel and the visible value, not the secret. *)
Example test_dispatch_redacts_payload :
  exists w',
    DispatchClient.dispatch sample_runtime (sample_client 65536)
      "api_call" "API call"
      (Some (VDict [(KStr "api_key", VStr "secret123");
                    (KStr "data", VStr "visible")]))
      "sdk" None false empty_world = (Ret true, w')
    /\ (fun r => req_json r) <$> sent w'
       = [Some (VDict [(KStr "ticket_uuid", VStr "ticket-123");
                       (KStr "run_uuid", VStr "run-456");
                       (KStr "kind", VStr "api_call");
                       (KStr "summary", VStr "API call");
                       (KStr "payload",
                        VDict [(KStr "api_key", VStr "[REDACTED]");
                               (KStr "data", VStr "visible")]);
                       (KStr "source", VStr "sdk");
                       (KStr "schema_version", VInt 1);
                       (KStr "client_ts", VStr "2024-01-01T00:00:00+00:00")])].
Proof. eexists. split; vm_compute; reflexivity. Qed.

(** [test_dispatch_server_error], [test_dispatch_timeout] and
    [test_dispatch_network_error]: one request, the result is [False]. *)
Example test_dispatch_failures :
  forall answer,
    In answer [Ret {| status_code := 500; json := Ret VNone |};
               Raise (Exn TimeoutException "Timeout");
               Raise (Exn ConnectError "Connection refused")] ->
    exists w',
      DispatchClient.dispatch
        {| transport := fun _ _ => answer; utcnow_isoformat := "now" |}
        (sample_client 65536) "text" "Test" None "sdk" None false empty_world
      = (Ret false, w')
      /\ length (sent w') = 1%nat.
Proof.
  intros answer [<-|[<-|[<-|[]]]]; eexists; split; vm_compute; reflexivity.
Qed.

(** [test_update_improvement_no_valid_fields] *)
Example test_update_improvement_no_valid_fields :
  ImprovementsClient.update_improvement
    sample_runtime sample_improvements_client "uuid-123"
    [("invalid_field", VStr "value")] empty_world
  = (Ret false, empty_world).
Proof. vm_compute. reflexivity. Qed.

(** [test_list_improvements_success], with a response that wraps the
    list in an object *)
Example test_list_improvements :
  exists w',
    ImprovementsClient.list_improvements
      {| transport := fun _ _ =>
           Ret {| status_code := 200;
                  json :=
                    Ret (VDict
                           [(KStr "improvements",
                             VList [VDict [(KStr "uuid", VStr "imp-1");
                                           (KStr "project_uuid", VStr "proj");
                                           (KStr "title", VStr "Fix")]])]) |};
         utcnow_isoformat := "now" |}
      sample_improvements_client None empty_world
    = (Ret [{| ImprovementModels.uuid := "imp-1";
               ImprovementModels.project_uuid := "proj";
               ImprovementModels.ticket_uuid := None;
               ImprovementModels.run_uuid := None;
               ImprovementModels.title := "Fix";
               ImprovementModels.description := None;
               ImprovementModels.status := "open";
               ImprovementModels.dedupe_key := None;
               ImprovementModels.created_at := None;
               ImprovementModels.updated_at := None |}], w').
Proof. eexists. vm_compute. reflexivity. Qed.

(* ********************************************************************* *)
(** * Further properties of the code *)
(* ********************************************************************* *)

(* ===================================================================== *)
(** * Redaction: copies, clean payloads, what is left *)
(* ===================================================================== *)

Lemma deep_copy_wf_id (P : pyvalue) :
  wf_value P -> Redaction._deep_copy P = P.
Proof.
  induction P as [| | | |xs IH|items IH] using pyvalue_ind'; intros Hwf;
    try reflexivity.
  - inversion Hwf as [| | | |xs' Hall|]; subst.
    cbn [Redaction._deep_copy]. f_equal. clear Hwf.
    induction IH as [|x xs Hx _ IHxs]; [reflexivity|].
    inversion Hall; subst. simpl. rewrite Hx, IHxs by assumption. reflexivity.
  - inversion Hwf as [| | | | |items' Hnd Hall]; subst.
    rewrite deep_copy_dict by exact Hnd. f_equal.
    clear Hnd Hwf. induction IH as [|[k v] items Hkv _ IHitems]; [reflexivity|].
    inversion Hall; subst. simpl in *. rewrite Hkv, IHitems by assumption.
    reflexivity.
Qed.

(** X1.  With [skip_redaction=True], [redact_payload] returns a value
    equal to its argument: the copy made by [_deep_copy] has the same
    keys in the same order with the same values at every depth, sensitive
    keys included. *)
Theorem skip_redaction_returns_equal_copy (P : pyvalue) :
  wf_value P -> Redaction.redact_payload P true = P.
Proof. intros Hwf. apply deep_copy_wf_id, Hwf. Qed.

Lemma skip_redaction_returns_equal_copy_witness :
  Redaction.redact_payload sample_payload true = sample_payload.
Proof.
  apply (skip_redaction_returns_equal_copy sample_payload sample_payload_wf).
Defined.

Lemma redact_clean_id (P : pyvalue) :
  wf_value P -> clean P = true -> Redaction._redact_recursive P = P.
Proof.
  induction P as [| | | |xs IH|items IH] using pyvalue_ind'; intros Hwf Hc;
    try reflexivity.
  - inversion Hwf as [| | | |xs' Hall|]; subst.
    cbn [Redaction._redact_recursive]. f_equal. cbn [clean] in Hc. clear Hwf.
    induction IH as [|x xs Hx _ IHxs]; [reflexivity|].
    inversion Hall; subst. simpl in Hc. apply andb_true_iff in Hc as [Hc1 Hc2].
    simpl. rewrite Hx, IHxs by assumption. reflexivity.
  - inversion Hwf as [| | | | |items' Hnd Hall]; subst.
    rewrite redact_dict by exact Hnd. f_equal. cbn [clean] in Hc.
    clear Hnd Hwf. induction IH as [|[k v] items Hkv _ IHitems]; [reflexivity|].
    inversion Hall; subst. simpl in Hc.
    apply andb_true_iff in Hc as [Hc1 Hc2].
    apply andb_true_iff in Hc1 as [Hk Hv]. apply negb_true_iff in Hk.
    simpl. rewrite IHitems by assumption. f_equal.
    unfold redact_item. simpl. unfold redact_test in Hk. rewrite Hk.
    simpl in Hkv. rewrite Hkv by assumption. reflexivity.
Qed.

(** X2.  A payload in which no key, at any depth, is sensitive goes
    through redaction unchanged: redaction only ever touches the values of
    sensitive keys. *)
Theorem redaction_keeps_clean_payload (P : pyvalue) :
  wf_value P -> clean P = true -> Redaction.redact_payload P false = P.
Proof. intros Hwf Hc. apply redact_clean_id; assumption. Qed.

Lemma redaction_keeps_clean_payload_witness :
  Redaction.redact_payload
    (VDict [(KStr "service", VStr "test"); (KInt 7, VList [VNone])]) false
  = VDict [(KStr "service", VStr "test"); (KInt 7, VList [VNone])].
Proof.
  apply (redaction_keeps_clean_payload
           (VDict [(KStr "service", VStr "test"); (KInt 7, VList [VNone])])).
  - repeat first
      [ apply wf_none | apply wf_str | apply wf_list | apply wf_dict
      | apply List.Forall_cons | apply List.Forall_nil
      | (apply (bool_decide_unpack _); vm_compute; reflexivity) ].
  - vm_compute. reflexivity.
Defined.

Lemma redact_loop_no_secret items :
  Forall (fun kv => no_secret_left (Redaction._redact_recursive (snd kv)) = true)
         items ->
  forall acc,
    Forall (fun kv => (if redact_test (fst kv) then is_sentinel (snd kv)
                       else no_secret_left (snd kv)) = true) acc ->
    Forall (fun kv => (if redact_test (fst kv) then is_sentinel (snd kv)
                       else no_secret_left (snd kv)) = true)
      (fold_left
         (fun result kv =>
            if Redaction.in_REDACT_KEYS (Redaction.key_lower (fst kv))
            then dict_set result (fst kv) (VStr Redaction.REDACTED_VALUE)
            else dict_set result (fst kv) (Redaction._redact_recursive (snd kv)))
         items acc).
Proof.
  induction 1 as [|kv items Hkv _ IH]; intros acc Hacc; simpl; [exact Hacc|].
  apply IH.
  destruct (Redaction.in_REDACT_KEYS (Redaction.key_lower (fst kv))) eqn:E;
    (apply dict_set_Forall; [exact Hacc|]); intros k ->; simpl;
    unfold redact_test; rewrite E; [reflexivity|exact Hkv].
Qed.

Lemma redaction_no_secret (P : pyvalue) :
  no_secret_left (Redaction.redact_payload P false) = true.
Proof.
  unfold Redaction.redact_payload.
  induction P as [| | | |xs IH|items IH] using pyvalue_ind'; try reflexivity.
  - cbn [Redaction._redact_recursive no_secret_left].
    induction IH as [|x xs Hx _ IHxs]; [reflexivity|].
    simpl. rewrite Hx, IHxs. reflexivity.
  - cbn [Redaction._redact_recursive no_secret_left].
    apply forallb_forall. intros kv Hin.
    pose proof (redact_loop_no_secret items IH [] (List.Forall_nil _)) as HF.
    apply (proj1 (List.Forall_forall _ _) HF kv Hin).
Qed.

(** X3.  After redaction no secret is left: in the result, at every
    depth, the value of every sensitive key is the sentinel, for every
    payload with no assumption on it. *)
Theorem redaction_leaves_no_secret (P : pyvalue) :
  no_secret_left (Redaction.redact_payload P false) = true.
Proof. apply redaction_no_secret. Qed.

(* ===================================================================== *)
(** * Construction of an entry, once more *)
(* ===================================================================== *)




Lemma dict_field_ok name p :
  str_keyed p = true -> Models.dict_field name (Some p) = Ret (Some p).
Proof.
  destruct p as [| | | | |items]; try discriminate. simpl. intros ->.
  reflexivity.
Qed.

Lemma dict_field_some_ret name p q :
  Models.dict_field name (Some p) = Ret q -> str_keyed p = true.
Proof.
  destruct p as [| | | | |items]; try discriminate. simpl.
  destruct (forallb _ items); [reflexivity|discriminate].
Qed.

Lemma validate_kind_ok kind :
  kind <> "" -> PyStr.len kind <= 64 -> Models.validate_kind kind = Ret kind.
Proof.
  intros Hne Hlen. unfold Models.validate_kind.
  rewrite (max_length_ok "kind" Models.KIND_MAX_LENGTH kind Hlen).
  cbn [res_bind]. unfold Models.kind_not_empty.
  rewrite bool_decide_eq_false_2 by exact Hne. reflexivity.
Qed.

Lemma validate_summary_ok summary :
  PyStr.len summary <= 512 -> PyStr.contains PyStr.newline summary = false ->
  Models.validate_summary summary = Ret summary.
Proof.
  intros Hlen Hnl. unfold Models.validate_summary.
  rewrite (max_length_ok "summary" Models.SUMMARY_MAX_LENGTH summary Hlen).
  cbn [res_bind]. unfold Models.summary_single_line. rewrite Hnl. reflexivity.
Qed.

Lemma dispatch_entry_parts
        (ticket_uuid run_uuid : option string) (kind summary : string)
        (message_uuid : option string) (payload : option pyvalue)
        (source : string) (schema_version : Z) (client_ts : option string) :
  ((exists entry,
       Models.new_DispatchEntry ticket_uuid run_uuid kind summary message_uuid
                                payload source schema_version client_ts
       = Ret entry)
   <-> ticket_uuid <> None /\ run_uuid <> None
       /\ kind <> "" /\ PyStr.len kind <= 64
       /\ PyStr.len summary <= 512
       /\ PyStr.contains PyStr.newline summary = false
       /\ (forall p, payload = Some p -> str_keyed p = true)
       /\ PyStr.len source <= 32)
  /\ (forall entry,
        Models.new_DispatchEntry ticket_uuid run_uuid kind summary message_uuid
                                 payload source schema_version client_ts
        = Ret entry ->
        Some (Models.ticket_uuid entry) = ticket_uuid
        /\ Some (Models.run_uuid entry) = run_uuid
        /\ Models.kind entry = kind /\ Models.summary entry = summary
        /\ Models.message_uuid entry = message_uuid
        /\ Models.payload entry = payload /\ Models.source entry = source
        /\ Models.schema_version entry = schema_version
        /\ Models.client_ts entry = client_ts).
Proof.
  split; [split|].
  - intros [entry He].
    apply new_DispatchEntry_ret in He
      as (t & r & -> & -> & Hk & Hs & Hp & Hsrc & ->).
    apply validate_kind_ret in Hk as (_ & Hne & Hlen).
    apply validate_summary_ret in Hs as (_ & Hnl & Hslen).
    repeat (split; [first [assumption|discriminate]|]).
    split; [|exact Hsrc].
    intros p ->. apply (dict_field_some_ret _ _ _ Hp).
  - intros (Ht & Hr & Hne & Hlen & Hslen & Hnl & Hp & Hsrc).
    destruct ticket_uuid as [t|]; [|contradiction].
    destruct run_uuid as [r|]; [|contradiction].
    unfold Models.new_DispatchEntry. cbn [Models.str_field res_bind].
    rewrite (validate_kind_ok kind Hne Hlen). cbn [res_bind].
    rewrite (validate_summary_ok summary Hslen Hnl). cbn [res_bind].
    assert (Hd : Models.dict_field "payload" payload = Ret payload).
    { destruct payload as [p|]; [|reflexivity].
      apply dict_field_ok, Hp. reflexivity. }
    rewrite Hd. cbn [res_bind].
    rewrite (max_length_ok "source" Models.SOURCE_MAX_LENGTH source Hsrc).
    cbn [res_bind]. eexists. reflexivity.
  - intros entry He.
    apply new_DispatchEntry_ret in He
      as (t & r & -> & -> & _ & _ & _ & _ & ->).
    repeat split.
Qed.

(** X4.  [DispatchEntry(...)] is constructed exactly when the ticket and
    the run are given, the kind is not empty and has at most 64
    characters, the summary has at most 512 characters and no newline,
    the payload is absent or a dict whose keys are strings, and the source
    has at most 32 characters; the entry then holds the arguments
    unchanged. *)
Theorem dispatch_entry_constructed_iff
        (ticket_uuid run_uuid : option string) (kind summary : string)
        (message_uuid : option string) (payload : option pyvalue)
        (source : string) (schema_version : Z) (client_ts : option string) :
  ((exists entry,
       Models.new_DispatchEntry ticket_uuid run_uuid kind summary message_uuid
                                payload source schema_version client_ts
       = Ret entry)
   <-> ticket_uuid <> None /\ run_uuid <> None
       /\ kind <> "" /\ PyStr.len kind <= 64
       /\ PyStr.len summary <= 512
       /\ PyStr.contains PyStr.newline summary = false
       /\ (forall p, payload = Some p -> str_keyed p = true)
       /\ PyStr.len source <= 32)
  /\ (forall entry,
        Models.new_DispatchEntry ticket_uuid run_uuid kind summary message_uuid
                                 payload source schema_version client_ts
        = Ret entry ->
        Some (Models.ticket_uuid entry) = ticket_uuid
        /\ Some (Models.run_uuid entry) = run_uuid
        /\ Models.kind entry = kind /\ Models.summary entry = summary
        /\ Models.message_uuid entry = message_uuid
        /\ Models.payload entry = payload /\ Models.source entry = source
        /\ Models.schema_version entry = schema_version
        /\ Models.client_ts entry = client_ts).
Proof. apply dispatch_entry_parts. Qed.

Lemma dispatch_entry_constructed_iff_witness :
  exists entry,
    Models.new_DispatchEntry (Some "ticket-123") (Some "run-456") "api_call"
                             "Called external API" (Some "msg-789")
                             (Some (VDict [(KStr "service", VStr "test")]))
                             "custom" 2 (Some "2024-01-01T00:00:00Z")
    = Ret entry.
Proof.
  apply (proj1 (dispatch_entry_constructed_iff
                  (Some "ticket-123") (Some "run-456") "api_call"
                  "Called external API" (Some "msg-789")
                  (Some (VDict [(KStr "service", VStr "test")]))
                  "custom" 2 (Some "2024-01-01T00:00:00Z"))).
  repeat split; try discriminate; try (vm_compute; congruence).
  intros p Hp. injection Hp as <-. reflexivity.
Defined.

(* ===================================================================== *)
(** * What an operation returns, requests and prints *)
(* ===================================================================== *)

Lemma ends_ret {A : Type} debug (a : A) w : ends debug (ret a) w a [].
Proof. exists w. rewrite app_nil_r. auto. Qed.

Lemma ends_bind {A B : Type} debug (m : M A) (k : A -> M B) w a r1 b r2 :
  ends debug m w a r1 ->
  (forall w1, sent w1 = sent w ++ r1 -> ends debug (k a) w1 b r2) ->
  ends debug (bind m k) w b (r1 ++ r2).
Proof.
  intros (w1 & Hm & Hs1 & Hq1) Hk.
  destruct (Hk w1 Hs1) as (w2 & Hk2 & Hs2 & Hq2).
  exists w2. unfold bind. rewrite Hm. split; [exact Hk2|]. split.
  - rewrite Hs2, Hs1, app_assoc. reflexivity.
  - intros Hd. rewrite Hq2, Hq1 by exact Hd. reflexivity.
Qed.

(** A [try] around a body that returns is the body. *)
Lemma ends_try {A : Type} debug (body : M A) handler w a reqs :
  ends debug body w a reqs -> ends debug (try_except body handler) w a reqs.
Proof.
  intros (w' & Hb & Hs & Hq). exists w'. unfold try_except. rewrite Hb. auto.
Qed.

Lemma dispatch_log_ends self msg w :
  ends (DispatchClient._debug self) (DispatchClient._log_debug self msg) w tt [].
Proof.
  unfold DispatchClient._log_debug.
  destruct (DispatchClient._debug self) eqn:Hd.
  - eexists. split; [reflexivity|]. simpl. rewrite app_nil_r.
    split; [reflexivity|discriminate].
  - apply ends_ret.
Qed.

Lemma improvements_log_ends self msg w :
  ends (ImprovementsClient._debug self)
       (ImprovementsClient._log_debug self msg) w tt [].
Proof.
  unfold ImprovementsClient._log_debug.
  destruct (ImprovementsClient._debug self) eqn:Hd.
  - eexists. split; [reflexivity|]. simpl. rewrite app_nil_r.
    split; [reflexivity|discriminate].
  - apply ends_ret.
Qed.

Lemma dispatch_log_then_ends {A : Type} self msg (a : A) w :
  ends (DispatchClient._debug self)
       (bind (DispatchClient._log_debug self msg) (fun _ => ret a)) w a [].
Proof.
  apply (ends_bind _ _ _ w tt [] a []); [apply dispatch_log_ends|].
  intros w1 _. apply ends_ret.
Qed.

Lemma improvements_log_then_ends {A : Type} self msg (a : A) w :
  ends (ImprovementsClient._debug self)
       (bind (ImprovementsClient._log_debug self msg) (fun _ => ret a)) w a [].
Proof.
  apply (ends_bind _ _ _ w tt [] a []); [apply improvements_log_ends|].
  intros w1 _. apply ends_ret.
Qed.


Lemma ends_try_bind {A B : Type} debug (m : M A) (k : A -> M B)
      (handler : exn -> M B) w (r : res A) (reqs1 : list request) b reqs2 :
  (exists w1, m w = (r, w1) /\ sent w1 = sent w ++ reqs1
              /\ (debug = false -> stderr w1 = stderr w)) ->
  (forall w1, sent w1 = sent w ++ reqs1 ->
              ends debug
                   (match r with
                    | Ret a => try_except (k a) handler
                    | Raise e => handler e
                    end) w1 b reqs2) ->
  ends debug (try_except (bind m k) handler) w b (reqs1 ++ reqs2).
Proof.
  intros (w1 & Hm & Hs1 & Hq1) Hk.
  destruct (Hk w1 Hs1) as (w2 & Hk2 & Hs2 & Hq2).
  exists w2. split; [|split].
  - unfold try_except, bind. rewrite Hm. destruct r as [a|e]; exact Hk2.
  - rewrite Hs2, Hs1, app_assoc. reflexivity.
  - intros Hd. rewrite Hq2, Hq1 by exact Hd. reflexivity.
Qed.

Lemma ends_try_lift {A B : Type} debug (r : res A) (k : A -> M B) handler
      w b reqs :
  ends debug (match r with
              | Ret a => try_except (k a) handler
              | Raise e => handler e
              end) w b reqs ->
  ends debug (try_except (bind (lift r) k) handler) w b reqs.
Proof.
  intros (w' & Hrun & Hs & Hq). exists w'. split; [|auto].
  unfold try_except, bind, lift. destruct r as [a|e]; exact Hrun.
Qed.

(** ** Requests *)

Lemma with_timeout_id (req : request) :
  with_timeout req (req_timeout_ms req) = req.
Proof. destruct req. reflexivity. Qed.


(** The step every method ends with, inside its [try]: the timeout is
    divided, the request is built and sent, and the answer is looked at.
    When the division or the building fails nothing is sent and the
    handler gives the no-op result, as it does when the transport
    raises. *)
Lemma call_ends {B : Type} debug rt req (k : response -> M B)
      (handler : exn -> M B) (idle : B) (result : response -> B) w :
  (forall e w1, ends debug (handler e) w1 idle []) ->
  (forall r w1, ends debug (try_except (k r) handler) w1 (result r) []) ->
  ends debug
       (try_except
          (bind (lift (ms_to_seconds (req_timeout_ms req)))
                (fun timeout_ms => bind (http rt (with_timeout req timeout_ms)) k))
          handler)
       w
       (if deliverable req
        then match transport rt (sent w) req with
             | Ret r => result r
             | Raise _ => idle
             end
        else idle)
       (if deliverable req then [req] else []).
Proof.
  intros Hh Hk. apply ends_try_lift. unfold deliverable.
  destruct (ms_to_seconds_cases (req_timeout_ms req))
    as [[-> ->]|[-> [e ->]]]; cbn [andb]; [|apply Hh].
  rewrite with_timeout_id.
  destruct (body_ok req) eqn:Hbody.
  - apply (ends_try_bind _ _ _ _ w (transport rt (sent w) req) [req] _ []).
    + eexists. unfold http. rewrite Hbody. split; [reflexivity|].
      simpl. auto.
    + intros w1 _. destruct (transport rt (sent w) req) as [r|e];
        [apply Hk|apply Hh].
  - apply (ends_try_bind _ _ _ _ w (Raise Json.digits_error) [] _ []).
    + exists w. unfold http. rewrite Hbody. rewrite app_nil_r. auto.
    + intros w1 _. apply Hh.
Qed.

Lemma if_answered (d : bool) rt history req :
  (if d
   then match transport rt history req with
        | Ret r => is_success r
        | Raise _ => false
        end
   else false)
  = d && answered_ok rt history req.
Proof. destruct d; reflexivity. Qed.

(** ** [_send] and [dispatch] *)

Lemma send_ends rt self entry w :
  ends (DispatchClient._debug self) (DispatchClient._send rt self entry) w
       (deliverable (dispatch_request self entry)
        && answered_ok rt (sent w) (dispatch_request self entry))
       (if deliverable (dispatch_request self entry)
        then [dispatch_request self entry] else []).
Proof.
  rewrite <- if_answered. unfold DispatchClient._send.
  apply (call_ends (DispatchClient._debug self) rt
                   (dispatch_request self entry) _ _ false is_success w).
  - intros e w1. destruct (is_timeout e); apply dispatch_log_then_ends.
  - intros r w1. apply ends_try.
    destruct (is_success r); apply dispatch_log_then_ends.
Qed.



Lemma dispatch_ends rt self kind summary payload source client_ts skip w :
  ends (DispatchClient._debug self)
       (DispatchClient.dispatch rt self kind summary payload source client_ts
                                skip) w
       (DispatchClient.enabled self
        && match DispatchClient.build_entry rt self kind summary payload
                                            source client_ts skip with
           | Ret entry =>
               deliverable (dispatch_request self entry)
               && answered_ok rt (sent w) (dispatch_request self entry)
           | Raise _ => false
           end)
       (if DispatchClient.enabled self then
          match DispatchClient.build_entry rt self kind summary payload
                                           source client_ts skip with
          | Ret entry =>
              if deliverable (dispatch_request self entry)
              then [dispatch_request self entry] else []
          | Raise _ => []
          end
        else []).
Proof.
  unfold DispatchClient.dispatch, DispatchClient.enabled.
  destruct (DispatchClient._enabled self); cbn [negb andb].
  - destruct (DispatchClient.build_entry rt self kind summary payload source
                                         client_ts skip) as [entry|e] eqn:Hb.
    + apply ends_try.
      apply (ends_bind _ _ _ w entry [] _
                       (if deliverable (dispatch_request self entry)
                        then [dispatch_request self entry] else [])).
      { exists w. unfold lift. rewrite app_nil_r. auto. }
      intros w1 Hs1.
      apply (ends_bind _ _ _ w1 tt [] _
                       (if deliverable (dispatch_request self entry)
                        then [dispatch_request self entry] else []));
        [apply dispatch_log_ends|].
      intros w2 Hs2. rewrite app_nil_r in Hs1, Hs2.
      replace (sent w) with (sent w2) by congruence. apply send_ends.
    + unfold try_except, bind at 1, lift.
      apply (dispatch_log_then_ends self ("Dispatch failed: " +:+ str_exn e)
                                    false w).
  - apply dispatch_log_then_ends.
Qed.




(** ** What can be written survives redaction and bounding *)

Lemma int_limit_pos : 0 < Json.int_limit.
Proof. vm_compute. reflexivity. Qed.















(** X8.  The debug flag is observability only: two clients that differ
    in nothing but [debug] return the same result from [dispatch] and
    attempt the same requests, in every world; and the client whose flag
    is off writes nothing to stderr. *)
Theorem dispatch_debug_only_prints
        (rt : runtime)
        (dispatch_url dispatch_token ticket_uuid run_uuid
           message_uuid : option string)
        (timeout_ms max_bytes : Z) (kind summary : string)
        (payload : option pyvalue) (source : string)
        (client_ts : option string) (skip_redaction : bool) (w : world) :
  let client debug :=
    DispatchClient.__init__ dispatch_url dispatch_token ticket_uuid run_uuid
                            message_uuid timeout_ms max_bytes debug in
  exists b reqs,
    ends true
         (DispatchClient.dispatch rt (client true) kind summary payload source
                                  client_ts skip_redaction) w b reqs
    /\ ends false
            (DispatchClient.dispatch rt (client false) kind summary payload
                                     source client_ts skip_redaction) w b reqs.
Proof.
  intros client. eexists _, _. split.
  - apply (dispatch_ends rt (client true)).
  - apply (dispatch_ends rt (client false)).
Qed.

(* ===================================================================== *)
(** * Clients from the environment, once more *)
(* ===================================================================== *)

Lemma truthy_env_set (environ : gmap string string) (name : string) :
  truthy (environ !! name) = true <-> env_set environ name.
Proof. apply truthy_iff. Qed.

Lemma dispatch_from_env_ret environ c :
  DispatchClient.from_env environ = Ret c ->
  exists timeout_ms max_bytes,
    c = DispatchClient.__init__
          (environ !! "FULCRUM_DISPATCH_URL")
          (environ !! "FULCRUM_DISPATCH_TOKEN")
          (environ !! "FULCRUM_TICKET_UUID")
          (environ !! "FULCRUM_RUN_UUID")
          (environ !! "FULCRUM_MESSAGE_UUID")
          timeout_ms max_bytes
          (bool_decide (default "" (environ !! "FULCRUM_DISPATCH_DEBUG") = "1")).
Proof.
  unfold DispatchClient.from_env.
  destruct (PyInt.int _) as [timeout_ms|]; [|discriminate]. cbn [res_bind].
  destruct (PyInt.int _) as [max_bytes|]; [|discriminate]. cbn [res_bind].
  intros H. injection H as <-. eexists _, _. reflexivity.
Qed.

(** X9.  A dispatch client read from the environment is enabled exactly
    when the URL, the token, the ticket and the run are all set to
    strings that are not empty: a variable set to the empty string counts
    as missing, and a missing variable does not raise, it only leaves the
    client disabled.  Debug output is on only when the debug variable is
    exactly ["1"], and the message identifier, which is optional, is taken
    over as it is. *)
Theorem dispatch_from_env_enabled
        (environ : gmap string string) (c : DispatchClient.t) :
  DispatchClient.from_env environ = Ret c ->
  (DispatchClient.enabled c = true
   <-> env_set environ "FULCRUM_DISPATCH_URL"
       /\ env_set environ "FULCRUM_DISPATCH_TOKEN"
       /\ env_set environ "FULCRUM_TICKET_UUID"
       /\ env_set environ "FULCRUM_RUN_UUID")
  /\ (DispatchClient._debug c = true
      <-> environ !! "FULCRUM_DISPATCH_DEBUG" = Some "1")
  /\ DispatchClient._message_uuid c = environ !! "FULCRUM_MESSAGE_UUID".
Proof.
  intros H. apply dispatch_from_env_ret in H as (timeout_ms & max_bytes & ->).
  split; [|split].
  - rewrite dispatch_enabled_iff, !truthy_env_set. reflexivity.
  - cbn [DispatchClient._debug DispatchClient.__init__].
    rewrite bool_decide_eq_true.
    destruct (environ !! "FULCRUM_DISPATCH_DEBUG") as [s|]; simpl.
    + split; intros H; congruence.
    + split; intros H; discriminate.
  - reflexivity.
Qed.

Lemma dispatch_from_env_enabled_witness :
  exists c,
    DispatchClient.from_env sample_dispatch_environ = Ret c
    /\ DispatchClient.enabled c = true
    /\ DispatchClient._debug c = false.
Proof.
  eexists. split; [vm_compute; reflexivity|].
  match goal with
  | |- DispatchClient.enabled ?c = true /\ _ =>
      destruct (dispatch_from_env_enabled sample_dispatch_environ c)
        as (Hen & Hdebug & _); [vm_compute; reflexivity|]
  end.
  split.
  - apply Hen. repeat split; eexists; (split; [vm_compute; reflexivity|discriminate]).
  - reflexivity.
Defined.

Lemma improvements_from_env_ret environ c :
  ImprovementsClient.from_env environ = Ret c ->
  exists timeout_ms max_bytes,
    c = ImprovementsClient.__init__
          (environ !! "FULCRUM_IMPROVEMENTS_URL")
          (or_else (environ !! "FULCRUM_RUN_TOKEN")
                   (environ !! "FULCRUM_DISPATCH_TOKEN"))
          (environ !! "FULCRUM_PROJECT_UUID")
          (environ !! "FULCRUM_TICKET_UUID")
          (environ !! "FULCRUM_RUN_UUID")
          timeout_ms max_bytes
          (bool_decide
             (default "" (environ !! "FULCRUM_IMPROVEMENTS_DEBUG") = "1")).
Proof.
  unfold ImprovementsClient.from_env.
  destruct (PyInt.int _) as [timeout_ms|]; [|discriminate]. cbn [res_bind].
  destruct (PyInt.int _) as [max_bytes|]; [|discriminate]. cbn [res_bind].
  intros H. injection H as <-. eexists _, _. reflexivity.
Qed.

(** X10.  An improvements client read from the environment takes its
    token from [FULCRUM_RUN_TOKEN] when that is set and not empty, and
    otherwise, also when it is set to the empty string, falls back to
    [FULCRUM_DISPATCH_TOKEN].  It is enabled exactly when the URL, the run
    and one of the two tokens are set and not empty; the project and the
    ticket are not required. *)
Theorem improvements_from_env_token
        (environ : gmap string string) (c : ImprovementsClient.t) :
  ImprovementsClient.from_env environ = Ret c ->
  (forall s, environ !! "FULCRUM_RUN_TOKEN" = Some s -> s <> "" ->
             ImprovementsClient._run_token c = Some s)
  /\ (~ env_set environ "FULCRUM_RUN_TOKEN" ->
      ImprovementsClient._run_token c = environ !! "FULCRUM_DISPATCH_TOKEN")
  /\ (ImprovementsClient.enabled c = true
      <-> env_set environ "FULCRUM_IMPROVEMENTS_URL"
          /\ (env_set environ "FULCRUM_RUN_TOKEN"
              \/ env_set environ "FULCRUM_DISPATCH_TOKEN")
          /\ env_set environ "FULCRUM_RUN_UUID").
Proof.
  intros H. apply improvements_from_env_ret in H as (timeout_ms & max_bytes & ->).
  cbn [ImprovementsClient._run_token ImprovementsClient.__init__].
  split; [|split].
  - intros s Hs Hne. unfold or_else. rewrite Hs.
    assert (Ht : truthy (Some s) = true) by (apply truthy_iff; eauto).
    rewrite Ht. reflexivity.
  - intros Hunset. unfold or_else.
    destruct (truthy (environ !! "FULCRUM_RUN_TOKEN")) eqn:Ht; [|reflexivity].
    exfalso. apply Hunset, truthy_env_set, Ht.
  - rewrite improvements_enabled_iff, !truthy_env_set.
    assert (Htok : truthy (or_else (environ !! "FULCRUM_RUN_TOKEN")
                                   (environ !! "FULCRUM_DISPATCH_TOKEN")) = true
                   <-> env_set environ "FULCRUM_RUN_TOKEN"
                       \/ env_set environ "FULCRUM_DISPATCH_TOKEN").
    { unfold or_else.
      destruct (truthy (environ !! "FULCRUM_RUN_TOKEN")) eqn:Ht.
      - rewrite Ht. split; [intros _; left; apply truthy_env_set, Ht|reflexivity].
      - rewrite truthy_env_set. split; [auto|].
        intros [H|H]; [|exact H]. apply truthy_env_set in H. congruence. }
    rewrite Htok. reflexivity.
Qed.

Lemma improvements_from_env_token_witness :
  exists c,
    ImprovementsClient.from_env sample_improvements_environ = Ret c
    /\ ImprovementsClient._run_token c = Some "fallback-token"
    /\ ImprovementsClient.enabled c = true.
Proof.
  eexists. split; [vm_compute; reflexivity|].
  match goal with
  | |- ImprovementsClient._run_token ?c = _ /\ _ =>
      destruct (improvements_from_env_token sample_improvements_environ c)
        as (_ & Hfallback & Hen); [vm_compute; reflexivity|]
  end.
  split.
  - rewrite Hfallback; [vm_compute; reflexivity|].
    intros (s & Hs & Hne). vm_compute in Hs. congruence.
  - reflexivity.
Defined.

(* ===================================================================== *)
(** * The operations of the improvements client *)
(* ===================================================================== *)

Lemma on_error_ends {A : Type} self timed_out error (noop : A) e w :
  ends (ImprovementsClient._debug self)
       (ImprovementsClient.on_error self timed_out error noop e) w noop [].
Proof.
  unfold ImprovementsClient.on_error.
  destruct (is_timeout e); apply improvements_log_then_ends.
Qed.

Lemma on_response_ends self ok failed r w :
  ends (ImprovementsClient._debug self)
       (ImprovementsClient.on_response self ok failed r) w (is_success r) [].
Proof.
  unfold ImprovementsClient.on_response.
  destruct (is_success r); apply improvements_log_then_ends.
Qed.

(** A handler that ends takes over from a body that raises. *)
Lemma ends_try_log {B : Type} self msg (k : M B) handler w b reqs :
  (forall w1, sent w1 = sent w ->
              ends (ImprovementsClient._debug self) (try_except k handler)
                   w1 b reqs) ->
  ends (ImprovementsClient._debug self)
       (try_except (bind (ImprovementsClient._log_debug self msg)
                         (fun _ => k)) handler) w b reqs.
Proof.
  intros Hk.
  apply (ends_try_bind _ _ _ _ w (Ret tt) [] b reqs).
  - destruct (improvements_log_ends self msg w) as (w1 & H). exists w1. exact H.
  - intros w1 Hs. rewrite app_nil_r in Hs. apply Hk, Hs.
Qed.

(** The end of every writing method: the timeout is divided, the
    request is built and sent, the status is checked, and the handler is
    around it all. *)
Lemma request_ends rt self req ok failed timed_out error w :
  ends (ImprovementsClient._debug self)
       (try_except
          (bind (lift (ms_to_seconds (req_timeout_ms req)))
                (fun timeout_ms =>
                   bind (http rt (with_timeout req timeout_ms))
                        (ImprovementsClient.on_response self ok failed)))
          (ImprovementsClient.on_error self timed_out error false))
       w (deliverable req && answered_ok rt (sent w) req)
       (if deliverable req then [req] else []).
Proof.
  rewrite <- if_answered.
  apply (call_ends (ImprovementsClient._debug self) rt req _ _ false
                   is_success w).
  - intros e w1. apply on_error_ends.
  - intros r w1. apply ends_try, on_response_ends.
Qed.





Lemma delete_ends rt self uuid w :
  let req := improvements_request
               self DELETE (Some (item_url self uuid))
               [("run_uuid", ImprovementsClient._run_uuid self)] None in
  ends (ImprovementsClient._debug self)
       (ImprovementsClient.delete_improvement rt self uuid) w
       (ImprovementsClient.enabled self && deliverable req
        && answered_ok rt (sent w) req)
       (if ImprovementsClient.enabled self && deliverable req
        then [req] else []).
Proof.
  intros req. unfold ImprovementsClient.delete_improvement,
    ImprovementsClient.enabled.
  destruct (ImprovementsClient._enabled self); cbn [negb andb].
  - apply ends_try_log. intros w1 Hs. rewrite <- Hs.
    apply (request_ends rt self req).
  - apply improvements_log_then_ends.
Qed.


(** ** [create_improvement] *)

Lemma optional_max_length_ok name n (o : option string) :
  (forall s, o = Some s -> PyStr.len s <= n) ->
  ImprovementModels.optional_max_length name n o = Ret o.
Proof.
  destruct o as [s|]; simpl; [|reflexivity]. intros H.
  rewrite (max_length_ok name n s) by (apply H; reflexivity). reflexivity.
Qed.

Lemma optional_max_length_ret name n (o o' : option string) :
  ImprovementModels.optional_max_length name n o = Ret o' ->
  o' = o /\ forall s, o = Some s -> PyStr.len s <= n.
Proof.
  destruct o as [s|]; simpl.
  - destruct (Models.max_length name n s) as [v|] eqn:Hm; [|discriminate].
    apply max_length_ret in Hm as [-> Hlen]. simpl. intros H.
    injection H as <-. split; [reflexivity|]. intros s' Hs. injection Hs as <-.
    exact Hlen.
  - intros H. injection H as <-. split; [reflexivity|discriminate].
Qed.

Lemma literal_status_iff status :
  (exists s, ImprovementModels.literal_status status = Ret s)
  <-> In status ImprovementModels.ImprovementStatus.
Proof.
  unfold ImprovementModels.literal_status. rewrite <- list_elem_of_In.
  destruct (decide (status ∈ ImprovementModels.ImprovementStatus)) as [H|H].
  - rewrite bool_decide_eq_true_2 by exact H. split; [auto|eauto].
  - rewrite bool_decide_eq_false_2 by exact H.
    split; [intros [s Hs]; discriminate|contradiction].
Qed.

Lemma literal_status_ret status s :
  ImprovementModels.literal_status status = Ret s -> s = status.
Proof.
  unfold ImprovementModels.literal_status. destruct (bool_decide _);
    [|discriminate]. intros H. injection H as <-. reflexivity.
Qed.

Lemma new_ImprovementCreate_iff title description dedupe_key status :
  (PyStr.len title <= 256
   /\ (forall k, dedupe_key = Some k -> PyStr.len k <= 256)
   /\ In status ImprovementModels.ImprovementStatus
   /\ ImprovementModels.new_ImprovementCreate title description dedupe_key
                                              status
      = Ret {| ImprovementModels.create_title := title;
               ImprovementModels.create_description := description;
               ImprovementModels.create_dedupe_key := dedupe_key;
               ImprovementModels.create_status := status |})
  \/ ((256 < PyStr.len title
       \/ (exists k, dedupe_key = Some k /\ 256 < PyStr.len k)
       \/ ~ In status ImprovementModels.ImprovementStatus)
      /\ exists e,
          ImprovementModels.new_ImprovementCreate title description dedupe_key
                                                  status = Raise e).
Proof.
  unfold ImprovementModels.new_ImprovementCreate.
  destruct (Models.max_length "title" 256 title) as [t|e] eqn:Ht.
  - apply max_length_ret in Ht as [-> Hlen]. cbn [res_bind].
    destruct (ImprovementModels.optional_max_length "dedupe_key" 256 dedupe_key)
      as [k|e] eqn:Hk.
    + apply optional_max_length_ret in Hk as [-> Hklen]. cbn [res_bind].
      destruct (ImprovementModels.literal_status status) as [s|e] eqn:Hs.
      * pose proof (literal_status_ret _ _ Hs) as ->.
        left. cbn [res_bind]. repeat (split; [assumption|]).
        split; [apply literal_status_iff; eauto|reflexivity].
      * right. split; [|eexists; reflexivity]. right. right.
        intros Hin. apply literal_status_iff in Hin as [s Hs']. congruence.
    + right. split; [|eexists; reflexivity]. right. left.
      destruct dedupe_key as [k|]; [|discriminate]. exists k.
      split; [reflexivity|]. simpl in Hk.
      unfold Models.max_length in Hk.
      destruct (Z.ltb_spec 256 (PyStr.len k)); [assumption|discriminate].
  - right. split; [|eexists; reflexivity]. left.
    unfold Models.max_length in Ht.
    destruct (Z.ltb_spec 256 (PyStr.len title)); [assumption|discriminate].
Qed.

(** The body of a create request: no two keys collide, so the items are
    in the order in which they were assigned. *)
Lemma create_body_eq self title description dedupe_key status :
  let request_body :=
    dict_merge [(KStr "run_uuid",
                 ImprovementsClient.opt_value (ImprovementsClient._run_uuid self))]
               (ImprovementModels.dump_create
                  {| ImprovementModels.create_title := title;
                     ImprovementModels.create_description := description;
                     ImprovementModels.create_dedupe_key := dedupe_key;
                     ImprovementModels.create_status := status |}) in
  let request_body :=
    if truthy (ImprovementsClient._project_uuid self)
    then dict_set request_body (KStr "project_uuid")
                  (ImprovementsClient.opt_value
                     (ImprovementsClient._project_uuid self))
    else request_body in
  (if truthy (ImprovementsClient._ticket_uuid self)
   then dict_set request_body (KStr "ticket_uuid")
                 (ImprovementsClient.opt_value
                    (ImprovementsClient._ticket_uuid self))
   else request_body)
  = create_body self title description dedupe_key status.
Proof.
  unfold create_body, ImprovementModels.dump_create.
  cbn [ImprovementModels.create_title ImprovementModels.create_description
       ImprovementModels.create_dedupe_key ImprovementModels.create_status].
  destruct description, dedupe_key,
    (truthy (ImprovementsClient._project_uuid self)),
    (truthy (ImprovementsClient._ticket_uuid self)); reflexivity.
Qed.



Lemma create_ends rt self title description dedupe_key status w :
  let req := improvements_request
               self POST (ImprovementsClient._improvements_url self) []
               (Some (VDict (create_body self title description dedupe_key
                                         status))) in
  let valid :=
    match ImprovementModels.new_ImprovementCreate title description dedupe_key
                                                  status with
    | Ret _ => true
    | Raise _ => false
    end in
  ends (ImprovementsClient._debug self)
       (ImprovementsClient.create_improvement rt self title description
                                              dedupe_key status) w
       (ImprovementsClient.enabled self && valid && deliverable req
        && answered_ok rt (sent w) req)
       (if ImprovementsClient.enabled self && valid && deliverable req
        then [req] else []).
Proof.
  intros req valid. unfold ImprovementsClient.create_improvement,
    ImprovementsClient.enabled.
  destruct (ImprovementsClient._enabled self); cbn [negb andb].
  - apply ends_try_lift. subst valid.
    destruct (new_ImprovementCreate_iff title description dedupe_key status)
      as [(_ & _ & _ & ->)|(_ & e & ->)]; cbn [andb].
    + apply ends_try_log. intros w1 Hs. rewrite <- Hs.
      pose proof (create_body_eq self title description dedupe_key status)
        as Hbody.
      cbv zeta in Hbody. rewrite Hbody.
      apply (request_ends rt self req).
    + apply on_error_ends.
  - apply improvements_log_then_ends.
Qed.



(** ** [emit_improvement_event] *)

Lemma new_ImprovementEvent_cases improvement_uuid action payload :
  (PyStr.len action <= 64
   /\ (forall p, payload = Some p -> str_keyed p = true)
   /\ ImprovementModels.new_ImprovementEvent improvement_uuid action payload
      = Ret {| ImprovementModels.improvement_uuid := improvement_uuid;
               ImprovementModels.action := action;
               ImprovementModels.event_payload := payload |})
  \/ ((64 < PyStr.len action
       \/ exists p, payload = Some p /\ str_keyed p = false)
      /\ exists e,
          ImprovementModels.new_ImprovementEvent improvement_uuid action
                                                 payload = Raise e).
Proof.
  unfold ImprovementModels.new_ImprovementEvent.
  destruct (Models.max_length "action" 64 action) as [a|e] eqn:Ha.
  - apply max_length_ret in Ha as [-> Hlen]. cbn [res_bind].
    destruct (Models.dict_field "payload" payload) as [p|e] eqn:Hp.
    + pose proof (dict_field_ret _ _ _ Hp) as ->. left. cbn [res_bind].
      split; [exact Hlen|]. split; [|reflexivity].
      intros p ->. apply (dict_field_some_ret _ _ _ Hp).
    + right. split; [|eexists; reflexivity]. right.
      destruct payload as [p|]; [|discriminate]. exists p.
      split; [reflexivity|]. destruct (str_keyed p) eqn:Hk; [|reflexivity].
      rewrite (dict_field_ok "payload" p Hk) in Hp. discriminate.
  - right. split; [|eexists; reflexivity]. left.
    unfold Models.max_length in Ha.
    destruct (Z.ltb_spec 64 (PyStr.len action)); [assumption|discriminate].
Qed.


Lemma event_body_eq self improvement_uuid action payload :
  dict_merge [(KStr "run_uuid",
               ImprovementsClient.opt_value (ImprovementsClient._run_uuid self))]
             (ImprovementModels.dump_event
                {| ImprovementModels.improvement_uuid := improvement_uuid;
                   ImprovementModels.action := action;
                   ImprovementModels.event_payload :=
                     event_payload_sent self payload |})
  = event_body self improvement_uuid action payload.
Proof.
  unfold event_body.
  destruct (event_payload_sent self payload); reflexivity.
Qed.

(** The processing of the payload of an event, in one equation. *)
Lemma event_payload_eq self (payload : option pyvalue) :
  match payload with
  | Some p =>
      res_bind
        (ImprovementsClient._truncate_payload
           self (Redaction.redact_payload p false))
        (fun processed => Ret (Some processed))
  | None => Ret None
  end
  = match payload with
    | Some p =>
        if Json.encodable (Redaction.redact_payload p false)
        then Ret (event_payload_sent self payload)
        else Raise Json.digits_error
    | None => Ret None
    end.
Proof.
  destruct payload as [p|]; [|reflexivity].
  rewrite improvements_truncate_eq. unfold event_payload_sent.
  destruct (Json.encodable (Redaction.redact_payload p false)); reflexivity.
Qed.


Lemma emit_ends rt self improvement_uuid action payload w :
  let req := improvements_request
               self POST
               (Some (fmt (ImprovementsClient._improvements_url self)
                        +:+ "/" +:+ improvement_uuid +:+ "/events")) []
               (Some (VDict (event_body self improvement_uuid action payload)))
  in
  let writable :=
    match payload with
    | Some p => Json.encodable (Redaction.redact_payload p false)
    | None => true
    end in
  let valid :=
    match ImprovementModels.new_ImprovementEvent
            improvement_uuid action (event_payload_sent self payload) with
    | Ret _ => true
    | Raise _ => false
    end in
  ends (ImprovementsClient._debug self)
       (ImprovementsClient.emit_improvement_event rt self improvement_uuid
                                                  action payload) w
       (ImprovementsClient.enabled self && (writable && valid)
        && deliverable req && answered_ok rt (sent w) req)
       (if ImprovementsClient.enabled self && (writable && valid)
           && deliverable req
        then [req] else []).
Proof.
  intros req writable valid. unfold ImprovementsClient.emit_improvement_event,
    ImprovementsClient.enabled.
  destruct (ImprovementsClient._enabled self); cbn [negb andb].
  - apply ends_try_lift. rewrite event_payload_eq.
    assert (Hgo : ends (ImprovementsClient._debug self)
                    (try_except
                       (bind (lift (ImprovementModels.new_ImprovementEvent
                                      improvement_uuid action
                                      (event_payload_sent self payload)))
                             (fun event =>
                                let request_body :=
                                  dict_merge
                                    [(KStr "run_uuid",
                                      ImprovementsClient.opt_value
                                        (ImprovementsClient._run_uuid self))]
                                    (ImprovementModels.dump_event event) in
                                let url :=
                                  fmt (ImprovementsClient._improvements_url self)
                                  +:+ "/" +:+ improvement_uuid +:+ "/events" in
                                bind (ImprovementsClient._log_debug
                                        self ("Emitting event: " +:+ action
                                              +:+ " for " +:+ improvement_uuid))
                                     (fun _ =>
                                        bind (lift (ms_to_seconds
                                                      (ImprovementsClient._timeout_ms self)))
                                             (fun timeout_ms =>
                                                bind (http rt
                                                        {| req_method := POST;
                                                           req_url := Some url;
                                                           req_params := [];
                                                           req_json :=
                                                             Some (VDict request_body);
                                                           req_headers :=
                                                             ImprovementsClient._get_headers self;
                                                           req_timeout_ms := timeout_ms |})
                                                     (fun response =>
                                                        ImprovementsClient.on_response
                                                          self
                                                          "Event emitted successfully"
                                                          "Event failed with status "
                                                          response)))))
                       (ImprovementsClient.on_error
                          self "Event request timed out" "Event error: "
                          false))
                    w
                    (valid && deliverable req && answered_ok rt (sent w) req)
                    (if valid && deliverable req then [req] else [])).
    { apply ends_try_lift. subst valid.
      destruct (new_ImprovementEvent_cases improvement_uuid action
                                           (event_payload_sent self payload))
        as [(_ & _ & ->)|(_ & e & ->)]; cbn [andb].
      - apply ends_try_log. intros w1 Hs. rewrite <- Hs.
        cbv zeta. rewrite event_body_eq.
        apply (request_ends rt self req).
      - apply on_error_ends. }
    subst writable. destruct payload as [p|]; cbn [andb].
    + destruct (Json.encodable (Redaction.redact_payload p false));
        cbn [andb]; [exact Hgo|apply on_error_ends].
    + exact Hgo.
  - apply improvements_log_then_ends.
Qed.



(** ** [list_improvements] *)



Lemma list_params_eq self project_uuid :
  (if truthy (or_else project_uuid (ImprovementsClient._project_uuid self))
   then [("run_uuid", ImprovementsClient._run_uuid self)]
        ++ [("project_uuid",
             or_else project_uuid (ImprovementsClient._project_uuid self))]
   else [("run_uuid", ImprovementsClient._run_uuid self)])
  = list_params self project_uuid.
Proof.
  unfold list_params, or_else.
  destruct (truthy project_uuid) eqn:Hp.
  - rewrite Hp. reflexivity.
  - destruct (truthy (ImprovementsClient._project_uuid self)); reflexivity.
Qed.

Lemma ends_try_lift_last {A : Type} debug (r : res A) handler w a reqs :
  ends debug (match r with
              | Ret x => ret x
              | Raise e => handler e
              end) w a reqs ->
  ends debug (try_except (lift r) handler) w a reqs.
Proof.
  intros (w' & Hrun & Hs & Hq). exists w'. split; [|auto].
  unfold try_except, lift. destruct r as [x|e]; exact Hrun.
Qed.

(** What [list_improvements] makes of a response, inside its [try]. *)
Lemma list_response_ends self (r : response) w1 :
  ends (ImprovementsClient._debug self)
       (try_except
          (if is_success r then
             bind (lift (json r))
                  (fun data =>
                     match
                       match data with
                       | VList _ => Some data
                       | VDict items =>
                           Some (default data
                                         (dict_get items (KStr "improvements")))
                       | _ => None
                       end
                     with
                     | None =>
                         bind (ImprovementsClient._log_debug
                                 self ("Unexpected response format: "
                                       +:+ ImprovementsClient.type_name data))
                              (fun _ => ret [])
                     | Some (VList improvements_data) =>
                         lift (ImprovementsClient.parse_improvements
                                 improvements_data)
                     | Some improvements_data =>
                         bind (ImprovementsClient._log_debug
                                 self ("Unexpected response format: "
                                       +:+ ImprovementsClient.type_name
                                             improvements_data))
                              (fun _ => ret [])
                     end)
           else
             bind (ImprovementsClient._log_debug
                     self ("List failed with status "
                           +:+ PyStr.of_Z (status_code r)))
                  (fun _ => ret []))
          (ImprovementsClient.on_error self "List request timed out"
                                       "List error: " []))
       w1 (listed (Ret r)) [].
Proof.
  unfold listed.
  destruct (is_success r); [|apply ends_try, improvements_log_then_ends].
  apply ends_try_lift.
  destruct (json r) as [data|e]; [|apply on_error_ends].
  destruct data as [| | | |xs|items]; cbn [response_items];
    try (apply ends_try, improvements_log_then_ends).
  - apply ends_try_lift_last.
    destruct (ImprovementsClient.parse_improvements xs) as [l|e];
      [apply ends_ret|apply on_error_ends].
  - destruct (dict_get items (KStr "improvements")) as [v|]; cbn [default];
      [|apply ends_try, improvements_log_then_ends].
    destruct v as [| | | |xs|items'];
      try (apply ends_try, improvements_log_then_ends).
    apply ends_try_lift_last.
    destruct (ImprovementsClient.parse_improvements xs) as [l|e];
      [apply ends_ret|apply on_error_ends].
Qed.

Lemma list_ends rt self project_uuid w :
  let req := improvements_request
               self GET (ImprovementsClient._improvements_url self)
               (list_params self project_uuid) None in
  ends (ImprovementsClient._debug self)
       (ImprovementsClient.list_improvements rt self project_uuid) w
       (if ImprovementsClient.enabled self && deliverable req
        then listed (transport rt (sent w) req) else [])
       (if ImprovementsClient.enabled self && deliverable req
        then [req] else []).
Proof.
  intros req. unfold ImprovementsClient.list_improvements,
    ImprovementsClient.enabled.
  destruct (ImprovementsClient._enabled self); cbn [negb andb].
  - cbv zeta. rewrite list_params_eq.
    pose proof (call_ends (ImprovementsClient._debug self) rt req _
                          (ImprovementsClient.on_error
                             self "List request timed out" "List error: " [])
                          [] (fun r => listed (Ret r)) w
                          (fun e w1 => on_error_ends self _ _ [] e w1)
                          (fun r w1 => list_response_ends self r w1)) as H.
    replace (if deliverable req then listed (transport rt (sent w) req) else [])
      with (if deliverable req
            then match transport rt (sent w) req with
                 | Ret r => listed (Ret r)
                 | Raise _ => []
                 end
            else [])
      by (destruct (deliverable req); [|reflexivity];
          destruct (transport rt (sent w) req); reflexivity).
    exact H.
  - apply improvements_log_then_ends.
Qed.


(** ** [update_improvement] *)








Lemma new_ImprovementUpdate_cases vf :
  if keyword_ok vf "title" && keyword_ok vf "description"
     && keyword_ok vf "status"
  then ImprovementModels.new_ImprovementUpdate vf
       = Ret {| ImprovementModels.update_title := update_value vf "title";
                ImprovementModels.update_description :=
                  update_value vf "description";
                ImprovementModels.update_status := update_value vf "status" |}
  else exists e, ImprovementModels.new_ImprovementUpdate vf = Raise e.
Proof.
  unfold ImprovementModels.new_ImprovementUpdate, keyword_ok, update_value.
  destruct (ImprovementModels.kwargs_get vf "title") as [[| | |ti| |]|];
    cbn [field_okb andb ImprovementModels.optional_str res_bind
         ImprovementModels.optional_max_length String.eqb Ascii.eqb
         Bool.eqb];
    try (eexists; reflexivity).
  all: try (unfold Models.max_length;
            destruct (Z.leb_spec (PyStr.len ti) 256) as [Hl|Hl];
            [rewrite (proj2 (Z.ltb_ge _ _) Hl)
            |rewrite (proj2 (Z.ltb_lt _ _) Hl)];
            cbn [andb res_bind]; [|eexists; reflexivity]).
  all: destruct (ImprovementModels.kwargs_get vf "description")
    as [[| | |d| |]|];
    cbn [field_okb andb ImprovementModels.optional_str res_bind
         String.eqb Ascii.eqb Bool.eqb];
    try (eexists; reflexivity).
  all: destruct (ImprovementModels.kwargs_get vf "status") as [[| | |st| |]|];
    cbn [field_okb andb ImprovementModels.optional_status
         ImprovementModels.status_field res_bind String.eqb Ascii.eqb
         Bool.eqb];
    try (eexists; reflexivity); try reflexivity.
  all: unfold ImprovementModels.literal_status;
    destruct (bool_decide (st ∈ ImprovementModels.ImprovementStatus));
    cbn [res_bind]; try reflexivity; eexists; reflexivity.
Qed.

Lemma update_body_eq self vf :
  dict_merge [(KStr "run_uuid",
               ImprovementsClient.opt_value (ImprovementsClient._run_uuid self))]
             (ImprovementModels.dump_update
                {| ImprovementModels.update_title := update_value vf "title";
                   ImprovementModels.update_description :=
                     update_value vf "description";
                   ImprovementModels.update_status :=
                     update_value vf "status" |})
  = update_body self vf.
Proof.
  unfold update_body, ImprovementModels.dump_update.
  cbn [ImprovementModels.update_title ImprovementModels.update_description
       ImprovementModels.update_status].
  destruct (update_value vf "title"), (update_value vf "description"),
    (update_value vf "status"); reflexivity.
Qed.


Lemma update_ends rt self uuid fields w :
  let vf := List.filter ImprovementsClient.valid_field fields in
  let req := improvements_request self PATCH (Some (item_url self uuid)) []
               (Some (VDict (update_body self vf))) in
  let valid := match vf with [] => false | _ => true end
               && (keyword_ok vf "title" && keyword_ok vf "description"
                   && keyword_ok vf "status") in
  ends (ImprovementsClient._debug self)
       (ImprovementsClient.update_improvement rt self uuid fields) w
       (ImprovementsClient.enabled self && valid && deliverable req
        && answered_ok rt (sent w) req)
       (if ImprovementsClient.enabled self && valid && deliverable req
        then [req] else []).
Proof.
  intros vf req valid. unfold ImprovementsClient.update_improvement,
    ImprovementsClient.enabled.
  destruct (ImprovementsClient._enabled self); cbn [negb andb].
  - cbv zeta. fold vf. subst valid.
    assert (Hnil : forall X Y : M bool,
               match vf with [] => X | _ :: _ => Y end
               = if match vf with [] => false | _ => true end
                 then Y else X)
      by (intros; destruct vf; reflexivity).
    rewrite Hnil. clear Hnil.
    destruct (match vf with [] => false | _ => true end); cbn [andb].
    + apply ends_try_lift.
      pose proof (new_ImprovementUpdate_cases vf) as Hnew.
      destruct (keyword_ok vf "title" && keyword_ok vf "description"
                && keyword_ok vf "status").
      * rewrite Hnew. apply ends_try_log. intros w1 Hs. rewrite <- Hs.
        rewrite update_body_eq. apply (request_ends rt self req).
      * destruct Hnew as [e ->]. apply on_error_ends.
    + apply ends_try, improvements_log_then_ends.
  - apply improvements_log_then_ends.
Qed.



(** ** The convenience methods *)








(** ** The debug flag of the improvements client *)

(** X18.  The debug flag of the improvements client is observability
    only.  Two clients that differ in nothing but [debug] return the same
    result and attempt the same requests, in every world, from each of
    [list_improvements], [create_improvement], [update_improvement],
    [delete_improvement] and [emit_improvement_event]; none of the five
    raises; and the client whose flag is off writes nothing to stderr. *)
Theorem improvements_debug_only_prints
        (rt : runtime)
        (improvements_url run_token project_uuid ticket_uuid
           run_uuid : option string)
        (timeout_ms max_bytes : Z)
        (project : option string) (title : string)
        (description dedupe_key : option string) (status uuid : string)
        (fields : list (string * pyvalue)) (action : string)
        (payload : option pyvalue) (w : world) :
  let client debug :=
    ImprovementsClient.__init__ improvements_url run_token project_uuid
                                ticket_uuid run_uuid timeout_ms max_bytes
                                debug in
  (exists l reqs,
      ends true (ImprovementsClient.list_improvements rt (client true) project)
           w l reqs
      /\ ends false
              (ImprovementsClient.list_improvements rt (client false) project)
              w l reqs)
  /\ forall op : ImprovementsClient.t -> M bool,
      In op [(fun c => ImprovementsClient.create_improvement
                         rt c title description dedupe_key status);
             (fun c => ImprovementsClient.update_improvement rt c uuid fields);
             (fun c => ImprovementsClient.delete_improvement rt c uuid);
             (fun c => ImprovementsClient.emit_improvement_event
                         rt c uuid action payload)] ->
      exists b reqs,
        ends true (op (client true)) w b reqs
        /\ ends false (op (client false)) w b reqs.
Proof.
  intros client. split.
  - eexists _, _. split.
    + apply (list_ends rt (client true)).
    + apply (list_ends rt (client false)).
  - intros op [<-|[<-|[<-|[<-|[]]]]]; eexists _, _; split.
    + apply (create_ends rt (client true)).
    + apply (create_ends rt (client false)).
    + apply (update_ends rt (client true)).
    + apply (update_ends rt (client false)).
    + apply (delete_ends rt (client true)).
    + apply (delete_ends rt (client false)).
    + apply (emit_ends rt (client true)).
    + apply (emit_ends rt (client false)).
Qed.

(** ** The shape of the payload against its size *)





